(** * Learn by Doing v1 backend: authentication and role approval

    A shallow embedding of the account, token and password code of
    [backend/app] (password_validator.py, db.py, security/jwt_manager.py,
    security/dependencies.py, routers/auth.py, routers/users.py) and the
    properties of it that the specification states.

    Conventions of the embedding.
    - A Python [str] whose characters are inspected (passwords and the
      username given to the validator) is a list of Unicode code points,
      [pystr]; a [str] that is only stored and compared (emails, roles,
      tickets, messages, dictionary keys) is a [string].
    - A [datetime] is an integer number of seconds, [Z]; a handler reads the
      clock once per request, as [now].
    - The [users] table is the list of its rows in insertion order; a
      [query.filter(...).first()] is the first row that matches.
    - A handler is a function from the request and the store to a result
      (a response or an HTTP error) and the store it leaves behind. *)

From stdpp Require Import base option list strings gmap pretty.
From Stdlib Require Import ZArith Lia.

Open Scope string_scope.
Open Scope list_scope.

(** ** Python values *)

(** A Python [str] as the sequence of its code points. *)
Definition pystr := list N.

(** The text of a literal of the source (ASCII) as a [pystr]. *)
Definition codepoints (s : string) : pystr :=
  Ascii.N_of_ascii <$> String.list_ascii_of_string s.
Coercion codepoints : string >-> pystr.

(** [needle in hay] for two strings: [needle] occurs as a contiguous run. *)
Fixpoint str_contains (needle hay : pystr) : bool :=
  bool_decide (needle `prefix_of` hay) ||
  match hay with
  | [] => false
  | _ :: hay' => str_contains needle hay'
  end.

(** Truth value of a string: the empty string is falsy. *)
Definition truthy_pystr (s : pystr) : bool :=
  match s with [] => false | _ => true end.

(** The code points of Unicode category Nd (decimal digits), as inclusive
    ranges: the characters that [re]'s class [\d] matches in a [str]
    (Unicode 14.0.0, the table of CPython 3.11). *)
Definition Nd_ranges : list (N * N) :=
  [ (48, 57); (1632, 1641); (1776, 1785); (1984, 1993); (2406, 2415);
    (2534, 2543); (2662, 2671); (2790, 2799); (2918, 2927); (3046, 3055);
    (3174, 3183); (3302, 3311); (3430, 3439); (3558, 3567); (3664, 3673);
    (3792, 3801); (3872, 3881); (4160, 4169); (4240, 4249); (6112, 6121);
    (6160, 6169); (6470, 6479); (6608, 6617); (6784, 6793); (6800, 6809);
    (6992, 7001); (7088, 7097); (7232, 7241); (7248, 7257); (42528, 42537);
    (43216, 43225); (43264, 43273); (43472, 43481); (43504, 43513);
    (43600, 43609); (44016, 44025); (65296, 65305); (66720, 66729);
    (68912, 68921); (69734, 69743); (69872, 69881); (69942, 69951);
    (70096, 70105); (70384, 70393); (70736, 70745); (70864, 70873);
    (71248, 71257); (71360, 71369); (71472, 71481); (71904, 71913);
    (72016, 72025); (72784, 72793); (73040, 73049); (73120, 73129);
    (92768, 92777); (92864, 92873); (93008, 93017); (120782, 120831);
    (123200, 123209); (123632, 123641); (125264, 125273); (130032, 130041) ]%N.

Definition unicode_Nd (c : N) : bool :=
  existsb (λ r, (r.1 <=? c)%N && (c <=? r.2)%N) Nd_ranges.

(** ** password_validator.py *)

Section PasswordPolicy.

(** [str.lower] is Unicode lower-casing, which is not a map on single
    characters (final sigma, characters that lower to two); it belongs to
    the Python runtime and is taken as it is. *)
Variable str_lower : pystr → pystr.

Definition MIN_LENGTH : nat := 12.
Definition REQUIRE_UPPERCASE : bool := true.
Definition REQUIRE_LOWERCASE : bool := true.
Definition REQUIRE_DIGIT : bool := true.
Definition REQUIRE_SPECIAL : bool := true.
Definition SPECIAL_CHARS : string := "!@#$%^&*()_+-=[]{}|;:,.<>?".

Definition ERR_LENGTH : string :=
  "Password must be at least " +:+ pretty MIN_LENGTH +:+ " characters long".
Definition ERR_UPPERCASE : string :=
  "Password must contain at least one uppercase letter".
Definition ERR_LOWERCASE : string :=
  "Password must contain at least one lowercase letter".
Definition ERR_DIGIT : string :=
  "Password must contain at least one digit".
Definition ERR_SPECIAL : string :=
  "Password must contain at least one special character ("
    +:+ SPECIAL_CHARS +:+ ")".
Definition ERR_USERNAME : string :=
  "Password should not contain your username or email".

(** [re.search(r"[A-Z]", password)], [r"[a-z]"], [r"\d"]. *)
Definition has_uppercase (password : pystr) : bool :=
  existsb (λ c, (65 <=? c)%N && (c <=? 90)%N) password.
Definition has_lowercase (password : pystr) : bool :=
  existsb (λ c, (97 <=? c)%N && (c <=? 122)%N) password.
Definition has_digit (password : pystr) : bool :=
  existsb unicode_Nd password.
(** [any(char in cls.SPECIAL_CHARS for char in password)]. *)
Definition has_special (password : pystr) : bool :=
  existsb (λ c, bool_decide (c ∈ codepoints SPECIAL_CHARS)) password.

(** [PasswordValidator.validate]: the list [errors] is extended in place,
    one test after the other. *)
Definition validate (password : pystr) : bool * list string :=
  let errors := [] in
  let errors :=
    if (length password <? MIN_LENGTH)%nat
    then errors ++ [ERR_LENGTH] else errors in
  let errors :=
    if REQUIRE_UPPERCASE && negb (has_uppercase password)
    then errors ++ [ERR_UPPERCASE] else errors in
  let errors :=
    if REQUIRE_LOWERCASE && negb (has_lowercase password)
    then errors ++ [ERR_LOWERCASE] else errors in
  let errors :=
    if REQUIRE_DIGIT && negb (has_digit password)
    then errors ++ [ERR_DIGIT] else errors in
  let errors :=
    if REQUIRE_SPECIAL && negb (has_special password)
    then errors ++ [ERR_SPECIAL] else errors in
  ((length errors =? 0)%nat, errors).

(** The dictionary [validate_password] returns. *)
Record validation_result := {
  is_valid : bool;
  errors : list string;
  strength_guide : list string
}.

Definition STRENGTH_GUIDE : list string :=
  [ "At least " +:+ pretty MIN_LENGTH +:+ " characters long";
    "Contains uppercase and lowercase letters";
    "Contains at least one number";
    "Contains at least one special character (" +:+ SPECIAL_CHARS +:+ ")";
    "Does not contain your username or email" ].

(** [validate_password(password, username="")]. *)
Definition validate_password (password username : pystr)
  : validation_result :=
  let '(is_valid, errors) := validate password in
  let '(is_valid, errors) :=
    if truthy_pystr username
       && str_contains (str_lower username) (str_lower password)
    then (false, errors ++ [ERR_USERNAME])
    else (is_valid, errors) in
  {| is_valid := is_valid; errors := errors;
     strength_guide := STRENGTH_GUIDE |}.

(** What each rule of the policy asks of a password. *)
Definition long_enough (password : pystr) : Prop :=
  (12 ≤ length password)%nat.
Definition some_uppercase (password : pystr) : Prop :=
  ∃ c, c ∈ password ∧ (65 ≤ c ≤ 90)%N.
Definition some_lowercase (password : pystr) : Prop :=
  ∃ c, c ∈ password ∧ (97 ≤ c ≤ 122)%N.
Definition some_digit (password : pystr) : Prop :=
  ∃ c, c ∈ password ∧ unicode_Nd c = true.
Definition some_special (password : pystr) : Prop :=
  ∃ c, c ∈ password ∧ c ∈ codepoints SPECIAL_CHARS.
Definition contains_username (password username : pystr) : Prop :=
  username ≠ [] ∧
  ∃ pre post, str_lower password = pre ++ str_lower username ++ post.

End PasswordPolicy.


(** ** Dictionaries, exceptions and HTTP errors *)

(** The values a token payload holds. *)
Inductive jval :=
  | JNull
  | JInt (z : Z)
  | JStr (s : pystr).

Global Instance jval_eq_dec : EqDecision jval.
Proof. solve_decision. Defined.

Definition jopt (o : option pystr) : jval :=
  match o with Some s => JStr s | None => JNull end.

(** [d.get(k)]: the value, [None] when the key is absent. *)
Definition dict_get (d : gmap string jval) (k : string) : jval :=
  default JNull (d !! k).

(** [not v] is true of [None], [0] and [""]. *)
Definition falsy (v : jval) : bool :=
  match v with
  | JNull => true
  | JInt z => (z =? 0)%Z
  | JStr s => negb (truthy_pystr s)
  end.

(** [", ".join(l)] *)
Fixpoint join (sep : pystr) (l : list pystr) : pystr :=
  match l with
  | [] => []
  | [s] => s
  | s :: l' => s ++ sep ++ join sep l'
  end.

(** The [detail] of an [HTTPException]: a message, or the dictionary the
    password checks answer with. *)
Inductive detail :=
  | Msg (message : pystr)
  | PolicyDetail (message : pystr) (errors requirements : list string).

Inductive exn :=
  | HTTPException (status_code : Z) (d : detail)
  | ValueError (message : pystr)
  | TypeError (message : pystr)
  | SQLAlchemyError
  | IntegrityError           (* a subclass of SQLAlchemyError *)
  | ExpiredSignatureError    (* a subclass of InvalidTokenError *)
  | InvalidTokenError
  | OtherException (message : pystr).

Definition is_SQLAlchemyError (e : exn) : bool :=
  match e with SQLAlchemyError | IntegrityError => true | _ => false end.

Definition HTTP_400_BAD_REQUEST : Z := 400.
Definition HTTP_401_UNAUTHORIZED : Z := 401.
Definition HTTP_403_FORBIDDEN : Z := 403.
Definition HTTP_404_NOT_FOUND : Z := 404.
Definition HTTP_409_CONFLICT : Z := 409.
Definition HTTP_500_INTERNAL_SERVER_ERROR : Z := 500.

(** A computation that returns or raises. *)
Definition M (A : Type) : Type := exn + A.
Definition ret {A} (a : A) : M A := inr a.
Definition raise {A} (e : exn) : M A := inl e.
Global Instance M_bind : MBind M :=
  λ A B (k : A → M B) (m : M A),
    match m with inl e => inl e | inr a => k a end.

(** The status a client sees: that of the [HTTPException], 500 for any
    other exception that leaves the handler. *)
Definition status_of {A} (m : M A) : Z :=
  match m with
  | inr _ => 200
  | inl (HTTPException c _) => c
  | inl _ => HTTP_500_INTERNAL_SERVER_ERROR
  end.

(** ** security/roles.py *)

Inductive Role :=
  | PENDING | TEACHER | PARAEDUCATOR | ADMIN | SUPER_ADMIN | SUPERUSER.

Global Instance Role_eq_dec : EqDecision Role.
Proof. solve_decision. Defined.

Definition Role_value (r : Role) : string :=
  match r with
  | PENDING => "pending"
  | TEACHER => "teacher"
  | PARAEDUCATOR => "paraeducator"
  | ADMIN => "admin"
  | SUPER_ADMIN => "super_admin"
  | SUPERUSER => "superuser"
  end.

Definition all_roles : list Role :=
  [PENDING; TEACHER; PARAEDUCATOR; ADMIN; SUPER_ADMIN; SUPERUSER].

(** [Role(s)]: the member whose value is [s]; [ValueError] when none is. *)
Definition Role_of (s : pystr) : M Role :=
  match List.find (λ r, bool_decide (codepoints (Role_value r) = s)) all_roles with
  | Some r => ret r
  | None =>
      raise (ValueError (codepoints "'" ++ s
                         ++ codepoints "' is not a valid Role"))
  end.

(** ** security/jwt_manager.py *)

Record TokenPayload := {
  tp_user_id : Z;
  tp_email : pystr;
  tp_role : Role;
  tp_first_name : option pystr;
  tp_last_name : option pystr;
  tp_desired_name : option pystr
}.

(** [payload.model_dump()] *)
Definition model_dump (p : TokenPayload) : gmap string jval :=
  <["desired_name" := jopt (tp_desired_name p)]>
  (<["last_name" := jopt (tp_last_name p)]>
  (<["first_name" := jopt (tp_first_name p)]>
  (<["role" := JStr (Role_value (tp_role p))]>
  (<["email" := JStr (tp_email p)]>
  (<["user_id" := JInt (tp_user_id p)]> ∅))))).

(** A signed token, symbolically: the claims and the key they were signed
    with; any other bearer string is [Malformed]. *)
Inductive token :=
  | Signed (key : string) (claims : gmap string jval)
  | Malformed (raw : string).

(** [jwt.encode(claims, key, algorithm)] *)
Definition jwt_encode (claims : gmap string jval) (key : string) : token :=
  Signed key claims.

(** [jwt.decode(token, key, algorithms)] of PyJWT 2: the signature is
    checked, then the [exp] claim against the clock; a token is expired
    from the second [exp] on. *)
Definition jwt_decode (now : Z) (t : token) (key : string)
  : M (gmap string jval) :=
  match t with
  | Malformed _ => raise InvalidTokenError
  | Signed k claims =>
      if bool_decide (k = key) then
        match claims !! "exp" with
        | None => ret claims
        | Some (JInt exp) =>
            if (exp <=? now)%Z then raise ExpiredSignatureError
            else ret claims
        | Some _ => raise InvalidTokenError
        end
      else raise InvalidTokenError
  end.

Section JWTManager.

(** [JWT_SECRET_KEY], read once when the class is created. *)
Variable SECRET_KEY : string.

Definition ACCESS_TOKEN_EXPIRE_MINUTES : Z := 30.
Definition REFRESH_TOKEN_EXPIRE_DAYS : Z := 7.

Definition create_access_token (now : Z) (payload : TokenPayload) : token :=
  let to_encode := model_dump payload in
  let to_encode := <["type" := JStr "access"]> to_encode in
  let to_encode :=
    <["role" := JStr (Role_value (tp_role payload))]> to_encode in
  let expire := (now + 60 * ACCESS_TOKEN_EXPIRE_MINUTES)%Z in
  let to_encode := <["exp" := JInt expire]> to_encode in
  let to_encode := <["iat" := JInt now]> to_encode in
  jwt_encode to_encode SECRET_KEY.

Definition create_refresh_token (now : Z) (payload : TokenPayload) : token :=
  let to_encode : gmap string jval :=
    <["email" := JStr (tp_email payload)]>
    (<["user_id" := JInt (tp_user_id payload)]> ∅) in
  let to_encode := <["type" := JStr "refresh"]> to_encode in
  let expire := (now + 86400 * REFRESH_TOKEN_EXPIRE_DAYS)%Z in
  let to_encode := <["exp" := JInt expire]> to_encode in
  let to_encode := <["iat" := JInt now]> to_encode in
  jwt_encode to_encode SECRET_KEY.

(** The claims an access token carries. *)
Definition access_claims (now0 : Z) (p : TokenPayload) : gmap string jval :=
  match create_access_token now0 p with
  | Signed _ claims => claims
  | Malformed _ => ∅
  end.

Definition verify_token (now : Z) (t : token) : M (gmap string jval) :=
  jwt_decode now t SECRET_KEY.

(** ** security/dependencies.py *)

Definition get_current_user (now : Z) (credentials : token)
  : M (gmap string jval) :=
  match
    payload ← verify_token now credentials;
    if bool_decide (dict_get payload "type" ≠ JStr "access") then
      raise (HTTPException HTTP_401_UNAUTHORIZED (Msg "Invalid token type"))
    else ret payload
  with
  | inl ExpiredSignatureError =>
      raise (HTTPException HTTP_401_UNAUTHORIZED (Msg "Token has expired"))
  | inl InvalidTokenError =>
      raise (HTTPException HTTP_401_UNAUTHORIZED (Msg "Invalid token"))
  | r => r
  end.

(** [require_role], given the allowed roles, returns the dependency [role_checker],
    which runs on the result of [get_current_user]. *)
Definition role_checker (allowed_roles : list Role)
    (current_user : gmap string jval) : M (gmap string jval) :=
  let user_role := dict_get current_user "role" in
  if bool_decide (user_role = JStr (Role_value SUPERUSER)) then
    ret current_user
  else
    let allowed_role_values : list pystr :=
      (λ role, codepoints (Role_value role)) <$> allowed_roles in
    if bool_decide (user_role ∉ (JStr <$> allowed_role_values)) then
      raise (HTTPException HTTP_403_FORBIDDEN
               (Msg (codepoints "Insufficient permissions. Required role: "
                     ++ join ", " allowed_role_values)))
    else ret current_user.

Definition require_role (allowed_roles : list Role) (now : Z)
    (credentials : token) : M (gmap string jval) :=
  current_user ← get_current_user now credentials;
  role_checker allowed_roles current_user.

End JWTManager.

(** ** models.py: the [users] table

    One row of [User]. The columns [is_superuser], [created_at],
    [updated_at] and [profile_image] are left out: no handler below reads
    or writes them except to copy them into a response. [approved_by_id]
    and [rejected_by_id] hold the claim value they are assigned, [JNull]
    for NULL. *)
Record User := mkUser {
  id : Z;
  email : pystr;
  username : pystr;
  first_name : option pystr;
  last_name : option pystr;
  desired_name : option pystr;
  phone : option pystr;
  hashed_password : pystr;
  is_active : bool;
  password_reset_token : option pystr;
  password_reset_expires : option Z;
  password_reset_requested_at : option Z;
  role : pystr;
  is_approved : bool;
  approved_at : option Z;
  approved_by_id : jval;
  approval_notes : option pystr;
  is_rejected : bool;
  rejected_at : option Z;
  rejected_by_id : jval;
  rejection_reason : option pystr;
  registered_date : option Z;
  timezone : option pystr
}.

(** Attribute assignment, [user.field = v]. *)
Definition set_id (v : Z) (u : User) : User :=
  let 'mkUser a0 a1 a2 a3 a4 a5 a6 a7 a8 a9 a10 a11 a12 a13 a14 a15 a16 a17
      a18 a19 a20 a21 a22 :=
    u in
  mkUser v a1 a2 a3 a4 a5 a6 a7 a8 a9 a10 a11 a12 a13 a14 a15 a16 a17 a18
      a19 a20 a21 a22.
Definition set_email (v : pystr) (u : User) : User :=
  let 'mkUser a0 a1 a2 a3 a4 a5 a6 a7 a8 a9 a10 a11 a12 a13 a14 a15 a16 a17
      a18 a19 a20 a21 a22 :=
    u in
  mkUser a0 v a2 a3 a4 a5 a6 a7 a8 a9 a10 a11 a12 a13 a14 a15 a16 a17 a18
      a19 a20 a21 a22.
Definition set_username (v : pystr) (u : User) : User :=
  let 'mkUser a0 a1 a2 a3 a4 a5 a6 a7 a8 a9 a10 a11 a12 a13 a14 a15 a16 a17
      a18 a19 a20 a21 a22 :=
    u in
  mkUser a0 a1 v a3 a4 a5 a6 a7 a8 a9 a10 a11 a12 a13 a14 a15 a16 a17 a18
      a19 a20 a21 a22.
Definition set_first_name (v : option pystr) (u : User) : User :=
  let 'mkUser a0 a1 a2 a3 a4 a5 a6 a7 a8 a9 a10 a11 a12 a13 a14 a15 a16 a17
      a18 a19 a20 a21 a22 :=
    u in
  mkUser a0 a1 a2 v a4 a5 a6 a7 a8 a9 a10 a11 a12 a13 a14 a15 a16 a17 a18
      a19 a20 a21 a22.
Definition set_last_name (v : option pystr) (u : User) : User :=
  let 'mkUser a0 a1 a2 a3 a4 a5 a6 a7 a8 a9 a10 a11 a12 a13 a14 a15 a16 a17
      a18 a19 a20 a21 a22 :=
    u in
  mkUser a0 a1 a2 a3 v a5 a6 a7 a8 a9 a10 a11 a12 a13 a14 a15 a16 a17 a18
      a19 a20 a21 a22.
Definition set_desired_name (v : option pystr) (u : User) : User :=
  let 'mkUser a0 a1 a2 a3 a4 a5 a6 a7 a8 a9 a10 a11 a12 a13 a14 a15 a16 a17
      a18 a19 a20 a21 a22 :=
    u in
  mkUser a0 a1 a2 a3 a4 v a6 a7 a8 a9 a10 a11 a12 a13 a14 a15 a16 a17 a18
      a19 a20 a21 a22.
Definition set_phone (v : option pystr) (u : User) : User :=
  let 'mkUser a0 a1 a2 a3 a4 a5 a6 a7 a8 a9 a10 a11 a12 a13 a14 a15 a16 a17
      a18 a19 a20 a21 a22 :=
    u in
  mkUser a0 a1 a2 a3 a4 a5 v a7 a8 a9 a10 a11 a12 a13 a14 a15 a16 a17 a18
      a19 a20 a21 a22.
Definition set_hashed_password (v : pystr) (u : User) : User :=
  let 'mkUser a0 a1 a2 a3 a4 a5 a6 a7 a8 a9 a10 a11 a12 a13 a14 a15 a16 a17
      a18 a19 a20 a21 a22 :=
    u in
  mkUser a0 a1 a2 a3 a4 a5 a6 v a8 a9 a10 a11 a12 a13 a14 a15 a16 a17 a18
      a19 a20 a21 a22.
Definition set_is_active (v : bool) (u : User) : User :=
  let 'mkUser a0 a1 a2 a3 a4 a5 a6 a7 a8 a9 a10 a11 a12 a13 a14 a15 a16 a17
      a18 a19 a20 a21 a22 :=
    u in
  mkUser a0 a1 a2 a3 a4 a5 a6 a7 v a9 a10 a11 a12 a13 a14 a15 a16 a17 a18
      a19 a20 a21 a22.
Definition set_password_reset_token (v : option pystr) (u : User) : User :=
  let 'mkUser a0 a1 a2 a3 a4 a5 a6 a7 a8 a9 a10 a11 a12 a13 a14 a15 a16 a17
      a18 a19 a20 a21 a22 :=
    u in
  mkUser a0 a1 a2 a3 a4 a5 a6 a7 a8 v a10 a11 a12 a13 a14 a15 a16 a17 a18
      a19 a20 a21 a22.
Definition set_password_reset_expires (v : option Z) (u : User) : User :=
  let 'mkUser a0 a1 a2 a3 a4 a5 a6 a7 a8 a9 a10 a11 a12 a13 a14 a15 a16 a17
      a18 a19 a20 a21 a22 :=
    u in
  mkUser a0 a1 a2 a3 a4 a5 a6 a7 a8 a9 v a11 a12 a13 a14 a15 a16 a17 a18 a19
      a20 a21 a22.
Definition set_password_reset_requested_at (v : option Z) (u : User) : User :=
  let 'mkUser a0 a1 a2 a3 a4 a5 a6 a7 a8 a9 a10 a11 a12 a13 a14 a15 a16 a17
      a18 a19 a20 a21 a22 :=
    u in
  mkUser a0 a1 a2 a3 a4 a5 a6 a7 a8 a9 a10 v a12 a13 a14 a15 a16 a17 a18 a19
      a20 a21 a22.
Definition set_role (v : pystr) (u : User) : User :=
  let 'mkUser a0 a1 a2 a3 a4 a5 a6 a7 a8 a9 a10 a11 a12 a13 a14 a15 a16 a17
      a18 a19 a20 a21 a22 :=
    u in
  mkUser a0 a1 a2 a3 a4 a5 a6 a7 a8 a9 a10 a11 v a13 a14 a15 a16 a17 a18 a19
      a20 a21 a22.
Definition set_is_approved (v : bool) (u : User) : User :=
  let 'mkUser a0 a1 a2 a3 a4 a5 a6 a7 a8 a9 a10 a11 a12 a13 a14 a15 a16 a17
      a18 a19 a20 a21 a22 :=
    u in
  mkUser a0 a1 a2 a3 a4 a5 a6 a7 a8 a9 a10 a11 a12 v a14 a15 a16 a17 a18 a19
      a20 a21 a22.
Definition set_approved_at (v : option Z) (u : User) : User :=
  let 'mkUser a0 a1 a2 a3 a4 a5 a6 a7 a8 a9 a10 a11 a12 a13 a14 a15 a16 a17
      a18 a19 a20 a21 a22 :=
    u in
  mkUser a0 a1 a2 a3 a4 a5 a6 a7 a8 a9 a10 a11 a12 a13 v a15 a16 a17 a18 a19
      a20 a21 a22.
Definition set_approved_by_id (v : jval) (u : User) : User :=
  let 'mkUser a0 a1 a2 a3 a4 a5 a6 a7 a8 a9 a10 a11 a12 a13 a14 a15 a16 a17
      a18 a19 a20 a21 a22 :=
    u in
  mkUser a0 a1 a2 a3 a4 a5 a6 a7 a8 a9 a10 a11 a12 a13 a14 v a16 a17 a18 a19
      a20 a21 a22.
Definition set_approval_notes (v : option pystr) (u : User) : User :=
  let 'mkUser a0 a1 a2 a3 a4 a5 a6 a7 a8 a9 a10 a11 a12 a13 a14 a15 a16 a17
      a18 a19 a20 a21 a22 :=
    u in
  mkUser a0 a1 a2 a3 a4 a5 a6 a7 a8 a9 a10 a11 a12 a13 a14 a15 v a17 a18 a19
      a20 a21 a22.
Definition set_is_rejected (v : bool) (u : User) : User :=
  let 'mkUser a0 a1 a2 a3 a4 a5 a6 a7 a8 a9 a10 a11 a12 a13 a14 a15 a16 a17
      a18 a19 a20 a21 a22 :=
    u in
  mkUser a0 a1 a2 a3 a4 a5 a6 a7 a8 a9 a10 a11 a12 a13 a14 a15 a16 v a18 a19
      a20 a21 a22.
Definition set_rejected_at (v : option Z) (u : User) : User :=
  let 'mkUser a0 a1 a2 a3 a4 a5 a6 a7 a8 a9 a10 a11 a12 a13 a14 a15 a16 a17
      a18 a19 a20 a21 a22 :=
    u in
  mkUser a0 a1 a2 a3 a4 a5 a6 a7 a8 a9 a10 a11 a12 a13 a14 a15 a16 a17 v a19
      a20 a21 a22.
Definition set_rejected_by_id (v : jval) (u : User) : User :=
  let 'mkUser a0 a1 a2 a3 a4 a5 a6 a7 a8 a9 a10 a11 a12 a13 a14 a15 a16 a17
      a18 a19 a20 a21 a22 :=
    u in
  mkUser a0 a1 a2 a3 a4 a5 a6 a7 a8 a9 a10 a11 a12 a13 a14 a15 a16 a17 a18 v
      a20 a21 a22.
Definition set_rejection_reason (v : option pystr) (u : User) : User :=
  let 'mkUser a0 a1 a2 a3 a4 a5 a6 a7 a8 a9 a10 a11 a12 a13 a14 a15 a16 a17
      a18 a19 a20 a21 a22 :=
    u in
  mkUser a0 a1 a2 a3 a4 a5 a6 a7 a8 a9 a10 a11 a12 a13 a14 a15 a16 a17 a18
      a19 v a21 a22.
Definition set_registered_date (v : option Z) (u : User) : User :=
  let 'mkUser a0 a1 a2 a3 a4 a5 a6 a7 a8 a9 a10 a11 a12 a13 a14 a15 a16 a17
      a18 a19 a20 a21 a22 :=
    u in
  mkUser a0 a1 a2 a3 a4 a5 a6 a7 a8 a9 a10 a11 a12 a13 a14 a15 a16 a17 a18
      a19 a20 v a22.
Definition set_timezone (v : option pystr) (u : User) : User :=
  let 'mkUser a0 a1 a2 a3 a4 a5 a6 a7 a8 a9 a10 a11 a12 a13 a14 a15 a16 a17
      a18 a19 a20 a21 a22 :=
    u in
  mkUser a0 a1 a2 a3 a4 a5 a6 a7 a8 a9 a10 a11 a12 a13 a14 a15 a16 a17 a18
      a19 a20 a21 v.

Definition store := list User.

(** [db.query(User).filter(p).first()] *)
Definition first_where (p : User → bool) (db : store) : option User :=
  List.find p db.

(** The row of [u] (by primary key) takes the attributes of [u]. *)
Definition db_merge (u : User) (db : store) : store :=
  (λ r, if bool_decide (id r = id u) then u else r) <$> db.

(** The next value of the [id] sequence. *)
Definition next_id (db : store) : Z :=
  (1 + foldr Z.max 0 (id <$> db))%Z.

(** [db.add(user)] for a new object: it is given its primary key. *)
Definition db_insert (u : User) (db : store) : store :=
  db ++ [set_id (next_id db) u].

(** [db.delete(user)] *)
Definition db_delete (u : User) (db : store) : store :=
  List.filter (λ r, negb (bool_decide (id r = id u))) db.

(** The unique indexes of the table: [email], [username] and, where it is
    not NULL, [password_reset_token]. *)
Definition unique_ok (db : store) : bool :=
  bool_decide (NoDup (email <$> db))
  && bool_decide (NoDup (username <$> db))
  && bool_decide (NoDup (omap password_reset_token db)).

(** A store as the database keeps it: primary keys are distinct and the
    unique indexes hold. *)
Definition store_ok (db : store) : Prop :=
  NoDup (id <$> db) ∧ unique_ok db = true.

(** An environment variable read through [int(os.getenv(name, default))]. *)
Inductive env_var :=
  | Unset
  | NotAnInt
  | IntVal (z : Z).

Definition getenv_int (v : env_var) (default : Z) : M Z :=
  match v with
  | Unset => ret default
  | NotAnInt => raise (ValueError "invalid literal for int()")
  | IntVal z => ret z
  end.

(** What a request finds outside the program: the clock, whether the
    database answers, the random ticket and salt drawn, the configuration
    and what the notification service does. *)
Record World := {
  now : Z;
  query_up : bool;
  commit_up : bool;
  token_urlsafe : pystr;
  salt : pystr;
  PASSWORD_RESET_TOKEN_EXPIRY_HOURS : env_var;
  send_email : M bool
}.

(** A query raises [SQLAlchemyError] when the database does not answer. *)
Definition query_first (w : World) (p : User → bool) (db : store)
  : M (option User) :=
  if query_up w then ret (first_where p db) else raise SQLAlchemyError.

(** [db.commit()] of the pending state [db']: the new store, or
    [IntegrityError] when a unique index is violated, [SQLAlchemyError]
    when the database does not answer. *)
Definition commit (w : World) (db' : store) : M store :=
  if negb (commit_up w) then raise SQLAlchemyError
  else if unique_ok db' then ret db'
  else raise IntegrityError.

(** A handler leaves a result and the committed store. *)
Definition outcome (A : Type) : Type := (M A * store)%type.

(** ** routers/auth.py: request and response models *)

Module LoginRequest.
Record t := {
  email : option pystr;
  username : option pystr;
  password : pystr
}.
End LoginRequest.

(** [UserInfo], without its [profile_image]. *)
Module UserInfo.
Record t := {
  id : Z;
  email : pystr;
  username : pystr;
  first_name : option pystr;
  last_name : option pystr;
  desired_name : option pystr;
  role : pystr;
  is_approved : bool
}.
End UserInfo.

Module LoginResponse.
Record t := {
  access_token : token;
  token_type : pystr;
  user : UserInfo.t
}.
End LoginResponse.

Module RefreshTokenRequest.
Record t := { refresh_token : token }.
End RefreshTokenRequest.

Module RefreshTokenResponse.
Record t := {
  access_token : token;
  token_type : pystr
}.
End RefreshTokenResponse.

Module ForgotPasswordRequest.
Record t := { email : pystr }.
End ForgotPasswordRequest.

Module ForgotPasswordResponse.
Record t := {
  message : pystr;
  email : pystr
}.
End ForgotPasswordResponse.

Module ResetPasswordRequest.
Record t := {
  token : pystr;
  new_password : pystr
}.
End ResetPasswordRequest.

Module ResetPasswordResponse.
Record t := {
  message : pystr;
  email : pystr
}.
End ResetPasswordResponse.

Module ApproveUserRequest.
Record t := {
  user_id : Z;
  approval_notes : option pystr;
  role : pystr
}.
End ApproveUserRequest.

Module ApproveUserResponse.
Record t := {
  message : pystr;
  user_id : Z;
  role : pystr;
  is_approved : bool
}.
End ApproveUserResponse.

Module RejectUserRequest.
Record t := {
  user_id : Z;
  rejection_reason : pystr
}.
End RejectUserRequest.

Module RejectUserResponse.
Record t := {
  message : pystr;
  user_id : Z;
  is_rejected : bool
}.
End RejectUserResponse.

(** What [send_password_reset_email] is handed. *)
Record Notification := {
  to_email : pystr;
  user_name : pystr;
  reset_token : pystr;
  expires_in_hours : Z
}.

Definition GENERIC_RESET_MESSAGE : pystr :=
  "If this email is registered, you will receive a password reset link shortly.".

Definition RESET_NOT_FOUND_MESSAGE : pystr :=
  "Invalid or expired password reset link. Please request a new one.".

Definition RESET_EXPIRED_MESSAGE : pystr :=
  "Password reset link has expired. Please request a new one.".

(** The text opens with the character U+2705. *)
Definition RESET_DONE_MESSAGE : pystr :=
  9989%N :: codepoints
    " Your password has been successfully reset. You can now login with your new password.".

Module RegisterRequest.
Record t := {
  email : pystr;
  username : pystr;
  password : pystr;
  first_name : pystr;
  last_name : pystr;
  desired_name : pystr;
  phone : option pystr
}.
End RegisterRequest.

(** [RegisterResponse], without its [created_at]. *)
Module RegisterResponse.
Record t := {
  id : Z;
  email : pystr;
  first_name : pystr;
  last_name : pystr;
  desired_name : pystr;
  role : pystr;
  is_approved : bool;
  message : pystr
}.
End RegisterResponse.

Module CreateEducatorRequest.
Record t := {
  first_name : pystr;
  last_name : pystr;
  email : pystr;
  role : pystr;
  phone : pystr;
  username : pystr;
  password : pystr;
  desired_name : option pystr
}.
End CreateEducatorRequest.

Module UpdateEducatorRequest.
Record t := {
  first_name : option pystr;
  last_name : option pystr;
  email : option pystr;
  role : option pystr;
  phone : option pystr;
  username : option pystr;
  password : option pystr;
  desired_name : option pystr
}.
End UpdateEducatorRequest.

(** The dictionary the educator handlers answer with. *)
Module EducatorInfo.
Record t := {
  id : Z;
  first_name : pystr;
  last_name : pystr;
  email : pystr;
  role : pystr;
  phone : pystr;
  username : pystr;
  desired_name : option pystr
}.
End EducatorInfo.

(** routers/users.py: [UserUpdate], for requests that carry no
    [profile_image]. *)
Module UserUpdate.
Record t := {
  email : option pystr;
  first_name : option pystr;
  last_name : option pystr;
  role : option pystr;
  desired_name : option pystr;
  phone : option pystr;
  timezone : option pystr
}.
End UserUpdate.

(** [UserResponse], without its timestamps and [profile_image]. *)
Module UserResponse.
Record t := {
  id : Z;
  email : pystr;
  first_name : pystr;
  last_name : pystr;
  role : pystr;
  is_active : bool;
  timezone : option pystr
}.
End UserResponse.

(** [s.split("@")[0]]: the text before the first "@". *)
Fixpoint before_at (s : pystr) : pystr :=
  match s with
  | [] => []
  | c :: s' => if (c =? 64)%N then [] else c :: before_at s'
  end.

(** [a or ""] on an optional string. *)
Definition or_empty (a : option pystr) : pystr :=
  match a with
  | Some s => s
  | None => []
  end.

Definition educator_info (u : User) : EducatorInfo.t :=
  {| EducatorInfo.id := id u;
     EducatorInfo.first_name := or_empty (first_name u);
     EducatorInfo.last_name := or_empty (last_name u);
     EducatorInfo.email := email u;
     EducatorInfo.role := role u;
     EducatorInfo.phone := or_empty (phone u);
     EducatorInfo.username := username u;
     EducatorInfo.desired_name := desired_name u |}.

(** [a or b] on optional strings. *)
Definition py_or (a b : option pystr) : option pystr :=
  match a with
  | Some s => if truthy_pystr s then a else b
  | None => b
  end.

(** [not a] on an optional string. *)
Definition falsy_opt (a : option pystr) : bool :=
  match a with
  | Some s => negb (truthy_pystr s)
  | None => true
  end.

(** [str(a)] on an optional string. *)
Definition py_str (a : option pystr) : pystr :=
  match a with Some s => s | None => codepoints "None" end.

(** [User.id == v] for a claim value [v]: an integer selects the row with
    that key, any other value selects none. *)
Definition id_is (v : jval) (u : User) : bool :=
  match v with
  | JInt z => bool_decide (id u = z)
  | _ => false
  end.

Definition _build_user_info (user : User) : UserInfo.t :=
  {| UserInfo.id := id user;
     UserInfo.email := email user;
     UserInfo.username := username user;
     UserInfo.first_name := first_name user;
     UserInfo.last_name := last_name user;
     UserInfo.desired_name := desired_name user;
     UserInfo.role := role user;
     UserInfo.is_approved := is_approved user |}.

Section Backend.

Variable SECRET_KEY : string.
Variable str_lower : pystr → pystr.

(** Argon2 through passlib: [pwd_context.hash] with the salt it draws,
    and [pwd_context.verify]. *)
Variable argon2_hash : pystr → pystr → pystr.
Variable argon2_verify : pystr → pystr → bool.

(** ** db.py *)

Definition hash_password (w : World) (password : pystr) : pystr :=
  argon2_hash (salt w) password.

Definition verify_password (plain_password hashed_password : pystr) : bool :=
  argon2_verify plain_password hashed_password.

Definition get_user_by_email (w : World) (db : store) (email' : pystr)
  : M (option User) :=
  query_first w (λ u, bool_decide (email u = email')) db.

Definition get_user_by_username (w : World) (db : store) (username' : pystr)
  : M (option User) :=
  query_first w (λ u, bool_decide (username u = username')) db.

Definition user_exists (w : World) (db : store)
    (email' username' : option pystr) : M bool :=
  if negb (falsy_opt email') then
    r ← query_first w (λ u, bool_decide (Some (email u) = email')) db;
    ret (bool_decide (r ≠ None))
  else if negb (falsy_opt username') then
    r ← query_first w (λ u, bool_decide (Some (username u) = username')) db;
    ret (bool_decide (r ≠ None))
  else ret false.

Definition authenticate_user (w : World) (db : store)
    (email' password : pystr) : M (option User) :=
  user ← get_user_by_email w db email';
  match user with
  | None => ret None
  | Some user =>
      if negb (verify_password password (hashed_password user))
      then ret None
      else ret (Some user)
  end.

(** The parameters [create_user] declares. *)
Definition create_user_parameters : list string :=
  ["db"; "email"; "username"; "password"; "first_name"; "last_name";
   "role"; "is_approved"].

Definition create_user (w : World) (db : store)
    (email' username' password : pystr)
    (first_name' last_name' : option pystr)
    (role' : pystr) (is_approved' : bool) : outcome User :=
  let hashed_password := hash_password w password in
  let user :=
    {| id := 0; email := email'; username := username';
       first_name := first_name'; last_name := last_name';
       desired_name := None; phone := None;
       hashed_password := hashed_password; is_active := true;
       password_reset_token := None; password_reset_expires := None;
       password_reset_requested_at := None;
       role := role'; is_approved := is_approved';
       approved_at := None; approved_by_id := JNull;
       approval_notes := None;
       is_rejected := false; rejected_at := None; rejected_by_id := JNull;
       rejection_reason := None; registered_date := None;
       timezone := None |} in
  match commit w (db_insert user db) with
  | inl e => (raise e, db)
  | inr db' => (ret (set_id (next_id db) user), db')
  end.

(** ** routers/auth.py *)

Definition token_payload_of (user : User) : M TokenPayload :=
  role' ← Role_of (role user);
  ret {| tp_user_id := id user; tp_email := email user; tp_role := role';
         tp_first_name := first_name user; tp_last_name := last_name user;
         tp_desired_name := desired_name user |}.

Definition login (w : World) (db : store) (credentials : LoginRequest.t)
  : M LoginResponse.t :=
  let email_or_username :=
    py_or (LoginRequest.email credentials)
          (LoginRequest.username credentials) in
  if falsy_opt email_or_username then
    raise (HTTPException HTTP_400_BAD_REQUEST
             (Msg "Either email or username must be provided"))
  else
    user ← authenticate_user w db (default [] email_or_username)
              (LoginRequest.password credentials);
    match user with
    | None =>
        raise (HTTPException HTTP_401_UNAUTHORIZED
                 (Msg "Invalid email/username or password"))
    | Some user =>
        match
          token_payload ← token_payload_of user;
          ret (create_access_token SECRET_KEY (now w) token_payload)
        with
        | inl (ValueError _) | inl InvalidTokenError
        | inl ExpiredSignatureError =>
            raise (HTTPException HTTP_500_INTERNAL_SERVER_ERROR
                     (Msg "Failed to generate authentication token"))
        | inl e => raise e
        | inr access_token =>
            let user_info := _build_user_info user in
            ret {| LoginResponse.access_token := access_token;
                   LoginResponse.token_type := "bearer";
                   LoginResponse.user := user_info |}
        end
    end.

Definition refresh_token (w : World) (db : store)
    (request : RefreshTokenRequest.t) : M RefreshTokenResponse.t :=
  match
    payload ← verify_token SECRET_KEY (now w)
                (RefreshTokenRequest.refresh_token request);
    if bool_decide (dict_get payload "type" ≠ JStr "refresh") then
      raise (ValueError "Token is not a refresh token")
    else
      let user_id := dict_get payload "sub" in
      if falsy user_id then raise (ValueError "Token missing user ID")
      else
        user ← query_first w (id_is user_id) db;
        match user with
        | None => raise (ValueError "User not found or not approved")
        | Some user =>
            if negb (is_approved user) then
              raise (ValueError "User not found or not approved")
            else
              token_payload ← token_payload_of user;
              let access_token :=
                create_access_token SECRET_KEY (now w) token_payload in
              ret {| RefreshTokenResponse.access_token := access_token;
                     RefreshTokenResponse.token_type := "bearer" |}
        end
  with
  | inl (ValueError _) | inl InvalidTokenError | inl ExpiredSignatureError =>
      raise (HTTPException HTTP_401_UNAUTHORIZED
               (Msg "Invalid or expired refresh token"))
  | inl SQLAlchemyError | inl IntegrityError =>
      raise (HTTPException HTTP_500_INTERNAL_SERVER_ERROR
               (Msg "Failed to refresh token"))
  | r => r
  end.

(** [check_email] answers [{"exists": exists}]. *)
Definition check_email (w : World) (db : store) (email' : pystr) : M bool :=
  user_exists w db (Some email') None.

(** [get_me] on the claims [get_current_user] hands it. *)
Definition get_me (w : World) (db : store) (current_user : gmap string jval)
  : M UserInfo.t :=
  let user_id := dict_get current_user "sub" in
  if falsy user_id then
    raise (HTTPException HTTP_401_UNAUTHORIZED (Msg "Invalid token"))
  else
    match
      db_user ← query_first w (id_is user_id) db;
      match db_user with
      | None =>
          raise (HTTPException HTTP_404_NOT_FOUND (Msg "User not found"))
      | Some db_user => ret (_build_user_info db_user)
      end
    with
    | inl (ValueError _) | inl SQLAlchemyError | inl IntegrityError =>
        raise (HTTPException HTTP_500_INTERNAL_SERVER_ERROR
                 (Msg "Failed to retrieve user information"))
    | r => r
    end.

(** GET /auth/me: the dependency, then the handler. *)
Definition get_me_endpoint (w : World) (db : store) (credentials : token)
  : M UserInfo.t :=
  current_user ← get_current_user SECRET_KEY (now w) credentials;
  get_me w db current_user.

(** [forgot_password] leaves the response, the store and the
    notifications it handed to the email service. Each [except] clause
    returns the response of the normal path. *)
Definition forgot_password (w : World) (db : store)
    (request : ForgotPasswordRequest.t)
  : M ForgotPasswordResponse.t * store * list Notification :=
  let generic :=
    {| ForgotPasswordResponse.message := GENERIC_RESET_MESSAGE;
       ForgotPasswordResponse.email := ForgotPasswordRequest.email request |}
  in
  match get_user_by_email w db (ForgotPasswordRequest.email request) with
  | inl _ => (ret generic, db, [])
  | inr None => (ret generic, db, [])
  | inr (Some user) =>
      let reset_token := token_urlsafe w in
      match getenv_int (PASSWORD_RESET_TOKEN_EXPIRY_HOURS w) 1 with
      | inl _ => (ret generic, db, [])
      | inr expiry_hours =>
          let expires_at := (now w + 3600 * expiry_hours)%Z in
          let user := set_password_reset_token (Some reset_token) user in
          let user := set_password_reset_expires (Some expires_at) user in
          let user := set_password_reset_requested_at (Some (now w)) user in
          match commit w (db_merge user db) with
          | inl _ => (ret generic, db, [])
          | inr db' =>
              let display_name := py_or (desired_name user) (first_name user) in
              let mail :=
                {| to_email := email user;
                   user_name := py_str display_name;
                   reset_token := reset_token;
                   expires_in_hours := expiry_hours |} in
              match send_email w with
              | inl _ => (ret generic, db', [])
              | inr _ => (ret generic, db', [mail])
              end
          end
      end
  end.

Definition reset_password (w : World) (db : store)
    (request : ResetPasswordRequest.t) : outcome ResetPasswordResponse.t :=
  let validation_result :=
    validate_password str_lower (ResetPasswordRequest.new_password request) []
  in
  if negb (is_valid validation_result) then
    (raise (HTTPException HTTP_400_BAD_REQUEST
              (PolicyDetail
                 "New password does not meet security requirements"
                 (errors validation_result)
                 (strength_guide validation_result))), db)
  else
    match
      user ← query_first w
               (λ u, bool_decide (password_reset_token u
                                  = Some (ResetPasswordRequest.token request)))
               db;
      match user with
      | None =>
          raise (HTTPException HTTP_400_BAD_REQUEST
                   (Msg RESET_NOT_FOUND_MESSAGE))
      | Some user =>
          if match password_reset_expires user with
             | None => true
             | Some expires => (expires <? now w)%Z
             end
          then
            raise (HTTPException HTTP_400_BAD_REQUEST
                     (Msg RESET_EXPIRED_MESSAGE))
          else
            let user :=
              set_hashed_password
                (argon2_hash (salt w)
                   (ResetPasswordRequest.new_password request)) user in
            let user := set_password_reset_token None user in
            let user := set_password_reset_expires None user in
            let user := set_password_reset_requested_at None user in
            db' ← commit w (db_merge user db);
            ret ({| ResetPasswordResponse.message := RESET_DONE_MESSAGE;
                    ResetPasswordResponse.email := email user |}, db')
      end
    with
    | inr (response, db') => (ret response, db')
    | inl (HTTPException c d) => (raise (HTTPException c d), db)
    | inl SQLAlchemyError | inl IntegrityError =>
        (raise (HTTPException HTTP_500_INTERNAL_SERVER_ERROR
                  (Msg "Failed to reset password")), db)
    | inl e => (raise e, db)
    end.

(** [approve_user] on the claims [require_role(ADMIN, SUPER_ADMIN)] hands
    it. *)
Definition approve_user (w : World) (db : store)
    (request : ApproveUserRequest.t) (current_user : gmap string jval)
  : outcome ApproveUserResponse.t :=
  match
    user ← query_first w
             (λ u, bool_decide (id u = ApproveUserRequest.user_id request)) db;
    match user with
    | None =>
        raise (HTTPException HTTP_404_NOT_FOUND
                 (Msg (codepoints "User with ID "
                       ++ codepoints (pretty (ApproveUserRequest.user_id request))
                       ++ codepoints " not found")))
    | Some user =>
        match
          requested_role ← Role_of (ApproveUserRequest.role request);
          if bool_decide (requested_role = PENDING) then
            raise (ValueError "Cannot approve user as PENDING")
          else ret requested_role
        with
        | inl (ValueError _) =>
            raise (HTTPException HTTP_400_BAD_REQUEST
                     (Msg (codepoints "Invalid role: "
                           ++ ApproveUserRequest.role request)))
        | inl e => raise e
        | inr requested_role =>
            let user := set_is_approved true user in
            let user := set_approved_at (Some (now w)) user in
            let user := set_registered_date (Some (now w)) user in
            let user :=
              set_approved_by_id (dict_get current_user "sub") user in
            let user := set_role (Role_value requested_role) user in
            let user := set_is_rejected false user in
            let user := set_rejection_reason None user in
            let user :=
              set_approval_notes
                (ApproveUserRequest.approval_notes request) user in
            db' ← commit w (db_merge user db);
            ret ({| ApproveUserResponse.message :=
                      codepoints "User " ++ email user
                      ++ codepoints " has been approved as "
                      ++ codepoints (Role_value requested_role);
                    ApproveUserResponse.user_id := id user;
                    ApproveUserResponse.role := role user;
                    ApproveUserResponse.is_approved := true |}, db')
        end
    end
  with
  | inr (response, db') => (ret response, db')
  | inl (HTTPException c d) => (raise (HTTPException c d), db)
  | inl SQLAlchemyError | inl IntegrityError =>
      (raise (HTTPException HTTP_500_INTERNAL_SERVER_ERROR
                (Msg "Failed to approve user")), db)
  | inl e => (raise e, db)
  end.

(** POST /auth/admin/approve-user: the dependency, then the handler. *)
Definition approve_user_endpoint (w : World) (db : store)
    (credentials : token) (request : ApproveUserRequest.t)
  : outcome ApproveUserResponse.t :=
  match require_role SECRET_KEY [ADMIN; SUPER_ADMIN] (now w) credentials with
  | inl e => (raise e, db)
  | inr current_user => approve_user w db request current_user
  end.

Definition reject_user (w : World) (db : store)
    (request : RejectUserRequest.t) (current_user : gmap string jval)
  : outcome RejectUserResponse.t :=
  match
    user ← query_first w
             (λ u, bool_decide (id u = RejectUserRequest.user_id request)) db;
    match user with
    | None =>
        raise (HTTPException HTTP_404_NOT_FOUND
                 (Msg (codepoints "User with ID "
                       ++ codepoints (pretty (RejectUserRequest.user_id request))
                       ++ codepoints " not found")))
    | Some user =>
        let user := set_is_rejected true user in
        let user := set_rejected_at (Some (now w)) user in
        let user := set_rejected_by_id (dict_get current_user "sub") user in
        let user :=
          set_rejection_reason
            (Some (RejectUserRequest.rejection_reason request)) user in
        let user := set_is_active false user in
        db' ← commit w (db_merge user db);
        ret ({| RejectUserResponse.message :=
                  codepoints "User " ++ email user
                  ++ codepoints " has been rejected";
                RejectUserResponse.user_id := id user;
                RejectUserResponse.is_rejected := true |}, db')
    end
  with
  | inr (response, db') => (ret response, db')
  | inl (HTTPException c d) => (raise (HTTPException c d), db)
  | inl SQLAlchemyError | inl IntegrityError =>
      (raise (HTTPException HTTP_500_INTERNAL_SERVER_ERROR
                (Msg "Failed to reject user")), db)
  | inl e => (raise e, db)
  end.

(** A call of [create_user] by keyword, as the handlers of this router
    make it, with [role] and [is_approved] left to their defaults. Python
    raises [TypeError] before the body runs when a keyword is not a
    parameter of the function. *)
Definition call_create_user (keywords : list string) (w : World) (db : store)
    (email' username' password : pystr) (first_name' last_name' : option pystr)
  : outcome User :=
  if forallb (λ k, bool_decide (k ∈ create_user_parameters)) keywords then
    create_user w db email' username' password first_name' last_name'
      "pending" false
  else
    (raise (TypeError "create_user() got an unexpected keyword argument"), db).

Definition register (w : World) (db : store) (user_data : RegisterRequest.t)
  : outcome RegisterResponse.t :=
  let validation_result :=
    validate_password str_lower (RegisterRequest.password user_data)
      (before_at (RegisterRequest.email user_data)) in
  if negb (is_valid validation_result) then
    (raise (HTTPException HTTP_400_BAD_REQUEST
              (PolicyDetail "Password does not meet security requirements"
                 (errors validation_result)
                 (strength_guide validation_result))), db)
  else
    match user_exists w db (Some (RegisterRequest.email user_data)) None with
    | inl e => (raise e, db)
    | inr true =>
        (raise (HTTPException HTTP_409_CONFLICT
                  (Msg "Email already registered. Please login or reset your password.")),
         db)
    | inr false =>
        match get_user_by_username w db (RegisterRequest.username user_data) with
        | inl e =>
            if is_SQLAlchemyError e then
              (raise (HTTPException HTTP_500_INTERNAL_SERVER_ERROR
                        (Msg "Failed to check username availability")), db)
            else (raise e, db)
        | inr (Some _) =>
            (raise (HTTPException HTTP_409_CONFLICT
                      (Msg "Username already taken. Please choose a different username.")),
             db)
        | inr None =>
            match
              call_create_user
                ["db"; "email"; "username"; "password"; "first_name";
                 "last_name"; "desired_name"; "phone"]
                w db (RegisterRequest.email user_data)
                (RegisterRequest.username user_data)
                (RegisterRequest.password user_data)
                (Some (RegisterRequest.first_name user_data))
                (Some (RegisterRequest.last_name user_data))
            with
            | (inr new_user, db') =>
                (ret {| RegisterResponse.id := id new_user;
                        RegisterResponse.email := email new_user;
                        RegisterResponse.first_name :=
                          py_str (first_name new_user);
                        RegisterResponse.last_name :=
                          py_str (last_name new_user);
                        RegisterResponse.desired_name :=
                          py_str (desired_name new_user);
                        RegisterResponse.role := role new_user;
                        RegisterResponse.is_approved := is_approved new_user;
                        RegisterResponse.message :=
                          "Account created successfully. You will receive an email once an administrator approves your account." |},
                 db')
            | (inl e, db') =>
                if is_SQLAlchemyError e then
                  (raise (HTTPException HTTP_500_INTERNAL_SERVER_ERROR
                            (Msg "Failed to create user account")), db')
                else
                  match e with
                  | ValueError _ =>
                      (raise (HTTPException HTTP_409_CONFLICT
                                (Msg "Email already registered. Please login or reset your password.")),
                       db')
                  | _ => (raise e, db')
                  end
            end
        end
    end.

Definition valid_educator_roles : list pystr :=
  [codepoints (Role_value TEACHER); codepoints (Role_value PARAEDUCATOR);
   codepoints (Role_value ADMIN)].

(** The [except] clauses of the educator handlers: an [HTTPException]
    passes, a database error becomes a 500 with the given message. *)
Definition educator_except (message : pystr) (e : exn) : exn :=
  if is_SQLAlchemyError e then
    HTTPException HTTP_500_INTERNAL_SERVER_ERROR (Msg message)
  else e.

Definition create_educator (w : World) (db : store)
    (request : CreateEducatorRequest.t) (current_user : gmap string jval)
  : outcome EducatorInfo.t :=
  let failed := educator_except "Failed to create educator" in
  if bool_decide (CreateEducatorRequest.role request ∉ valid_educator_roles)
  then
    (raise (HTTPException HTTP_400_BAD_REQUEST
              (Msg (codepoints "Invalid role. Must be one of: "
                    ++ join ", " valid_educator_roles))), db)
  else
    match
      existing_user ← get_user_by_email w db
                        (CreateEducatorRequest.email request);
      if bool_decide (existing_user ≠ None) then
        raise (HTTPException HTTP_400_BAD_REQUEST (Msg "Email already exists"))
      else if truthy_pystr (CreateEducatorRequest.username request) then
        existing_username ← get_user_by_username w db
                              (CreateEducatorRequest.username request);
        if bool_decide (existing_username ≠ None) then
          raise (HTTPException HTTP_400_BAD_REQUEST
                   (Msg "Username already exists"))
        else ret ()
      else ret ()
    with
    | inl e => (raise (failed e), db)
    | inr _ =>
        match
          call_create_user
            ["db"; "email"; "password"; "first_name"; "last_name";
             "username"; "desired_name"; "phone"]
            w db (CreateEducatorRequest.email request)
            (CreateEducatorRequest.username request)
            (CreateEducatorRequest.password request)
            (Some (CreateEducatorRequest.first_name request))
            (Some (CreateEducatorRequest.last_name request))
        with
        | (inl e, db1) => (raise (failed e), db1)
        | (inr new_user, db1) =>
            let new_user :=
              set_role (CreateEducatorRequest.role request) new_user in
            let new_user := set_is_approved true new_user in
            let new_user := set_approved_at (Some (now w)) new_user in
            let new_user := set_registered_date (Some (now w)) new_user in
            let new_user :=
              set_approved_by_id (dict_get current_user "sub") new_user in
            match commit w (db_merge new_user db1) with
            | inl e => (raise (failed e), db1)
            | inr db2 => (ret (educator_info new_user), db2)
            end
        end
    end.

(** [if v is not None: educator.field = v] *)
Definition set_if_given {A} (set : A → User → User) (v : option A) (u : User)
  : User :=
  match v with
  | Some a => set a u
  | None => u
  end.

(** The assignment to [educator.password_hash] names no column of the
    table: nothing of it is stored. *)
Definition update_educator (w : World) (db : store) (educator_id : Z)
    (request : UpdateEducatorRequest.t) (current_user : gmap string jval)
  : outcome EducatorInfo.t :=
  let failed := educator_except "Failed to update educator" in
  match
    educator ← query_first w (λ u, bool_decide (id u = educator_id)) db;
    match educator with
    | None =>
        raise (HTTPException HTTP_404_NOT_FOUND
                 (Msg (codepoints "Educator with ID "
                       ++ codepoints (pretty educator_id)
                       ++ codepoints " not found")))
    | Some educator =>
        if negb (falsy_opt (UpdateEducatorRequest.role request))
           && bool_decide (or_empty (UpdateEducatorRequest.role request)
                           ∉ valid_educator_roles)
        then
          raise (HTTPException HTTP_400_BAD_REQUEST
                   (Msg (codepoints "Invalid role. Must be one of: "
                         ++ join ", " valid_educator_roles)))
        else
          _ ← (if negb (falsy_opt (UpdateEducatorRequest.email request))
                  && bool_decide (UpdateEducatorRequest.email request
                                  ≠ Some (email educator))
               then
                 existing ← get_user_by_email w db
                              (or_empty (UpdateEducatorRequest.email request));
                 if bool_decide (existing ≠ None) then
                   raise (HTTPException HTTP_400_BAD_REQUEST
                            (Msg "Email already exists"))
                 else ret ()
               else ret ());
          _ ← (if negb (falsy_opt (UpdateEducatorRequest.username request))
                  && bool_decide (UpdateEducatorRequest.username request
                                  ≠ Some (username educator))
               then
                 existing ← get_user_by_username w db
                              (or_empty (UpdateEducatorRequest.username request));
                 if bool_decide (existing ≠ None) then
                   raise (HTTPException HTTP_400_BAD_REQUEST
                            (Msg "Username already exists"))
                 else ret ()
               else ret ());
          let educator :=
            set_if_given (λ v, set_first_name (Some v))
              (UpdateEducatorRequest.first_name request) educator in
          let educator :=
            set_if_given (λ v, set_last_name (Some v))
              (UpdateEducatorRequest.last_name request) educator in
          let educator :=
            set_if_given set_email
              (UpdateEducatorRequest.email request) educator in
          let educator :=
            set_if_given set_role
              (UpdateEducatorRequest.role request) educator in
          let educator :=
            set_if_given (λ v, set_phone (Some v))
              (UpdateEducatorRequest.phone request) educator in
          let educator :=
            set_if_given set_username
              (UpdateEducatorRequest.username request) educator in
          let educator :=
            set_if_given (λ v, set_desired_name (Some v))
              (UpdateEducatorRequest.desired_name request) educator in
          db' ← commit w (db_merge educator db);
          ret (educator_info educator, db')
    end
  with
  | inl e => (raise (failed e), db)
  | inr (response, db') => (ret response, db')
  end.

(** [delete_educator] answers with the email of the deleted row. *)
Definition delete_educator (w : World) (db : store) (educator_id : Z)
    (current_user : gmap string jval) : outcome pystr :=
  let failed := educator_except "Failed to delete educator" in
  match
    educator ← query_first w (λ u, bool_decide (id u = educator_id)) db;
    match educator with
    | None =>
        raise (HTTPException HTTP_404_NOT_FOUND
                 (Msg (codepoints "Educator with ID "
                       ++ codepoints (pretty educator_id)
                       ++ codepoints " not found")))
    | Some educator =>
        db' ← commit w (db_delete educator db);
        ret (email educator, db')
    end
  with
  | inl e => (raise (failed e), db)
  | inr (response, db') => (ret response, db')
  end.

(** ** routers/users.py *)

(** [_build_user_response]: the response model wants a first and a last
    name. *)
Definition _build_user_response (db_user : User) : M UserResponse.t :=
  match first_name db_user, last_name db_user with
  | Some first_name', Some last_name' =>
      ret {| UserResponse.id := id db_user;
             UserResponse.email := email db_user;
             UserResponse.first_name := first_name';
             UserResponse.last_name := last_name';
             UserResponse.role := role db_user;
             UserResponse.is_active := is_active db_user;
             UserResponse.timezone := timezone db_user |}
  | _, _ => raise (ValueError "validation error for UserResponse")
  end.

(** [if v: setattr(db_user, field, v)] *)
Definition set_if_truthy (set : pystr → User → User) (v : option pystr)
    (u : User) : User :=
  if falsy_opt v then u else set (or_empty v) u.

(** PUT /users/{user_id}; the handler has no access guard. *)
Definition update_user (w : World) (db : store) (user_id : Z)
    (user : UserUpdate.t) : outcome UserResponse.t :=
  match query_first w (λ u, bool_decide (id u = user_id)) db with
  | inl e =>
      (raise (HTTPException HTTP_500_INTERNAL_SERVER_ERROR
                (Msg "Database error occurred")), db)
  | inr None =>
      (raise (HTTPException HTTP_404_NOT_FOUND (Msg "User not found")), db)
  | inr (Some db_user) =>
      let db_user := set_if_truthy set_email (UserUpdate.email user) db_user in
      let db_user :=
        set_if_truthy (λ v, set_first_name (Some v))
          (UserUpdate.first_name user) db_user in
      let db_user :=
        set_if_truthy (λ v, set_last_name (Some v))
          (UserUpdate.last_name user) db_user in
      let db_user := set_if_truthy set_role (UserUpdate.role user) db_user in
      let db_user :=
        set_if_given (λ v, set_desired_name (Some v))
          (UserUpdate.desired_name user) db_user in
      let db_user :=
        set_if_given (λ v, set_phone (Some v))
          (UserUpdate.phone user) db_user in
      let db_user :=
        set_if_given (λ v, set_timezone (Some v))
          (UserUpdate.timezone user) db_user in
      match commit w (db_merge db_user db) with
      | inl IntegrityError =>
          (raise (HTTPException HTTP_409_CONFLICT
                    (Msg "User with this email already exists")), db)
      | inl _ =>
          (raise (HTTPException HTTP_500_INTERNAL_SERVER_ERROR
                    (Msg "Database error occurred")), db)
      | inr db' =>
          match _build_user_response db_user with
          | inl (ValueError m) =>
              (raise (HTTPException HTTP_400_BAD_REQUEST (Msg m)), db')
          | r => (r, db')
          end
      end
  end.

(** ** The requests that change accounts *)

(** The requests of the authentication router that write to the table,
    and [create_user] of db.py called with its default role and approval. *)
Inductive auth_request :=
  | CreateUser (email' username' password : pystr)
      (first_name' last_name' : option pystr)
  | Register (user_data : RegisterRequest.t)
  | ForgotPassword (request : ForgotPasswordRequest.t)
  | ResetPassword (request : ResetPasswordRequest.t)
  | ApproveUser (request : ApproveUserRequest.t)
      (current_user : gmap string jval)
  | RejectUser (request : RejectUserRequest.t)
      (current_user : gmap string jval)
  | CreateEducator (request : CreateEducatorRequest.t)
      (current_user : gmap string jval)
  | UpdateEducator (educator_id : Z) (request : UpdateEducatorRequest.t)
      (current_user : gmap string jval)
  | DeleteEducator (educator_id : Z) (current_user : gmap string jval).

(** The store a request leaves behind. *)
Definition serve (w : World) (r : auth_request) (db : store) : store :=
  match r with
  | CreateUser email' username' password first_name' last_name' =>
      (create_user w db email' username' password first_name' last_name'
         "pending" false).2
  | Register user_data => (register w db user_data).2
  | ForgotPassword request => (forgot_password w db request).1.2
  | ResetPassword request => (reset_password w db request).2
  | ApproveUser request current_user =>
      (approve_user w db request current_user).2
  | RejectUser request current_user =>
      (reject_user w db request current_user).2
  | CreateEducator request current_user =>
      (create_educator w db request current_user).2
  | UpdateEducator educator_id request current_user =>
      (update_educator w db educator_id request current_user).2
  | DeleteEducator educator_id current_user =>
      (delete_educator w db educator_id current_user).2
  end.

(** A history of requests, each in its own environment, oldest first. *)
Definition serve_all (history : list (World * auth_request)) (db : store)
  : store :=
  foldl (λ db wr, serve wr.1 wr.2 db) db history.

End Backend.

(** ** routers/auth.py: the administrator's lists *)

(** [db.query(User).filter(p).all()] *)
Definition query_all (w : World) (p : User → bool) (db : store)
  : M (list User) :=
  if query_up w then ret (List.filter p db) else raise SQLAlchemyError.

(** An entry of the list of pending users, without its [created_at]. *)
Module PendingUser.
Record t := {
  id : Z;
  email : pystr;
  username : pystr;
  first_name : option pystr;
  last_name : option pystr
}.
End PendingUser.

Module PendingUsers.
Record t := {
  count : nat;
  users : list PendingUser.t
}.
End PendingUsers.

Module Educators.
Record t := {
  count : nat;
  educators : list EducatorInfo.t
}.
End Educators.

Definition pending_user (u : User) : PendingUser.t :=
  {| PendingUser.id := id u;
     PendingUser.email := email u;
     PendingUser.username := username u;
     PendingUser.first_name := first_name u;
     PendingUser.last_name := last_name u |}.

Definition get_pending_users (w : World) (db : store)
    (current_user : gmap string jval) : M PendingUsers.t :=
  match
    query_all w
      (λ u, bool_decide (role u = codepoints (Role_value PENDING))
            && bool_decide (is_approved u = false)
            && bool_decide (is_rejected u = false)) db
  with
  | inl SQLAlchemyError | inl IntegrityError =>
      raise (HTTPException HTTP_500_INTERNAL_SERVER_ERROR
               (Msg "Failed to retrieve pending users"))
  | inl e => raise e
  | inr pending_users =>
      ret {| PendingUsers.count := length pending_users;
             PendingUsers.users := pending_user <$> pending_users |}
  end.

Definition get_educators (w : World) (db : store)
    (current_user : gmap string jval) : M Educators.t :=
  match
    query_all w
      (λ u, bool_decide (role u ∈ [codepoints (Role_value TEACHER);
                                   codepoints (Role_value PARAEDUCATOR)])
            && bool_decide (is_approved u = true)) db
  with
  | inl SQLAlchemyError | inl IntegrityError =>
      raise (HTTPException HTTP_500_INTERNAL_SERVER_ERROR
               (Msg "Failed to retrieve educators"))
  | inl e => raise e
  | inr educators =>
      ret {| Educators.count := length educators;
             Educators.educators := educator_info <$> educators |}
  end.

(** ** routers/users.py: change_password *)

Module ChangePasswordRequest.
Record t := {
  current_password : pystr;
  new_password : pystr
}.
End ChangePasswordRequest.

Module ChangePasswordResponse.
Record t := {
  message : pystr;
  success : bool
}.
End ChangePasswordResponse.

Section ChangePassword.

Variable SECRET_KEY : string.
Variable argon2_hash : pystr → pystr → pystr.
Variable argon2_verify : pystr → pystr → bool.

(** [int(s)] on a string: the integer it writes, or none ([ValueError]);
    the parser belongs to the Python runtime. *)
Variable py_int : pystr → option Z.

(** [int(v)] on a claim value that is not [None]. *)
Definition int_of_claim (v : jval) : M Z :=
  match v with
  | JInt z => ret z
  | JStr s =>
      match py_int s with
      | Some z => ret z
      | None => raise (ValueError "invalid literal for int()")
      end
  | JNull => raise (TypeError "int() argument must be a string or a number")
  end.

(** [change_password] on the claims [get_current_user] hands it. The
    column [updated_at], which it also writes, is not part of the row. *)
Definition change_password (w : World) (db : store) (user_id : Z)
    (request : ChangePasswordRequest.t) (current_user : gmap string jval)
  : outcome ChangePasswordResponse.t :=
  if bool_decide (current_user = ∅) then
    (raise (HTTPException HTTP_401_UNAUTHORIZED (Msg "Not authenticated")),
     db)
  else
    match
      let auth_user_id_str := dict_get current_user "sub" in
      if bool_decide (auth_user_id_str = JNull) then
        raise (ValueError "No user ID in token")
      else int_of_claim auth_user_id_str
    with
    | inl (TypeError _) | inl (ValueError _) =>
        (raise (HTTPException HTTP_401_UNAUTHORIZED (Msg "Invalid token")),
         db)
    | inl e => (raise e, db)
    | inr auth_user_id =>
        if bool_decide (auth_user_id ≠ user_id) then
          (raise (HTTPException HTTP_403_FORBIDDEN
                    (Msg "You can only change your own password")), db)
        else
          match query_first w (λ u, bool_decide (id u = user_id)) db with
          | inl e => (raise e, db)
          | inr None =>
              (raise (HTTPException HTTP_404_NOT_FOUND
                        (Msg (codepoints "User "
                              ++ codepoints (pretty user_id)
                              ++ codepoints " not found"))), db)
          | inr (Some user) =>
              if negb (verify_password argon2_verify
                         (ChangePasswordRequest.current_password request)
                         (hashed_password user))
              then
                (raise (HTTPException HTTP_400_BAD_REQUEST
                          (Msg "Current password is incorrect")), db)
              else
                let '(is_valid, errors) :=
                  validate (ChangePasswordRequest.new_password request) in
                if negb is_valid then
                  (raise (HTTPException HTTP_400_BAD_REQUEST
                            (Msg (codepoints
                                    "New password does not meet requirements: "
                                  ++ join "; " (codepoints <$> errors)))), db)
                else if verify_password argon2_verify
                          (ChangePasswordRequest.new_password request)
                          (hashed_password user)
                then
                  (raise (HTTPException HTTP_400_BAD_REQUEST
                            (Msg "New password cannot be the same as current password")),
                   db)
                else
                  let user :=
                    set_hashed_password
                      (hash_password argon2_hash w
                         (ChangePasswordRequest.new_password request)) user in
                  match commit w (db_merge user db) with
                  | inl _ =>
                      (raise (HTTPException HTTP_500_INTERNAL_SERVER_ERROR
                                (Msg "Failed to update password in database")),
                       db)
                  | inr db' =>
                      (ret {| ChangePasswordResponse.message :=
                                "Password changed successfully";
                              ChangePasswordResponse.success := true |}, db')
                  end
          end
    end.

(** POST /users/{user_id}/change-password: the dependency
    [get_current_user], then the handler. *)
Definition change_password_endpoint (w : World) (db : store)
    (credentials : token) (user_id : Z) (request : ChangePasswordRequest.t)
  : outcome ChangePasswordResponse.t :=
  match get_current_user SECRET_KEY (now w) credentials with
  | inl e => (raise e, db)
  | inr current_user => change_password w db user_id request current_user
  end.

End ChangePassword.

(** ** Sample data

    A small store and environment on which the examples below run.
    [ascii_lower] and [sample_hash] stand in for [str.lower] and Argon2 on
    the ASCII texts of the samples. *)

Definition ascii_lower (s : pystr) : pystr :=
  (λ c, if (65 <=? c)%N && (c <=? 90)%N then (c + 32)%N else c) <$> s.

Definition sample_hash (salt password : pystr) : pystr :=
  codepoints "$argon2id$" ++ salt ++ codepoints "$" ++ password.

Definition sample_verify (password hashed : pystr) : bool :=
  existsb (λ salt, bool_decide (hashed = sample_hash salt password))
    [codepoints "s1"; codepoints "s2"].

Definition sample_world : World :=
  {| now := 1000; query_up := true; commit_up := true;
     token_urlsafe := "ticket-2"; salt := "s2";
     PASSWORD_RESET_TOKEN_EXPIRY_HOURS := Unset;
     send_email := ret true |}.

(** An approved teacher who asked for a password reset; the ticket runs
    out at 1000. *)
Definition alice : User :=
  {| id := 1; email := "alice@x.com"; username := "alice";
     first_name := Some (codepoints "Alice"); last_name := Some (codepoints "A");
     desired_name := None; phone := None;
     hashed_password := sample_hash "s1" "Sup3r$ecretPass!";
     is_active := true;
     password_reset_token := Some (codepoints "ticket-1");
     password_reset_expires := Some 1000%Z;
     password_reset_requested_at := Some 0%Z;
     role := "teacher"; is_approved := true;
     approved_at := Some 10%Z; approved_by_id := JNull; approval_notes := None;
     is_rejected := false; rejected_at := None; rejected_by_id := JNull;
     rejection_reason := None; registered_date := Some 10%Z;
     timezone := None |}.

(** A pending account that was rejected at 500 by the administrator 3. *)
Definition bob : User :=
  {| id := 2; email := "bob@x.com"; username := "bob";
     first_name := Some (codepoints "Bob"); last_name := Some (codepoints "B");
     desired_name := None; phone := None;
     hashed_password := sample_hash "s1" "An0ther$ecretPass";
     is_active := false;
     password_reset_token := None; password_reset_expires := None;
     password_reset_requested_at := None;
     role := "pending"; is_approved := false;
     approved_at := None; approved_by_id := JNull; approval_notes := None;
     is_rejected := true; rejected_at := Some 500%Z;
     rejected_by_id := JInt 3;
     rejection_reason := Some (codepoints "incomplete");
     registered_date := None; timezone := None |}.

(** An administrator. *)
Definition carol : User :=
  {| id := 3; email := "carol@x.com"; username := "carol";
     first_name := Some (codepoints "Carol"); last_name := Some (codepoints "C");
     desired_name := None; phone := None;
     hashed_password := sample_hash "s1" "Adm1n$ecretPass!";
     is_active := true;
     password_reset_token := None; password_reset_expires := None;
     password_reset_requested_at := None;
     role := "admin"; is_approved := true;
     approved_at := Some 5%Z; approved_by_id := JNull; approval_notes := None;
     is_rejected := false; rejected_at := None; rejected_by_id := JNull;
     rejection_reason := None; registered_date := Some 5%Z;
     timezone := None |}.

Definition sample_db : store := [alice; bob; carol].

Definition carol_payload : TokenPayload :=
  {| tp_user_id := 3; tp_email := "carol@x.com"; tp_role := ADMIN;
     tp_first_name := Some (codepoints "Carol");
     tp_last_name := Some (codepoints "C"); tp_desired_name := None |}.

Definition alice_payload : TokenPayload :=
  {| tp_user_id := 1; tp_email := "alice@x.com"; tp_role := TEACHER;
     tp_first_name := Some (codepoints "Alice");
     tp_last_name := Some (codepoints "A"); tp_desired_name := None |}.

(** Approve account 2 as a teacher. *)
Definition approve_bob : ApproveUserRequest.t :=
  {| ApproveUserRequest.user_id := 2;
     ApproveUserRequest.approval_notes := None;
     ApproveUserRequest.role := "teacher" |}.

(** The same environment an hour and more later. *)
Definition sample_world_later : World :=
  {| now := 8200; query_up := true; commit_up := true;
     token_urlsafe := "ticket-3"; salt := "s2";
     PASSWORD_RESET_TOKEN_EXPIRY_HOURS := Unset;
     send_email := ret true |}.

(** [alice] logs in with her username, then with her email. *)
Definition login_alice_by_username : LoginRequest.t :=
  {| LoginRequest.email := None;
     LoginRequest.username := Some (codepoints "alice");
     LoginRequest.password := "Sup3r$ecretPass!" |}.

Definition login_alice_by_email : LoginRequest.t :=
  {| LoginRequest.email := Some (codepoints "alice@x.com");
     LoginRequest.username := None;
     LoginRequest.password := "Sup3r$ecretPass!" |}.

(** [alice] redeems her ticket. *)
Definition reset_alice : ResetPasswordRequest.t :=
  {| ResetPasswordRequest.token := "ticket-1";
     ResetPasswordRequest.new_password := "N3w$ecretPass!!" |}.

(** The invariant of the data model: a pending account is not approved. *)
Definition pending_unapproved (db : store) : Prop :=
  ∀ u, u ∈ db →
       role u = codepoints (Role_value PENDING) → is_approved u = false.

(** [alice] is given the role "pending" through PUT /users/1. *)
Definition demote_alice : UserUpdate.t :=
  {| UserUpdate.email := None; UserUpdate.first_name := None;
     UserUpdate.last_name := None;
     UserUpdate.role := Some (codepoints "pending");
     UserUpdate.desired_name := None; UserUpdate.phone := None;
     UserUpdate.timezone := None |}.

(** A registration. *)
Definition register_dave : RegisterRequest.t :=
  {| RegisterRequest.email := "dave@x.com";
     RegisterRequest.username := "dave";
     RegisterRequest.password := "Sup3r$ecretPass!";
     RegisterRequest.first_name := "Dave";
     RegisterRequest.last_name := "D";
     RegisterRequest.desired_name := "Dave";
     RegisterRequest.phone := None |}.

(** An account is created with the defaults of [create_user], then
    approved as a teacher. *)
Definition history_create_then_approve : list (World * auth_request) :=
  [ (sample_world,
     CreateUser "dave@x.com" "dave" "Sup3r$ecretPass!"
       (Some (codepoints "Dave")) (Some (codepoints "D")));
    (sample_world_later,
     ApproveUser
       {| ApproveUserRequest.user_id := 1;
          ApproveUserRequest.approval_notes := None;
          ApproveUserRequest.role := "teacher" |}
       (access_claims "k" 8000 carol_payload)) ].

(** The same environment a quarter of an hour later. *)
Definition sample_world_soon : World :=
  {| now := 1900; query_up := true; commit_up := true;
     token_urlsafe := "ticket-4"; salt := "s2";
     PASSWORD_RESET_TOKEN_EXPIRY_HOURS := Unset;
     send_email := ret true |}.

Definition forgot_alice : ForgotPasswordRequest.t :=
  {| ForgotPasswordRequest.email := "alice@x.com" |}.

Definition forgot_carol : ForgotPasswordRequest.t :=
  {| ForgotPasswordRequest.email := "carol@x.com" |}.

(** [alice] is given the role "counselor" through PUT /users/1. *)
Definition alice_as_counselor : UserUpdate.t :=
  {| UserUpdate.email := None; UserUpdate.first_name := None;
     UserUpdate.last_name := None;
     UserUpdate.role := Some (codepoints "counselor");
     UserUpdate.desired_name := None; UserUpdate.phone := None;
     UserUpdate.timezone := None |}.

(** [bob] logs in with his email. *)
Definition login_bob : LoginRequest.t :=
  {| LoginRequest.email := Some (codepoints "bob@x.com");
     LoginRequest.username := None;
     LoginRequest.password := "An0ther$ecretPass" |}.


(** An account as [create_user] stores it when no names are given. *)
Definition dave : User :=
  {| id := 4; email := "dave@x.com"; username := "dave";
     first_name := None; last_name := None;
     desired_name := None; phone := None;
     hashed_password := sample_hash "s1" "Sup3r$ecretPass!";
     is_active := true;
     password_reset_token := None; password_reset_expires := None;
     password_reset_requested_at := None;
     role := "pending"; is_approved := false;
     approved_at := None; approved_by_id := JNull; approval_notes := None;
     is_rejected := false; rejected_at := None; rejected_by_id := JNull;
     rejection_reason := None; registered_date := None;
     timezone := None |}.

Definition sample_db_with_dave : store := sample_db ++ [dave].

(** [dave] is made a teacher through PUT /users/4. *)
Definition dave_as_teacher : UserUpdate.t :=
  {| UserUpdate.email := None; UserUpdate.first_name := None;
     UserUpdate.last_name := None;
     UserUpdate.role := Some (codepoints "teacher");
     UserUpdate.desired_name := None; UserUpdate.phone := None;
     UserUpdate.timezone := None |}.

(** Claims that name account 1 under "sub", and [alice]'s request to
    change her password. *)
Definition alice_subject : gmap string jval :=
  <["sub" := JInt 1]> (<["type" := JStr "access"]> ∅).

Definition change_alice : ChangePasswordRequest.t :=
  {| ChangePasswordRequest.current_password := "Sup3r$ecretPass!";
     ChangePasswordRequest.new_password := "N3w$ecretPass!!" |}.

(** * Properties *)

(** ** Password policy *)

Example ERR_LENGTH_text :
  ERR_LENGTH = "Password must be at least 12 characters long".
Proof. reflexivity. Qed.

Lemma str_contains_spec (needle hay : pystr) :
  str_contains needle hay = true ↔ ∃ pre post, hay = pre ++ needle ++ post.
Proof.
  induction hay as [|c hay IH]; simpl.
  - rewrite orb_false_r, bool_decide_eq_true. split.
    + intros [k ->]. exists [], k. done.
    + intros (pre & post & H). symmetry in H.
      apply app_eq_nil in H as [-> H]. apply app_eq_nil in H as [-> _].
      done.
  - rewrite orb_true_iff, bool_decide_eq_true, IH. split.
    + intros [[k ->] | (pre & post & ->)].
      * exists [], k. done.
      * exists (c :: pre), post. done.
    + intros (pre & post & H). destruct pre as [|c' pre]; simpl in H.
      * left. exists post. done.
      * right. injection H as -> ->. eauto.
Qed.

Lemma existsb_false_iff {A} (p : A → bool) (l : list A) :
  existsb p l = false ↔ ∀ x, x ∈ l → p x = false.
Proof.
  induction l as [|a l IH]; simpl.
  - split; [intros _ x Hx; inversion Hx | done].
  - rewrite orb_false_iff, IH. split.
    + intros [Ha Hl] x Hx. apply elem_of_cons in Hx as [-> | Hx]; auto.
    + intros H. split; [apply H; left | intros x Hx; apply H; by right].
Qed.

Section PasswordPolicyFacts.

Variable str_lower : pystr → pystr.

Lemma has_uppercase_spec password :
  has_uppercase password = false ↔ ¬ some_uppercase password.
Proof.
  unfold has_uppercase, some_uppercase. rewrite existsb_false_iff. split.
  - intros H (c & Hc & Hr). specialize (H c Hc).
    apply andb_false_iff in H as [H | H]; apply N.leb_gt in H; lia.
  - intros H c Hc. apply not_true_iff_false. intros Ht.
    apply andb_true_iff in Ht as [H1 H2].
    apply N.leb_le in H1, H2. apply H. eauto.
Qed.

Lemma has_lowercase_spec password :
  has_lowercase password = false ↔ ¬ some_lowercase password.
Proof.
  unfold has_lowercase, some_lowercase. rewrite existsb_false_iff. split.
  - intros H (c & Hc & Hr). specialize (H c Hc).
    apply andb_false_iff in H as [H | H]; apply N.leb_gt in H; lia.
  - intros H c Hc. apply not_true_iff_false. intros Ht.
    apply andb_true_iff in Ht as [H1 H2].
    apply N.leb_le in H1, H2. apply H. eauto.
Qed.

Lemma has_digit_spec password :
  has_digit password = false ↔ ¬ some_digit password.
Proof.
  unfold has_digit, some_digit. rewrite existsb_false_iff. split.
  - intros H (c & Hc & Hd). rewrite (H c Hc) in Hd. done.
  - intros H c Hc. apply not_true_iff_false. intros Ht. apply H. eauto.
Qed.

Lemma has_special_spec password :
  has_special password = false ↔ ¬ some_special password.
Proof.
  unfold has_special, some_special. rewrite existsb_false_iff. split.
  - intros H (c & Hc & Hs). specialize (H c Hc).
    apply bool_decide_eq_false in H. done.
  - intros H c Hc. apply bool_decide_eq_false. intros Hs. apply H. eauto.
Qed.

Lemma username_test_spec password username :
  truthy_pystr username
    && str_contains (str_lower username) (str_lower password) = true
  ↔ contains_username str_lower password username.
Proof.
  unfold contains_username.
  rewrite andb_true_iff, str_contains_spec.
  destruct username; simpl; intuition congruence.
Qed.

(** The list of errors, in the order the tests are made. *)
Lemma validate_password_errors password username :
  errors (validate_password str_lower password username) =
    (if (length password <? MIN_LENGTH)%nat then [ERR_LENGTH] else []) ++
    (if has_uppercase password then [] else [ERR_UPPERCASE]) ++
    (if has_lowercase password then [] else [ERR_LOWERCASE]) ++
    (if has_digit password then [] else [ERR_DIGIT]) ++
    (if has_special password then [] else [ERR_SPECIAL]) ++
    (if truthy_pystr username
        && str_contains (str_lower username) (str_lower password)
     then [ERR_USERNAME] else []).
Proof.
  unfold validate_password, validate. simpl.
  destruct (length password <? MIN_LENGTH)%nat, (has_uppercase password),
    (has_lowercase password), (has_digit password), (has_special password),
    (truthy_pystr username
     && str_contains (str_lower username) (str_lower password));
    reflexivity.
Qed.

Lemma validate_password_is_valid password username :
  is_valid (validate_password str_lower password username) = true
  ↔ errors (validate_password str_lower password username) = [].
Proof.
  unfold validate_password, validate. simpl.
  destruct (length password <? MIN_LENGTH)%nat, (has_uppercase password),
    (has_lowercase password), (has_digit password), (has_special password),
    (truthy_pystr username
     && str_contains (str_lower username) (str_lower password));
    simpl; split; intros H; try reflexivity; discriminate H.
Qed.

Lemma elem_of_if_true (b : bool) (x m : string) :
  m ∈ (if b then [x] else []) ↔ m = x ∧ b = true.
Proof.
  destruct b.
  - rewrite list_elem_of_singleton. tauto.
  - split; [intros H; inversion H | intros [_ H]; discriminate H].
Qed.

Lemma elem_of_if_false (b : bool) (x m : string) :
  m ∈ (if b then [] else [x]) ↔ m = x ∧ b = false.
Proof.
  destruct b.
  - split; [intros H; inversion H | intros [_ H]; discriminate H].
  - rewrite list_elem_of_singleton. tauto.
Qed.

(** C6. [validate_password] makes every test, whatever the outcome of
    the others: a message is in the list it returns exactly when the rule
    of that message is violated (fewer than 12 characters; no A-Z; no a-z;
    no decimal digit; no character of the special set; a username given
    and, both in lower case, contained in the password). So a password
    of fewer than 12 characters always has the length message in its
    list, and [is_valid] holds exactly when the list is empty. *)
Theorem validate_password_reports_every_violation
    (password username : pystr) :
  let r := validate_password str_lower password username in
  (∀ m, m ∈ errors r ↔
       (m = ERR_LENGTH ∧ ¬ long_enough password)
     ∨ (m = ERR_UPPERCASE ∧ ¬ some_uppercase password)
     ∨ (m = ERR_LOWERCASE ∧ ¬ some_lowercase password)
     ∨ (m = ERR_DIGIT ∧ ¬ some_digit password)
     ∨ (m = ERR_SPECIAL ∧ ¬ some_special password)
     ∨ (m = ERR_USERNAME ∧ contains_username str_lower password username))
  ∧ ((length password < 12)%nat → ERR_LENGTH ∈ errors r)
  ∧ (is_valid r = true ↔ errors r = []).
Proof.
  intros r.
  assert (∀ m, m ∈ errors r ↔
       (m = ERR_LENGTH ∧ ¬ long_enough password)
     ∨ (m = ERR_UPPERCASE ∧ ¬ some_uppercase password)
     ∨ (m = ERR_LOWERCASE ∧ ¬ some_lowercase password)
     ∨ (m = ERR_DIGIT ∧ ¬ some_digit password)
     ∨ (m = ERR_SPECIAL ∧ ¬ some_special password)
     ∨ (m = ERR_USERNAME ∧ contains_username str_lower password username))
    as Hall.
  { intros m. subst r. rewrite validate_password_errors.
    rewrite !elem_of_app, elem_of_if_true, !elem_of_if_false,
      elem_of_if_true.
    rewrite has_uppercase_spec, has_lowercase_spec, has_digit_spec,
      has_special_spec, username_test_spec.
    unfold long_enough, MIN_LENGTH. rewrite Nat.ltb_lt.
    rewrite Nat.nle_gt. tauto. }
  split; [exact Hall |]. split.
  - intros Hlen. apply Hall. left. split; [reflexivity |].
    unfold long_enough. lia.
  - apply validate_password_is_valid.
Qed.

End PasswordPolicyFacts.

(** A short password in lower case only: four messages, in the order of
    the tests. *)
Example validate_password_short :
  errors (validate_password ascii_lower "secret" [])
  = [ERR_LENGTH; ERR_UPPERCASE; ERR_DIGIT; ERR_SPECIAL]
  ∧ is_valid (validate_password ascii_lower "secret" []) = false.
Proof. vm_compute. split; reflexivity. Qed.

(** A password that meets the five rules but holds the username. *)
Example validate_password_with_username :
  errors (validate_password ascii_lower "Alice-2024-Pass!" "alice")
  = [ERR_USERNAME]
  ∧ is_valid (validate_password ascii_lower "Alice-2024-Pass!" "alice")
    = false
  ∧ is_valid (validate_password ascii_lower "Alice-2024-Pass!" []) = true.
Proof. vm_compute. repeat split; reflexivity. Qed.

(** The digit rule accepts a decimal digit of any script (here U+0663). *)
Example validate_password_arabic_digit :
  errors (validate_password ascii_lower
            (codepoints "Long-Enough-Pass" ++ [1635%N]) []) = [].
Proof. vm_compute. reflexivity. Qed.

(** ** Tokens and the access guard *)

Lemma M_bind_ret {A B} (a : A) (k : A → M B) : ret a ≫= k = k a.
Proof. reflexivity. Qed.


Lemma find_db_merge (k : Z) (u u0 : User) (db : store) :
  id u = k →
  first_where (λ r, bool_decide (id r = k)) db = Some u0 →
  first_where (λ r, bool_decide (id r = k)) (db_merge u db) = Some u.
Proof.
  intros Hu. unfold first_where, db_merge.
  induction db as [|r db IH]; simpl; [done |].
  destruct (bool_decide (id r = k)) eqn:Hr.
  - apply bool_decide_eq_true in Hr. intros _.
    rewrite (bool_decide_true (id r = id u)) by congruence.
    by rewrite bool_decide_true.
  - apply bool_decide_eq_false in Hr. intros H.
    rewrite (bool_decide_false (id r = id u)) by congruence.
    rewrite bool_decide_false by done. auto.
Qed.

Lemma find_some_id (k : Z) (u0 : User) (db : store) :
  first_where (λ r, bool_decide (id r = k)) db = Some u0 → id u0 = k.
Proof.
  intros H. apply List.find_some in H as [_ H].
  by apply bool_decide_eq_true in H.
Qed.

Section TokenFacts.

Variable SECRET_KEY : string.

Lemma create_access_token_signed now0 p :
  create_access_token SECRET_KEY now0 p
  = Signed SECRET_KEY (access_claims SECRET_KEY now0 p).
Proof. reflexivity. Qed.

Lemma access_claims_lookup now0 p :
  access_claims SECRET_KEY now0 p !! "exp" = Some (JInt (now0 + 1800)) ∧
  access_claims SECRET_KEY now0 p !! "type" = Some (JStr "access") ∧
  access_claims SECRET_KEY now0 p !! "role" = Some (JStr (Role_value (tp_role p))) ∧
  access_claims SECRET_KEY now0 p !! "user_id" = Some (JInt (tp_user_id p)) ∧
  access_claims SECRET_KEY now0 p !! "sub" = None.
Proof.
  unfold access_claims, create_access_token, jwt_encode, model_dump. simpl.
  repeat split; by simplify_map_eq.
Qed.

Lemma access_claims_dom now0 p :
  dom (access_claims SECRET_KEY now0 p)
  = list_to_set ["user_id"; "email"; "role"; "first_name"; "last_name";
                 "desired_name"; "type"; "exp"; "iat"].
Proof.
  unfold access_claims, create_access_token, jwt_encode, model_dump. simpl.
  rewrite !dom_insert_L, dom_empty_L. set_solver.
Qed.

(** An access token that has not expired passes [get_current_user]. *)
Lemma get_current_user_access now now0 p :
  (now < now0 + 1800)%Z →
  get_current_user SECRET_KEY now (create_access_token SECRET_KEY now0 p)
  = ret (access_claims SECRET_KEY now0 p).
Proof.
  intros Hlt. rewrite create_access_token_signed.
  destruct (access_claims_lookup now0 p) as (Hexp & Hty & _).
  unfold get_current_user, verify_token, jwt_decode.
  rewrite bool_decide_true by done. rewrite Hexp.
  destruct (Z.leb_spec (now0 + 1800) now) as [? | _]; [lia |].
  simpl. unfold dict_get. rewrite Hty. reflexivity.
Qed.

End TokenFacts.

Section GuardFacts.

Variable SECRET_KEY : string.

Lemma get_current_user_verified now credentials payload :
  verify_token SECRET_KEY now credentials = ret payload →
  get_current_user SECRET_KEY now credentials
  = if bool_decide (dict_get payload "type" ≠ JStr "access")
    then raise (HTTPException HTTP_401_UNAUTHORIZED (Msg "Invalid token type"))
    else ret payload.
Proof.
  intros Hv. unfold get_current_user. rewrite Hv. simpl.
  by case_bool_decide.
Qed.

(** Whatever [get_current_user] refuses, it refuses with 401. *)
Lemma get_current_user_refuses_401 now credentials :
  status_of (get_current_user SECRET_KEY now credentials) = 200%Z
  ∨ status_of (get_current_user SECRET_KEY now credentials) = 401%Z.
Proof.
  unfold get_current_user, verify_token, jwt_decode.
  destruct credentials as [k claims | raw]; simpl; [| by right].
  case_bool_decide; simpl; [| by right].
  destruct (claims !! "exp") as [[| exp | s] |]; simpl;
    try (by right);
    try destruct (exp <=? now)%Z; simpl;
    try (by right);
    case_bool_decide; simpl; auto.
Qed.

(** C7. A verified token whose [type] is not "access" is refused with
    401 Unauthorized. A verified access token passes [require_role]
    whenever its role is "superuser", passes it when its role is the
    value of one of the allowed roles, and is refused with 403 Forbidden
    in every other case. *)
Theorem require_role_decision (allowed_roles : list Role) (now : Z)
    (credentials : token) (payload : gmap string jval) :
  verify_token SECRET_KEY now credentials = ret payload →
  (dict_get payload "type" ≠ JStr "access" →
     get_current_user SECRET_KEY now credentials
     = raise (HTTPException HTTP_401_UNAUTHORIZED (Msg "Invalid token type"))
     ∧ require_role SECRET_KEY allowed_roles now credentials
       = raise (HTTPException HTTP_401_UNAUTHORIZED (Msg "Invalid token type")))
  ∧ (dict_get payload "type" = JStr "access" →
     get_current_user SECRET_KEY now credentials = ret payload
     ∧ (dict_get payload "role" = JStr "superuser" →
          require_role SECRET_KEY allowed_roles now credentials
          = ret payload)
     ∧ ((∃ r, r ∈ allowed_roles
              ∧ dict_get payload "role" = JStr (Role_value r)) →
          require_role SECRET_KEY allowed_roles now credentials
          = ret payload)
     ∧ (dict_get payload "role" ≠ JStr "superuser" →
        (∀ r, r ∈ allowed_roles →
              dict_get payload "role" ≠ JStr (Role_value r)) →
          ∃ d, require_role SECRET_KEY allowed_roles now credentials
               = raise (HTTPException HTTP_403_FORBIDDEN d))).
Proof.
  intros Hv. pose proof (get_current_user_verified _ _ _ Hv) as Hg.
  unfold require_role. split.
  - intros Hty. rewrite bool_decide_true in Hg by done.
    rewrite Hg. split; reflexivity.
  - intros Hty.
    rewrite bool_decide_false in Hg by (intros H; exact (H Hty)).
    rewrite Hg. split; [reflexivity |].
    rewrite M_bind_ret. unfold role_checker. split; [| split].
    + intros Hsu. rewrite bool_decide_true by exact Hsu. reflexivity.
    + intros (r & Hr & Hrole).
      destruct (bool_decide (dict_get payload "role"
                             = JStr (Role_value SUPERUSER)));
        [reflexivity |].
      rewrite bool_decide_false; [reflexivity |].
      intros Hnot. apply Hnot. rewrite Hrole.
      apply list_elem_of_fmap. exists (codepoints (Role_value r)).
      split; [done |]. apply list_elem_of_fmap. eauto.
    + intros Hsu Hno. rewrite bool_decide_false by exact Hsu.
      rewrite bool_decide_true; [eauto |].
      intros Hin. apply list_elem_of_fmap in Hin as (v & Hv' & Hin).
      apply list_elem_of_fmap in Hin as (r & -> & Hin).
      by apply (Hno r).
Qed.

(** C1, on the code. Whatever the store holds and whenever it is
    presented, a token made by [create_refresh_token] is refused by
    [refresh_token] with 401: the handler looks for the subject under
    "sub", and the token carries it under "user_id". *)
Theorem refresh_token_refuses_issued_tokens
    (w : World) (db : store) (now0 : Z) (p : TokenPayload) :
  refresh_token SECRET_KEY w db
    {| RefreshTokenRequest.refresh_token :=
         create_refresh_token SECRET_KEY now0 p |}
  = raise (HTTPException HTTP_401_UNAUTHORIZED (Msg "Invalid or expired refresh token")).
Proof.
  unfold refresh_token, create_refresh_token, jwt_encode, verify_token,
    jwt_decode. simpl.
  rewrite bool_decide_true by done.
  rewrite lookup_insert_ne by done. rewrite lookup_insert_eq.
  destruct (_ <=? now w)%Z; simpl; [done |].
  unfold dict_get. by simplify_map_eq.
Qed.

End GuardFacts.

(** ** The store *)

Lemma db_merge_absent (u : User) (db : store) :
  id u ∉ id <$> db → db_merge u db = db.
Proof.
  unfold db_merge. induction db as [|r db IH]; simpl; [done |].
  intros Hn. apply not_elem_of_cons in Hn as [Hne Hn].
  rewrite bool_decide_false by congruence. f_equal. auto.
Qed.

(** Merging a row that agrees with the stored one on a column leaves that
    column of the table as it was. *)
Lemma db_merge_column {A} (f : User → A) (u u0 : User) (db : store) :
  NoDup (id <$> db) →
  first_where (λ r, bool_decide (id r = id u)) db = Some u0 →
  f u = f u0 →
  f <$> db_merge u db = f <$> db.
Proof.
  unfold first_where. induction db as [|r db IH]; simpl; [done |].
  intros Hnd Hfind Hf. apply NoDup_cons in Hnd as [Hr Hnd].
  case_bool_decide as Hid; simpl in *.
  - injection Hfind as ->. rewrite db_merge_absent by (by rewrite <- Hid).
    by rewrite Hf.
  - f_equal. auto.
Qed.

(** Merging a row whose ticket is the stored one, or none, keeps the
    tickets distinct. *)
Lemma db_merge_tickets (u u0 : User) (db : store) :
  NoDup (id <$> db) →
  first_where (λ r, bool_decide (id r = id u)) db = Some u0 →
  password_reset_token u = password_reset_token u0
  ∨ password_reset_token u = None →
  NoDup (omap password_reset_token db) →
  NoDup (omap password_reset_token (db_merge u db)).
Proof.
  unfold first_where. induction db as [|r db IH]; simpl; [done |].
  intros Hnd Hfind Hf Ht. apply NoDup_cons in Hnd as [Hr Hnd].
  case_bool_decide as Hid; simpl in *.
  - injection Hfind as ->. rewrite db_merge_absent by (by rewrite <- Hid).
    destruct Hf as [-> | ->]; [done |].
    destruct (password_reset_token u0); [by apply NoDup_cons in Ht as [_ ?] | done].
  - assert (NoDup (omap password_reset_token db)) as Ht'.
    { destruct (password_reset_token r); [by apply NoDup_cons in Ht as [_ ?] | done]. }
    specialize (IH Hnd Hfind Hf Ht').
    destruct (password_reset_token r) as [t|] eqn:Hrt; [| done].
    apply NoDup_cons in Ht as [Hnotin _]. apply NoDup_cons. split; [| done].
    intros Hin. apply Hnotin.
    apply list_elem_of_omap in Hin as (x & Hx & Hxt).
    apply list_elem_of_omap.
    unfold db_merge in Hx. apply list_elem_of_fmap in Hx as (y & -> & Hy).
    case_bool_decide as Hyid.
    + destruct Hf as [Hf | Hf]; [| congruence].
      exists u0. split; [| congruence].
      apply List.find_some in Hfind as [Hin0 _]. by apply list_elem_of_In.
    + eauto.
Qed.

Lemma db_merge_ids (u : User) (db : store) :
  id <$> db_merge u db = id <$> db.
Proof.
  unfold db_merge. induction db as [|r db IH]; simpl; [done |].
  f_equal; [| done]. case_bool_decide; congruence.
Qed.

(** A merge that keeps email and username, and keeps or clears the
    ticket, can be committed. *)
Lemma store_ok_merge (u u0 : User) (db : store) :
  store_ok db →
  first_where (λ r, bool_decide (id r = id u)) db = Some u0 →
  email u = email u0 → username u = username u0 →
  password_reset_token u = password_reset_token u0
  ∨ password_reset_token u = None →
  store_ok (db_merge u db).
Proof.
  intros [Hnd Hu] Hfind He Hn Ht. split.
  - by rewrite db_merge_ids.
  - unfold unique_ok in *.
    apply andb_true_iff in Hu as [Hu Htok].
    apply andb_true_iff in Hu as [Hem Hun].
    rewrite (db_merge_column email u u0), (db_merge_column username u u0)
      by done.
    rewrite Hem, Hun. simpl. apply bool_decide_eq_true.
    apply bool_decide_eq_true in Htok. by eapply db_merge_tickets.
Qed.

Lemma commit_ok (w : World) (db : store) :
  commit_up w = true → store_ok db → commit w db = ret db.
Proof.
  intros Hup [_ Hu]. unfold commit. by rewrite Hup, Hu.
Qed.

Lemma commit_inr (w : World) (db db' : store) :
  commit w db = inr db' → db' = db.
Proof.
  unfold commit, raise, ret.
  destruct (commit_up w), (unique_ok db); simpl; congruence.
Qed.

(** ** Roles *)

Lemma Role_of_value (r : Role) : Role_of (Role_value r) = ret r.
Proof. destruct r; vm_compute; reflexivity. Qed.

Lemma Role_of_ret (s : pystr) (r : Role) :
  Role_of s = ret r → s = codepoints (Role_value r).
Proof.
  unfold Role_of.
  destruct (List.find _ all_roles) as [r'|] eqn:Hfind; [| discriminate].
  intros [= ->]. apply List.find_some in Hfind as [_ H].
  by apply bool_decide_eq_true in H.
Qed.

Lemma Role_of_unknown (s : pystr) :
  (∀ r, s ≠ codepoints (Role_value r)) →
  Role_of s = raise (ValueError (codepoints "'" ++ s
                                 ++ codepoints "' is not a valid Role")).
Proof.
  intros Hno. destruct (Role_of s) as [e | r] eqn:H.
  - unfold Role_of in *. destruct (List.find _ all_roles); [discriminate |].
    symmetry. exact H.
  - apply Role_of_ret in H. by destruct (Hno r).
Qed.

Lemma Role_value_not_pending (r : Role) :
  r ≠ PENDING → codepoints (Role_value r) ≠ codepoints "pending".
Proof. destruct r; intros H; [done | vm_compute; discriminate ..]. Qed.

(** ** Approval *)

Section ApprovalFacts.

Variables (w : World) (db : store) (request : ApproveUserRequest.t).
Variable current_user : gmap string jval.

Let by_id : User → bool :=
  λ u, bool_decide (id u = ApproveUserRequest.user_id request).

Lemma approve_user_unknown :
  query_up w = true →
  first_where by_id db = None →
  approve_user w db request current_user
  = (raise (HTTPException HTTP_404_NOT_FOUND
              (Msg (codepoints "User with ID "
                    ++ codepoints (pretty (ApproveUserRequest.user_id request))
                    ++ codepoints " not found"))), db).
Proof.
  intros Hq Hf. unfold approve_user, query_first. rewrite Hq.
  rewrite M_bind_ret. fold by_id. rewrite Hf. reflexivity.
Qed.

Lemma approve_user_bad_role user :
  query_up w = true →
  first_where by_id db = Some user →
  (∀ r, ApproveUserRequest.role request = codepoints (Role_value r) →
        r = PENDING) →
  approve_user w db request current_user
  = (raise (HTTPException HTTP_400_BAD_REQUEST
              (Msg (codepoints "Invalid role: "
                    ++ ApproveUserRequest.role request))), db).
Proof.
  intros Hq Hf Hrole. unfold approve_user, query_first. rewrite Hq.
  rewrite M_bind_ret. fold by_id. rewrite Hf.
  destruct (Role_of (ApproveUserRequest.role request)) as [e | r] eqn:Hr.
  - unfold Role_of in Hr.
    destruct (List.find _ all_roles); [discriminate |].
    injection Hr as <-. reflexivity.
  - apply Role_of_ret in Hr. rewrite (Hrole r Hr). reflexivity.
Qed.

Lemma approve_user_ok user r :
  query_up w = true → commit_up w = true → store_ok db →
  first_where by_id db = Some user →
  ApproveUserRequest.role request = codepoints (Role_value r) →
  r ≠ PENDING →
  ∃ response user',
    approve_user w db request current_user
    = (ret response, db_merge user' db)
    ∧ store_ok (db_merge user' db)
    ∧ first_where by_id (db_merge user' db) = Some user'
    ∧ ApproveUserResponse.user_id response
      = ApproveUserRequest.user_id request
    ∧ ApproveUserResponse.role response = codepoints (Role_value r)
    ∧ ApproveUserResponse.is_approved response = true
    ∧ is_approved user' = true
    ∧ approved_at user' = Some (now w)
    ∧ registered_date user' = Some (now w)
    ∧ approved_by_id user' = dict_get current_user "sub"
    ∧ role user' = codepoints (Role_value r)
    ∧ approval_notes user' = ApproveUserRequest.approval_notes request
    ∧ is_rejected user' = false
    ∧ rejection_reason user' = None
    ∧ rejected_at user' = rejected_at user
    ∧ rejected_by_id user' = rejected_by_id user
    ∧ is_active user' = is_active user
    ∧ hashed_password user' = hashed_password user
    ∧ password_reset_token user' = password_reset_token user
    ∧ password_reset_expires user' = password_reset_expires user
    ∧ password_reset_requested_at user' = password_reset_requested_at user.
Proof.
  intros Hq Hc Hok Hf Hrole Hr.
  pose proof (find_some_id _ _ _ Hf) as Hid.
  set (user' :=
    set_approval_notes (ApproveUserRequest.approval_notes request)
      (set_rejection_reason None
        (set_is_rejected false
          (set_role (Role_value r)
            (set_approved_by_id (dict_get current_user "sub")
              (set_registered_date (Some (now w))
                (set_approved_at (Some (now w))
                  (set_is_approved true user)))))))).
  assert (id user' = id user) as Hid' by (by destruct user).
  assert (store_ok (db_merge user' db)) as Hok'.
  { apply (store_ok_merge user' user);
      [done | | by destruct user | by destruct user
       | left; by destruct user].
    rewrite Hid', Hid. exact Hf. }
  eexists _, user'. split; [| split; [exact Hok' |]].
  - unfold approve_user, query_first. rewrite Hq, M_bind_ret.
    fold by_id. rewrite Hf, Hrole, Role_of_value, M_bind_ret.
    rewrite bool_decide_false by done.
    unfold ret at 1. cbv beta iota.
    fold user'. rewrite (commit_ok w _ Hc Hok'). reflexivity.
  - split; [apply (find_db_merge _ _ user); [congruence | exact Hf] |].
    destruct user; simpl in *. repeat split; congruence.
Qed.

End ApprovalFacts.

Lemma sample_db_ok : store_ok sample_db.
Proof. split; [compute_done | reflexivity]. Qed.

Lemma approve_user_inv (w : World) (db db' : store)
    (request : ApproveUserRequest.t) (current_user : gmap string jval)
    (response : ApproveUserResponse.t) :
  approve_user w db request current_user = (ret response, db') →
  ∃ user',
    first_where (λ u, bool_decide (id u = ApproveUserRequest.user_id request))
      db' = Some user'
    ∧ is_approved user' = true
    ∧ approved_by_id user' = dict_get current_user "sub".
Proof.
  unfold approve_user, query_first.
  destruct (query_up w); [| discriminate]. rewrite M_bind_ret.
  destruct (first_where _ db) as [user|] eqn:Hf; [| discriminate].
  destruct (Role_of (ApproveUserRequest.role request)) as [e | r];
    [destruct e; discriminate |].
  rewrite M_bind_ret. case_bool_decide; [discriminate |].
  unfold ret at 1. cbv beta iota.
  match goal with |- context [commit w (db_merge ?u db)] => set (user' := u) end.
  destruct (commit w (db_merge user' db)) as [e | db1] eqn:Hc;
    [destruct e; discriminate |].
  apply commit_inr in Hc as ->. rewrite M_bind_ret. intros [= _ <-].
  exists user'. split; [| by destruct user].
  apply (find_db_merge _ _ user); [| exact Hf].
  apply find_some_id in Hf. by destruct user.
Qed.

(** C5, as the code has it. With the database answering and the store well
    formed, [approve_user] answers 404 for an id no row has, and 400 when
    the requested role is "pending" or is not the value of a role. On an
    existing account with any other role it succeeds and leaves the row
    with is_approved true, approved_at and registered_date at the current
    time, the requested role, the notes of the request, is_rejected false
    and rejection_reason null; rejected_at and rejected_by_id keep the
    values they had. *)
Theorem approve_user_effect (w : World) (db : store)
    (request : ApproveUserRequest.t) (current_user : gmap string jval) :
  query_up w = true → commit_up w = true → store_ok db →
  let by_id := λ u, bool_decide (id u = ApproveUserRequest.user_id request) in
  (first_where by_id db = None →
     ∃ d, approve_user w db request current_user
          = (raise (HTTPException HTTP_404_NOT_FOUND d), db))
  ∧ (∀ user, first_where by_id db = Some user →
       (ApproveUserRequest.role request = codepoints "pending"
        ∨ (∀ r, ApproveUserRequest.role request ≠ codepoints (Role_value r)) →
          ∃ d, approve_user w db request current_user
               = (raise (HTTPException HTTP_400_BAD_REQUEST d), db))
       ∧ (∀ r, ApproveUserRequest.role request = codepoints (Role_value r) →
               r ≠ PENDING →
          ∃ response user',
            approve_user w db request current_user
            = (ret response, db_merge user' db)
            ∧ first_where by_id (db_merge user' db) = Some user'
            ∧ is_approved user' = true
            ∧ approved_at user' = Some (now w)
            ∧ registered_date user' = Some (now w)
            ∧ role user' = ApproveUserRequest.role request
            ∧ approval_notes user' = ApproveUserRequest.approval_notes request
            ∧ is_rejected user' = false
            ∧ rejection_reason user' = None
            ∧ rejected_at user' = rejected_at user
            ∧ rejected_by_id user' = rejected_by_id user)).
Proof.
  intros Hq Hc Hok by_id. split.
  - intros Hf. eexists. by apply approve_user_unknown.
  - intros user Hf. split.
    + intros Hbad. eexists.
      apply (approve_user_bad_role w db request current_user user Hq Hf).
      intros r Hr. destruct Hbad as [Hp | Hno]; [| by destruct (Hno r)].
      destruct (decide (r = PENDING)) as [| Hne]; [done |].
      apply Role_value_not_pending in Hne. congruence.
    + intros r Hr Hne.
      destruct (approve_user_ok w db request current_user user r
                  Hq Hc Hok Hf Hr Hne)
        as (response & user' & Hrun & _ & Hfind & _ & _ & _ & Happ & Hat
            & Hreg & _ & Hrole & Hnotes & Hrej & Hreason & Hrat & Hrby & _).
      exists response, user'. rewrite Hr. repeat split; assumption.
Qed.

Lemma approve_user_effect_witness :
  ∃ response user',
    approve_user sample_world sample_db approve_bob
      (access_claims "k" 900 carol_payload)
    = (ret response, db_merge user' sample_db)
    ∧ is_approved user' = true
    ∧ role user' = codepoints "teacher"
    ∧ is_rejected user' = false.
Proof.
  destruct (approve_user_effect sample_world sample_db approve_bob
              (access_claims "k" 900 carol_payload)
              eq_refl eq_refl sample_db_ok) as [_ H].
  destruct (H bob eq_refl) as [_ Hok].
  destruct (Hok TEACHER eq_refl ltac:(discriminate))
    as (response & user' & Hrun & _ & Happ & _ & _ & Hrole & _ & Hrej & _).
  exists response, user'. repeat split; assumption.
Defined.

(** C5 as the specification words it fails on the code: approving the
    rejected account [bob] leaves the time and the author of the
    rejection in the row. *)
Lemma approve_user_keeps_rejection_stamp :
  ¬ (∀ (w : World) (db db' : store) (request : ApproveUserRequest.t)
       (current_user : gmap string jval) (response : ApproveUserResponse.t)
       (user' : User),
       approve_user w db request current_user = (ret response, db') →
       first_where
         (λ u, bool_decide (id u = ApproveUserRequest.user_id request)) db'
       = Some user' →
       is_rejected user' = false ∧ rejected_at user' = None
       ∧ rejected_by_id user' = JNull ∧ rejection_reason user' = None).
Proof.
  intros Hclaim.
  destruct (approve_user_ok sample_world sample_db approve_bob
              (access_claims "k" 900 carol_payload) bob TEACHER
              eq_refl eq_refl sample_db_ok eq_refl eq_refl
              ltac:(discriminate))
    as (response & user' & Hrun & _ & Hfind & Hrest).
  destruct (Hclaim _ _ _ _ _ _ _ Hrun Hfind) as (_ & Hat & _).
  assert (rejected_at user' = Some 500%Z) as Hkept by (apply Hrest).
  congruence.
Qed.

(** ** The subject claim *)

Section SubjectClaim.

Variable SECRET_KEY : string.

(** C2. The claims of a token made by [create_access_token] hold the
    subject under "user_id" and have no "sub" entry. Hence, as long as
    the token has not expired, GET /auth/me answers it with 401, and an
    approval made with it records no approver (approved_by_id is
    null). *)
Theorem access_token_subject_is_user_id (w : World) (db : store)
    (now0 : Z) (p : TokenPayload) :
  (now w < now0 + 1800)%Z →
  let credentials := create_access_token SECRET_KEY now0 p in
  let claims := access_claims SECRET_KEY now0 p in
  get_current_user SECRET_KEY (now w) credentials = ret claims
  ∧ claims !! "user_id" = Some (JInt (tp_user_id p))
  ∧ claims !! "sub" = None
  ∧ dom claims
    = list_to_set ["user_id"; "email"; "role"; "first_name"; "last_name";
                   "desired_name"; "type"; "exp"; "iat"]
  ∧ get_me_endpoint SECRET_KEY w db credentials
    = raise (HTTPException HTTP_401_UNAUTHORIZED (Msg "Invalid token"))
  ∧ (∀ request response db',
       approve_user_endpoint SECRET_KEY w db credentials request
       = (ret response, db') →
       ∃ user',
         first_where
           (λ u, bool_decide (id u = ApproveUserRequest.user_id request))
           db' = Some user'
         ∧ is_approved user' = true
         ∧ approved_by_id user' = JNull).
Proof.
  intros Hlt credentials claims.
  pose proof (get_current_user_access SECRET_KEY _ now0 p Hlt) as Hg.
  destruct (access_claims_lookup SECRET_KEY now0 p)
    as (_ & _ & _ & Huid & Hsub).
  fold credentials claims in Hg, Huid, Hsub.
  assert (dict_get claims "sub" = JNull) as Hnull
    by (unfold dict_get; by rewrite Hsub).
  split; [exact Hg |]. split; [exact Huid |]. split; [exact Hsub |].
  split; [apply access_claims_dom |]. split.
  - unfold get_me_endpoint. rewrite Hg, M_bind_ret.
    unfold get_me. rewrite Hnull. reflexivity.
  - intros request response db'. unfold approve_user_endpoint, require_role.
    rewrite Hg, M_bind_ret.
    destruct (role_checker _ claims) as [e | cu] eqn:Hrc; [discriminate |].
    assert (cu = claims) as ->.
    { unfold role_checker in Hrc.
      repeat case_bool_decide; by inversion Hrc. }
    intros Hrun. apply approve_user_inv in Hrun as (user' & ? & ? & Hby).
    exists user'. rewrite Hnull in Hby. done.
Qed.

End SubjectClaim.

Lemma access_token_subject_is_user_id_witness :
  get_me_endpoint "k" sample_world sample_db
    (create_access_token "k" 900 carol_payload)
  = raise (HTTPException HTTP_401_UNAUTHORIZED (Msg "Invalid token"))
  ∧ ∃ response db' user',
      approve_user_endpoint "k" sample_world sample_db
        (create_access_token "k" 900 carol_payload) approve_bob
      = (ret response, db')
      ∧ first_where (λ u, bool_decide (id u = 2%Z)) db' = Some user'
      ∧ approved_by_id user' = JNull.
Proof.
  pose proof (access_token_subject_is_user_id "k" sample_world sample_db
                900 carol_payload eq_refl) as (_ & _ & _ & _ & Hme & Happ).
  split; [exact Hme |].
  destruct (approve_user_endpoint "k" sample_world sample_db
              (create_access_token "k" 900 carol_payload) approve_bob)
    as [[e | response] db'] eqn:Hrun.
  - exfalso. vm_compute in Hrun. discriminate Hrun.
  - destruct (Happ approve_bob response db' Hrun) as (user' & Hf & _ & Hby).
    exists response, db', user'. repeat split; assumption.
Defined.

Lemma require_role_decision_witness :
  require_role "k" [ADMIN; SUPER_ADMIN] 1000
    (create_access_token "k" 900 carol_payload)
  = ret (access_claims "k" 900 carol_payload)
  ∧ (∃ d, require_role "k" [ADMIN; SUPER_ADMIN] 1000
            (create_access_token "k" 900 alice_payload)
          = raise (HTTPException HTTP_403_FORBIDDEN d))
  ∧ require_role "k" [ADMIN; SUPER_ADMIN] 1000
      (create_refresh_token "k" 900 carol_payload)
    = raise (HTTPException HTTP_401_UNAUTHORIZED (Msg "Invalid token type")).
Proof.
  split; [| split].
  - destruct (require_role_decision "k" [ADMIN; SUPER_ADMIN] 1000
                (create_access_token "k" 900 carol_payload)
                (access_claims "k" 900 carol_payload) eq_refl)
      as [_ Hacc].
    destruct (Hacc eq_refl) as (_ & _ & Hin & _).
    apply Hin. exists ADMIN. split; [by constructor | reflexivity].
  - destruct (require_role_decision "k" [ADMIN; SUPER_ADMIN] 1000
                (create_access_token "k" 900 alice_payload)
                (access_claims "k" 900 alice_payload) eq_refl)
      as [_ Hacc].
    destruct (Hacc eq_refl) as (_ & _ & _ & Hout).
    apply Hout; [vm_compute; discriminate |].
    intros r Hr. apply list_elem_of_In in Hr. simpl in Hr.
    destruct Hr as [<- | [<- | []]]; vm_compute; discriminate.
  - destruct (require_role_decision "k" [ADMIN; SUPER_ADMIN] 1000
                (create_refresh_token "k" 900 carol_payload)
                (<["iat" := JInt 900]>
                   (<["exp" := JInt 605700]>
                      (<["type" := JStr "refresh"]>
                         (<["email" := JStr "carol@x.com"]>
                            (<["user_id" := JInt 3]> ∅)))))
                eq_refl)
      as [Href _].
    apply Href. vm_compute. discriminate.
Defined.

(** The refresh of a token just issued to the approved teacher [alice] of
    [sample_db]. *)
Example refresh_token_refuses_alice :
  refresh_token "k" sample_world sample_db
    {| RefreshTokenRequest.refresh_token :=
         create_refresh_token "k" 900 alice_payload |}
  = raise (HTTPException HTTP_401_UNAUTHORIZED
             (Msg "Invalid or expired refresh token")).
Proof. vm_compute. reflexivity. Qed.

(** ** Login *)

Section LoginFacts.

Variable SECRET_KEY : string.
Variable argon2_verify : pystr → pystr → bool.

Lemma first_where_none (p : User → bool) (db : store) :
  (∀ r, r ∈ db → p r = false) → first_where p db = None.
Proof.
  intros H. unfold first_where.
  destruct (List.find p db) as [r|] eqn:Hf; [| done].
  apply List.find_some in Hf as [Hin Hp].
  apply list_elem_of_In in Hin. rewrite (H r Hin) in Hp. discriminate.
Qed.

(** An account that is absent and a password that does not verify get
    the same answer. *)
Lemma login_failure_is_generic (w : World) (db : store)
    (credentials : LoginRequest.t) (e : pystr) :
  query_up w = true →
  py_or (LoginRequest.email credentials) (LoginRequest.username credentials)
  = Some e →
  truthy_pystr e = true →
  (first_where (λ u, bool_decide (email u = e)) db = None
   ∨ ∃ user, first_where (λ u, bool_decide (email u = e)) db = Some user
             ∧ argon2_verify (LoginRequest.password credentials)
                 (hashed_password user) = false) →
  login SECRET_KEY argon2_verify w db credentials
  = raise (HTTPException HTTP_401_UNAUTHORIZED
             (Msg "Invalid email/username or password")).
Proof.
  intros Hq Hor He Hcase. unfold login. rewrite Hor. simpl. rewrite He. simpl.
  unfold authenticate_user, get_user_by_email, query_first. rewrite Hq.
  rewrite M_bind_ret.
  destruct Hcase as [-> | (user & -> & Hv)]; [reflexivity |].
  unfold verify_password. rewrite Hv. reflexivity.
Qed.

(** C3, on the code. A login that gives only a username is looked up in
    the email column: unless the username is also some account's email, it
    is refused with 401, whatever the password. *)
Theorem login_looks_username_up_as_email (w : World) (db : store)
    (username' password : pystr) :
  query_up w = true →
  truthy_pystr username' = true →
  (∀ r, r ∈ db → email r ≠ username') →
  login SECRET_KEY argon2_verify w db
    {| LoginRequest.email := None;
       LoginRequest.username := Some username';
       LoginRequest.password := password |}
  = raise (HTTPException HTTP_401_UNAUTHORIZED
             (Msg "Invalid email/username or password")).
Proof.
  intros Hq Ht Hno.
  apply (login_failure_is_generic w db _ username'); [done | done | done |].
  left. apply first_where_none. intros r Hr.
  apply bool_decide_eq_false. by apply Hno.
Qed.

End LoginFacts.

(** [alice] is refused with her username and her password, and admitted
    with her email and the same password. *)
Lemma login_looks_username_up_as_email_witness :
  login "k" sample_verify sample_world sample_db login_alice_by_username
  = raise (HTTPException HTTP_401_UNAUTHORIZED
             (Msg "Invalid email/username or password"))
  ∧ status_of (login "k" sample_verify sample_world sample_db
                 login_alice_by_email) = 200%Z.
Proof.
  split; [| reflexivity].
  apply (login_looks_username_up_as_email "k" sample_verify sample_world
           sample_db "alice" "Sup3r$ecretPass!"); [reflexivity .. |].
  intros r Hr. apply list_elem_of_In in Hr. simpl in Hr.
  destruct Hr as [<- | [<- | [<- | []]]]; vm_compute; discriminate.
Defined.

(** ** Password reset *)

Lemma first_where_by_id_of_member (u : User) (db : store) :
  u ∈ db → ∃ u0, first_where (λ r, bool_decide (id r = id u)) db = Some u0.
Proof.
  intros Hin. unfold first_where.
  destruct (List.find _ db) as [u0|] eqn:Hf; [eauto |].
  apply list_elem_of_In in Hin.
  pose proof (List.find_none _ _ Hf u Hin) as H. simpl in H.
  by rewrite bool_decide_true in H.
Qed.

Lemma first_where_member (p : User → bool) (u : User) (db : store) :
  first_where p db = Some u → u ∈ db.
Proof.
  intros H. apply List.find_some in H as [H _]. by apply list_elem_of_In.
Qed.

Section ResetFacts.

Variable str_lower : pystr → pystr.
Variable argon2_hash : pystr → pystr → pystr.
Variables (w : World) (db : store) (request : ResetPasswordRequest.t).

(** The row that holds the ticket of the request, and whether its ticket
    has run out at the time of the request. *)
Let holder : option User :=
  first_where
    (λ u, bool_decide (password_reset_token u
                       = Some (ResetPasswordRequest.token request))) db.

Let run_out (user : User) : Prop :=
  password_reset_expires user = None
  ∨ ∃ expires, password_reset_expires user = Some expires
               ∧ (expires < now w)%Z.

Let policy_ok : Prop :=
  is_valid (validate_password str_lower
              (ResetPasswordRequest.new_password request) []) = true.

Lemma reset_password_not_found :
  policy_ok → query_up w = true → holder = None →
  reset_password str_lower argon2_hash w db request
  = (raise (HTTPException HTTP_400_BAD_REQUEST (Msg RESET_NOT_FOUND_MESSAGE)),
     db).
Proof.
  unfold policy_ok, holder. intros Hp Hq Hh.
  unfold reset_password, query_first. rewrite Hp, Hq. simpl negb.
  cbv iota. rewrite M_bind_ret, Hh. reflexivity.
Qed.

Lemma reset_password_run_out user :
  policy_ok → query_up w = true → holder = Some user → run_out user →
  reset_password str_lower argon2_hash w db request
  = (raise (HTTPException HTTP_400_BAD_REQUEST (Msg RESET_EXPIRED_MESSAGE)),
     db).
Proof.
  unfold policy_ok, holder, run_out. intros Hp Hq Hh Hrun.
  unfold reset_password, query_first. rewrite Hp, Hq. simpl negb.
  cbv iota. rewrite M_bind_ret, Hh.
  destruct Hrun as [-> | (expires & -> & Hlt)]; [reflexivity |].
  apply Z.ltb_lt in Hlt. rewrite Hlt. reflexivity.
Qed.

(** A ticket that has not run out: the row is rewritten and committed. *)
Lemma reset_password_redeem user expires :
  policy_ok → query_up w = true → holder = Some user →
  password_reset_expires user = Some expires → (now w ≤ expires)%Z →
  let user' :=
    set_password_reset_requested_at None
      (set_password_reset_expires None
         (set_password_reset_token None
            (set_hashed_password
               (argon2_hash (salt w)
                  (ResetPasswordRequest.new_password request)) user))) in
  reset_password str_lower argon2_hash w db request
  = match commit w (db_merge user' db) with
    | inr db' =>
        (ret {| ResetPasswordResponse.message := RESET_DONE_MESSAGE;
                ResetPasswordResponse.email := email user |}, db')
    | inl _ =>
        (raise (HTTPException HTTP_500_INTERNAL_SERVER_ERROR
                  (Msg "Failed to reset password")), db)
    end.
Proof.
  unfold policy_ok, holder. intros Hp Hq Hh Hexp Hle.
  unfold reset_password, query_first. rewrite Hp, Hq. simpl negb.
  cbv iota. rewrite M_bind_ret, Hh, Hexp.
  destruct (Z.ltb_spec expires (now w)) as [? | _]; [lia |].
  unfold commit.
  destruct (commit_up w); simpl; [| reflexivity].
  destruct (unique_ok _); simpl; [| reflexivity].
  by destruct user.
Qed.

Lemma reset_password_cases :
  policy_ok → query_up w = true →
  holder = None
  ∨ (∃ user, holder = Some user ∧ run_out user)
  ∨ (∃ user expires, holder = Some user
                     ∧ password_reset_expires user = Some expires
                     ∧ (now w ≤ expires)%Z).
Proof.
  intros _ _. destruct holder as [user|]; [| by left]. right.
  destruct (password_reset_expires user) as [expires|] eqn:He.
  - destruct (Z.lt_ge_cases expires (now w)).
    + left. exists user. split; [done |]. right. eauto.
    + right. eauto.
  - left. exists user. split; [done |]. by left.
Qed.

End ResetFacts.

Lemma same_id_same_row (db : store) (u u0 : User) :
  NoDup (id <$> db) → u ∈ db → u0 ∈ db → id u = id u0 → u = u0.
Proof.
  induction db as [|r db IH]; simpl; intros Hnd Hu Hu0 Hid.
  - inversion Hu.
  - apply NoDup_cons in Hnd as [Hr Hnd].
    apply elem_of_cons in Hu as [-> | Hu];
      apply elem_of_cons in Hu0 as [-> | Hu0]; [done | | | by apply IH].
    + destruct Hr. rewrite Hid. apply list_elem_of_fmap. eauto.
    + destruct Hr. rewrite <- Hid. apply list_elem_of_fmap. eauto.
Qed.

Lemma first_where_by_id_of_holder (p : User → bool) (db : store) (u : User) :
  NoDup (id <$> db) → first_where p db = Some u →
  first_where (λ r, bool_decide (id r = id u)) db = Some u.
Proof.
  intros Hnd Hf. apply first_where_member in Hf.
  destruct (first_where_by_id_of_member u db Hf) as (u0 & Hu0).
  rewrite Hu0. f_equal.
  apply (same_id_same_row db); [done | by eapply first_where_member | done |].
  by apply find_some_id in Hu0.
Qed.

(** C4, as the code has it. For a new password that meets the policy and a
    database that answers, [reset_password] fails with 400 exactly when no
    account holds the ticket, or the stored expiry is null, or the stored
    expiry is strictly before the current time; a ticket whose expiry is
    the current time is still accepted. No account gives the message
    "Invalid or expired password reset link", a ticket that ran out gives
    "Password reset link has expired". Whenever the call succeeds the row
    has the hash of the new password and its ticket, expiry and
    requested_at are null; and it does succeed on a ticket that has not run
    out when the store is well formed and the commit goes through. *)
Theorem reset_password_effect (str_lower : pystr → pystr)
    (argon2_hash : pystr → pystr → pystr) (w : World) (db : store)
    (request : ResetPasswordRequest.t) :
  query_up w = true →
  is_valid (validate_password str_lower
              (ResetPasswordRequest.new_password request) []) = true →
  let holder :=
    first_where
      (λ u, bool_decide (password_reset_token u
                         = Some (ResetPasswordRequest.token request))) db in
  let result := reset_password str_lower argon2_hash w db request in
  (status_of result.1 = 400%Z ↔
     holder = None
     ∨ ∃ user, holder = Some user
               ∧ (password_reset_expires user = None
                  ∨ ∃ expires, password_reset_expires user = Some expires
                               ∧ (expires < now w)%Z))
  ∧ (holder = None →
       result.1 = raise (HTTPException HTTP_400_BAD_REQUEST
                           (Msg RESET_NOT_FOUND_MESSAGE)))
  ∧ (∀ user, holder = Some user →
       password_reset_expires user = None
       ∨ (∃ expires, password_reset_expires user = Some expires
                     ∧ (expires < now w)%Z) →
       result.1 = raise (HTTPException HTTP_400_BAD_REQUEST
                           (Msg RESET_EXPIRED_MESSAGE)))
  ∧ (∀ user, holder = Some user →
       password_reset_expires user = Some (now w) →
       status_of result.1 ≠ 400%Z)
  ∧ (∀ response db', result = (ret response, db') →
       ∃ user user',
         holder = Some user
         ∧ db' = db_merge user' db
         ∧ first_where (λ r, bool_decide (id r = id user)) db' = Some user'
         ∧ ResetPasswordResponse.email response = email user
         ∧ hashed_password user'
           = argon2_hash (salt w) (ResetPasswordRequest.new_password request)
         ∧ password_reset_token user' = None
         ∧ password_reset_expires user' = None
         ∧ password_reset_requested_at user' = None)
  ∧ (commit_up w = true → store_ok db →
     ∀ user expires, holder = Some user →
       password_reset_expires user = Some expires → (now w ≤ expires)%Z →
       ∃ response db', result = (ret response, db')).
Proof.
  intros Hq Hp holder result.
  pose proof (reset_password_not_found str_lower argon2_hash w db request Hp Hq)
    as Hnone.
  pose proof (λ user,
    reset_password_run_out str_lower argon2_hash w db request user Hp Hq)
    as Hout.
  pose proof (λ user expires,
    reset_password_redeem str_lower argon2_hash w db request user expires
      Hp Hq) as Hred.
  fold holder result in Hnone, Hout, Hred. cbv zeta in Hred.
  assert (∀ user expires, holder = Some user →
            password_reset_expires user = Some expires →
            (now w ≤ expires)%Z → status_of result.1 ≠ 400%Z) as Hnot400.
  { intros user expires Hh He Hle. rewrite (Hred user expires Hh He Hle).
    destruct (commit w _); simpl; discriminate. }
  split; [| split; [| split; [| split; [| split]]]].
  - split.
    + intros H400.
      destruct (reset_password_cases str_lower w db request Hp Hq)
        as [Hh | [(user & Hh & Hrun) | (user & expires & Hh & He & Hle)]].
      * by left.
      * right. eauto.
      * by destruct (Hnot400 user expires Hh He Hle).
    + intros [Hh | (user & Hh & Hrun)].
      * by rewrite (Hnone Hh).
      * by rewrite (Hout user Hh Hrun).
  - intros Hh. by rewrite (Hnone Hh).
  - intros user Hh Hrun. by rewrite (Hout user Hh Hrun).
  - intros user Hh He. apply (Hnot400 user (now w) Hh He). lia.
  - intros response db' Hrun.
    destruct (reset_password_cases str_lower w db request Hp Hq)
      as [Hh | [(user & Hh & Hr) | (user & expires & Hh & He & Hle)]].
    + rewrite (Hnone Hh) in Hrun. discriminate.
    + rewrite (Hout user Hh Hr) in Hrun. discriminate.
    + rewrite (Hred user expires Hh He Hle) in Hrun.
      destruct (commit w _) as [e | db1] eqn:Hc; [discriminate |].
      apply commit_inr in Hc as ->. injection Hrun as <- <-.
      eexists user, _. split; [exact Hh |]. split; [reflexivity |].
      destruct (first_where_by_id_of_member user db
                  (first_where_member _ _ _ Hh)) as (u0 & Hu0).
      split; [apply (find_db_merge _ _ u0); [by destruct user | exact Hu0] |].
      by destruct user.
  - intros Hc Hok user expires Hh He Hle.
    rewrite (Hred user expires Hh He Hle).
    rewrite (commit_ok w _ Hc); [eauto |].
    apply (store_ok_merge _ user);
      [done | | by destruct user | by destruct user | right; by destruct user].
    replace (id _) with (id user) by (by destruct user).
    apply (first_where_by_id_of_holder _ _ _ (proj1 Hok) Hh).
Qed.

(** C4 as the specification words it fails on the code: the ticket of
    [alice] expires at 1000 and is redeemed at 1000. *)
Lemma reset_password_accepts_ticket_at_expiry :
  ¬ (∀ (str_lower : pystr → pystr) (argon2_hash : pystr → pystr → pystr)
       (w : World) (db : store) (request : ResetPasswordRequest.t),
       query_up w = true →
       is_valid (validate_password str_lower
                   (ResetPasswordRequest.new_password request) []) = true →
       let holder :=
         first_where
           (λ u, bool_decide (password_reset_token u
                              = Some (ResetPasswordRequest.token request)))
           db in
       (status_of (reset_password str_lower argon2_hash w db request).1
        = 400%Z ↔
          holder = None
          ∨ ∃ user, holder = Some user
                    ∧ (password_reset_expires user = None
                       ∨ ∃ expires,
                           password_reset_expires user = Some expires
                           ∧ (expires ≤ now w)%Z))).
Proof.
  intros Hclaim.
  destruct (Hclaim ascii_lower sample_hash sample_world sample_db reset_alice
              eq_refl eq_refl) as [_ Hrej].
  assert (status_of (reset_password ascii_lower sample_hash sample_world
                       sample_db reset_alice).1 = 400%Z) as H400.
  { apply Hrej. right. exists alice. split; [reflexivity |].
    right. exists 1000%Z. split; [reflexivity | reflexivity]. }
  vm_compute in H400. discriminate H400.
Qed.

Lemma reset_password_effect_witness :
  status_of (reset_password ascii_lower sample_hash sample_world sample_db
               reset_alice).1 ≠ 400%Z
  ∧ ∃ response db',
      reset_password ascii_lower sample_hash sample_world sample_db
        reset_alice = (ret response, db').
Proof.
  destruct (reset_password_effect ascii_lower sample_hash sample_world
              sample_db reset_alice eq_refl eq_refl)
    as (_ & _ & _ & Hat & _ & Hgo).
  split.
  - apply (Hat alice); reflexivity.
  - apply (Hgo eq_refl sample_db_ok alice 1000%Z); [reflexivity .. |].
    vm_compute. discriminate.
Defined.

(** C10. Every call of [reset_password] that fails, for whatever reason
    (password refused by the policy, ticket unknown, expiry null, ticket run
    out, database failure), leaves the store exactly as it was: no hash and
    no reset field of any account changes. In particular a ticket that has
    run out stays in its row, and a later attempt with it is refused by the
    expiry test again. *)
Theorem reset_password_failure_keeps_store (str_lower : pystr → pystr)
    (argon2_hash : pystr → pystr → pystr) (w : World) (db : store)
    (request : ResetPasswordRequest.t) (e : exn) :
  (reset_password str_lower argon2_hash w db request).1 = raise e →
  (reset_password str_lower argon2_hash w db request).2 = db
  ∧ (∀ user expires w',
       first_where
         (λ u, bool_decide (password_reset_token u
                            = Some (ResetPasswordRequest.token request))) db
       = Some user →
       password_reset_expires user = Some expires →
       (expires < now w)%Z → (now w ≤ now w')%Z →
       query_up w = true → query_up w' = true →
       is_valid (validate_password str_lower
                   (ResetPasswordRequest.new_password request) []) = true →
       reset_password str_lower argon2_hash w'
         (reset_password str_lower argon2_hash w db request).2 request
       = (raise (HTTPException HTTP_400_BAD_REQUEST
                   (Msg RESET_EXPIRED_MESSAGE)), db)).
Proof.
  intros Hfail.
  assert ((reset_password str_lower argon2_hash w db request).2 = db) as Hsame.
  { destruct (is_valid (validate_password str_lower
                (ResetPasswordRequest.new_password request) [])) eqn:Hp.
    - destruct (query_up w) eqn:Hq.
      + destruct (reset_password_cases str_lower w db request Hp Hq)
          as [Hh | [(user & Hh & Hr) | (user & expires & Hh & He & Hle)]].
        * by rewrite reset_password_not_found.
        * by erewrite reset_password_run_out.
        * rewrite (reset_password_redeem str_lower argon2_hash w db request
                     user expires Hp Hq Hh He Hle) in Hfail |- *.
          destruct (commit w _); [reflexivity | discriminate Hfail].
      + unfold reset_password, query_first. rewrite Hp, Hq. reflexivity.
    - unfold reset_password. rewrite Hp. reflexivity. }
  split; [exact Hsame |].
  intros user expires w' Hh He Hlt Hle Hq Hq' Hp. rewrite Hsame.
  apply (reset_password_run_out str_lower argon2_hash w' db request user);
    [done | done | done |].
  right. exists expires. split; [done | lia].
Qed.

(** The ticket of [alice], which ran out at 1000, is presented at 8200:
    the call fails and the ticket is still in her row. *)
Lemma reset_password_failure_keeps_store_witness :
  (reset_password ascii_lower sample_hash sample_world_later sample_db
     reset_alice).2 = sample_db
  ∧ password_reset_token alice = Some (codepoints "ticket-1").
Proof.
  split; [| reflexivity].
  apply (reset_password_failure_keeps_store ascii_lower sample_hash
           sample_world_later sample_db reset_alice
           (HTTPException HTTP_400_BAD_REQUEST (Msg RESET_EXPIRED_MESSAGE))).
  vm_compute. reflexivity.
Defined.

(** ** Password reset requests *)

(** C8, as the code has it. Whatever the store holds and whatever fails on
    the way (the lookup, the configuration, the commit, the notification),
    [forgot_password] answers with the one generic message and the email of
    the request: the answer to a request is the same for a registered and
    for an unregistered email. *)
Theorem forgot_password_answer_is_generic (w : World) (db : store)
    (request : ForgotPasswordRequest.t) :
  (forgot_password w db request).1.1
  = ret {| ForgotPasswordResponse.message := GENERIC_RESET_MESSAGE;
           ForgotPasswordResponse.email :=
             ForgotPasswordRequest.email request |}
  ∧ ∀ (w' : World) (db' : store),
      (forgot_password w' db' request).1.1 = (forgot_password w db request).1.1.
Proof.
  assert (∀ w db,
    (forgot_password w db request).1.1
    = ret {| ForgotPasswordResponse.message := GENERIC_RESET_MESSAGE;
             ForgotPasswordResponse.email :=
               ForgotPasswordRequest.email request |}) as Hgen.
  { clear w db. intros w db. unfold forgot_password.
    destruct (get_user_by_email w db _) as [e | [user|]]; [done | | done].
    destruct (getenv_int _ 1) as [e | hours]; [done |].
    destruct (commit w _) as [e | db']; [done |].
    destruct (send_email w); done. }
  split; [apply Hgen |]. intros w' db'. by rewrite !Hgen.
Qed.

(** C8 as the specification words it fails on the code: [check_email]
    tells a registered email from an unregistered one. *)
Lemma check_email_reveals_registration :
  ¬ (∀ (w : World) (db : store) (registered unregistered : pystr),
       (∃ u, u ∈ db ∧ email u = registered) →
       (∀ u, u ∈ db → email u ≠ unregistered) →
       check_email w db registered = check_email w db unregistered).
Proof.
  intros Hclaim.
  assert (check_email sample_world sample_db "alice@x.com"
          = check_email sample_world sample_db "nobody@x.com") as H.
  { apply Hclaim.
    - exists alice. split; [by constructor | reflexivity].
    - intros u Hu. apply list_elem_of_In in Hu. simpl in Hu.
      destruct Hu as [<- | [<- | [<- | []]]]; vm_compute; discriminate. }
  vm_compute in H. discriminate H.
Qed.

(** ** The approval invariant *)

Lemma pending_unapproved_merge (u' : User) (db : store) :
  pending_unapproved db →
  (role u' = codepoints (Role_value PENDING) → is_approved u' = false) →
  pending_unapproved (db_merge u' db).
Proof.
  intros Hinv Hu' u Hu. unfold db_merge in Hu.
  apply list_elem_of_fmap in Hu as (r & -> & Hr).
  case_bool_decide; [exact Hu' | by apply Hinv].
Qed.

Lemma pending_unapproved_insert (u' : User) (db : store) :
  pending_unapproved db →
  (role u' = codepoints (Role_value PENDING) → is_approved u' = false) →
  pending_unapproved (db_insert u' db).
Proof.
  intros Hinv Hu' u Hu. unfold db_insert in Hu.
  apply elem_of_app in Hu as [Hu | Hu]; [by apply Hinv |].
  apply list_elem_of_singleton in Hu as ->. by destruct u'.
Qed.

Lemma pending_unapproved_delete (u' : User) (db : store) :
  pending_unapproved db → pending_unapproved (db_delete u' db).
Proof.
  intros Hinv u Hu. unfold db_delete in Hu.
  apply list_elem_of_In, List.filter_In in Hu as [Hu _].
  apply Hinv. by apply list_elem_of_In.
Qed.

Lemma educator_role_not_pending (s : pystr) :
  s ∈ valid_educator_roles → s ≠ codepoints (Role_value PENDING).
Proof.
  intros Hs ->. apply list_elem_of_In in Hs. simpl in Hs.
  destruct Hs as [H | [H | [H | []]]]; vm_compute in H; discriminate H.
Qed.

Section InvariantFacts.

Variable str_lower : pystr → pystr.
Variable argon2_hash : pystr → pystr → pystr.
Variables (w : World) (db : store).
Hypothesis Hinv : pending_unapproved db.

Lemma approve_user_keeps (request : ApproveUserRequest.t)
    (current_user : gmap string jval) :
  pending_unapproved (approve_user w db request current_user).2.
Proof.
  unfold approve_user, query_first.
  destruct (query_up w); [| exact Hinv]. rewrite M_bind_ret.
  destruct (first_where _ db) as [user|]; [| exact Hinv].
  destruct (Role_of _) as [e | r]; [by destruct e |].
  rewrite M_bind_ret. case_bool_decide as Hr; [exact Hinv |].
  unfold ret at 1. cbv beta iota.
  destruct (commit w _) as [e | db'] eqn:Hc; [by destruct e |].
  apply commit_inr in Hc as ->. rewrite M_bind_ret. cbn [snd].
  apply pending_unapproved_merge; [exact Hinv |].
  intros Hrole. exfalso. apply (Role_value_not_pending r Hr).
  by destruct user.
Qed.

Lemma reject_user_keeps (request : RejectUserRequest.t)
    (current_user : gmap string jval) :
  pending_unapproved (reject_user w db request current_user).2.
Proof.
  unfold reject_user, query_first.
  destruct (query_up w); [| exact Hinv]. rewrite M_bind_ret.
  destruct (first_where _ db) as [user|] eqn:Hf; [| exact Hinv].
  destruct (commit w _) as [e | db'] eqn:Hc; [by destruct e |].
  apply commit_inr in Hc as ->. rewrite M_bind_ret. cbn [snd].
  apply pending_unapproved_merge; [exact Hinv |].
  apply first_where_member in Hf. specialize (Hinv user Hf).
  by destruct user.
Qed.

Lemma forgot_password_keeps (request : ForgotPasswordRequest.t) :
  pending_unapproved (forgot_password w db request).1.2.
Proof.
  unfold forgot_password, get_user_by_email, query_first.
  destruct (query_up w); [| exact Hinv].
  unfold ret at 1. cbv beta iota.
  destruct (first_where _ db) as [user|] eqn:Hf; [| exact Hinv].
  destruct (getenv_int _ 1) as [e | hours]; [exact Hinv |].
  destruct (commit w _) as [e | db'] eqn:Hc; [exact Hinv |].
  apply commit_inr in Hc as ->.
  assert (pending_unapproved
            (db_merge
               (set_password_reset_requested_at (Some (now w))
                  (set_password_reset_expires (Some (now w + 3600 * hours)%Z)
                     (set_password_reset_token (Some (token_urlsafe w))
                        user))) db)) as Hm.
  { apply pending_unapproved_merge; [exact Hinv |].
    apply first_where_member in Hf. specialize (Hinv user Hf).
    by destruct user. }
  destruct (send_email w); exact Hm.
Qed.

Lemma reset_password_keeps (request : ResetPasswordRequest.t) :
  pending_unapproved (reset_password str_lower argon2_hash w db request).2.
Proof.
  unfold reset_password, query_first.
  destruct (negb _); [exact Hinv |].
  destruct (query_up w); [| exact Hinv]. rewrite M_bind_ret.
  destruct (first_where _ db) as [user|] eqn:Hf; [| exact Hinv].
  destruct (match password_reset_expires user with
            | Some expires => (expires <? now w)%Z
            | None => true
            end); [exact Hinv |].
  destruct (commit w _) as [e | db'] eqn:Hc; [by destruct e |].
  apply commit_inr in Hc as ->. rewrite M_bind_ret. cbn [snd].
  apply pending_unapproved_merge; [exact Hinv |].
  apply first_where_member in Hf. specialize (Hinv user Hf).
  by destruct user.
Qed.

(** [create_user] keeps the invariant whenever the role and approval it is
    given agree with it; its defaults do. *)
Lemma create_user_keeps (email' username' password : pystr)
    (first_name' last_name' : option pystr) (role' : pystr)
    (is_approved' : bool) :
  (role' = codepoints (Role_value PENDING) → is_approved' = false) →
  pending_unapproved
    (create_user argon2_hash w db email' username' password first_name'
       last_name' role' is_approved').2.
Proof.
  intros Hnew. unfold create_user.
  destruct (commit w _) as [e | db'] eqn:Hc; [exact Hinv |].
  apply commit_inr in Hc as ->. cbn [snd].
  by apply pending_unapproved_insert.
Qed.

Lemma call_create_user_keeps (keywords : list string)
    (email' username' password : pystr)
    (first_name' last_name' : option pystr) :
  pending_unapproved
    (call_create_user argon2_hash keywords w db email' username' password
       first_name' last_name').2.
Proof.
  unfold call_create_user. destruct (forallb _ keywords); [| exact Hinv].
  by apply create_user_keeps.
Qed.

Lemma register_keeps (user_data : RegisterRequest.t) :
  pending_unapproved (register str_lower argon2_hash w db user_data).2.
Proof.
  unfold register.
  destruct (negb _); [exact Hinv |].
  destruct (user_exists w db _ None) as [e | []]; [exact Hinv .. |].
  destruct (get_user_by_username w db _) as [e | [u|]];
    [by destruct (is_SQLAlchemyError e) | exact Hinv |].
  pose proof (call_create_user_keeps
    ["db"; "email"; "username"; "password"; "first_name"; "last_name";
     "desired_name"; "phone"]
    (RegisterRequest.email user_data) (RegisterRequest.username user_data)
    (RegisterRequest.password user_data)
    (Some (RegisterRequest.first_name user_data))
    (Some (RegisterRequest.last_name user_data))) as Hcall.
  destruct (call_create_user _ _ _ _ _ _ _ _ _) as [[e | new_user] db'];
    cbn [snd] in Hcall; [| exact Hcall].
  destruct (is_SQLAlchemyError e); [exact Hcall |].
  by destruct e.
Qed.

Lemma delete_educator_keeps (educator_id : Z)
    (current_user : gmap string jval) :
  pending_unapproved (delete_educator w db educator_id current_user).2.
Proof.
  unfold delete_educator, query_first.
  destruct (query_up w); [| exact Hinv]. rewrite M_bind_ret.
  destruct (first_where _ db) as [user|]; [| exact Hinv].
  destruct (commit w _) as [e | db'] eqn:Hc; [exact Hinv |].
  apply commit_inr in Hc as ->. rewrite M_bind_ret. cbn [snd].
  by apply pending_unapproved_delete.
Qed.

End InvariantFacts.

Section EducatorInvariantFacts.

Variable argon2_hash : pystr → pystr → pystr.
Variables (w : World) (db : store).
Hypothesis Hinv : pending_unapproved db.

Lemma create_educator_keeps (request : CreateEducatorRequest.t)
    (current_user : gmap string jval) :
  pending_unapproved
    (create_educator argon2_hash w db request current_user).2.
Proof.
  unfold create_educator.
  case_bool_decide as Hrole; [exact Hinv |].
  destruct (get_user_by_email w db _ ≫= _) as [e | []]; [exact Hinv |].
  pose proof (call_create_user_keeps argon2_hash w db Hinv
    ["db"; "email"; "password"; "first_name"; "last_name"; "username";
     "desired_name"; "phone"]
    (CreateEducatorRequest.email request)
    (CreateEducatorRequest.username request)
    (CreateEducatorRequest.password request)
    (Some (CreateEducatorRequest.first_name request))
    (Some (CreateEducatorRequest.last_name request))) as Hcall.
  destruct (call_create_user _ _ _ _ _ _ _ _ _) as [[e | new_user] db1];
    cbn [snd] in Hcall; [exact Hcall |].
  destruct (commit w _) as [e | db2] eqn:Hc; [exact Hcall |].
  apply commit_inr in Hc as ->. cbn [snd].
  apply pending_unapproved_merge; [exact Hcall |].
  intros Hpending. exfalso.
  apply (educator_role_not_pending _ Hrole).
  by destruct new_user.
Qed.

Lemma update_educator_keeps (educator_id : Z)
    (request : UpdateEducatorRequest.t) (current_user : gmap string jval) :
  pending_unapproved
    (update_educator w db educator_id request current_user).2.
Proof.
  unfold update_educator, query_first.
  destruct (query_up w) eqn:Hq; [| exact Hinv]. rewrite M_bind_ret.
  destruct (first_where _ db) as [educator|] eqn:Hf; [| exact Hinv].
  destruct (negb (falsy_opt (UpdateEducatorRequest.role request)) && _)
    eqn:Hrole; [exact Hinv |].
  match goal with
  | |- context [?m ≫= _] => destruct m as [e | []]; [exact Hinv |]
  end.
  rewrite M_bind_ret.
  match goal with
  | |- context [?m ≫= _] => destruct m as [e | []]; [exact Hinv |]
  end.
  rewrite M_bind_ret.
  destruct (commit w _) as [e | db'] eqn:Hc; [exact Hinv |].
  apply commit_inr in Hc as ->. rewrite M_bind_ret. cbn [snd].
  apply pending_unapproved_merge; [exact Hinv |].
  apply first_where_member in Hf. specialize (Hinv educator Hf).
  destruct request as [fn ln em ro ph un pw dn]. cbn in Hrole |- *.
  destruct ro as [ro|].
  - intros Hpending. exfalso.
    assert (ro = codepoints (Role_value PENDING)) as ->.
    { destruct fn, ln, em, ph, un, dn, educator; exact Hpending. }
    vm_compute in Hrole. discriminate Hrole.
  - destruct fn, ln, em, ph, un, dn, educator; exact Hinv.
Qed.

End EducatorInvariantFacts.

Lemma sample_db_pending_unapproved : pending_unapproved sample_db.
Proof.
  intros u Hu. apply list_elem_of_In in Hu. simpl in Hu.
  destruct Hu as [<- | [<- | [<- | []]]]; vm_compute; intros H;
    first [reflexivity | discriminate H].
Qed.

(** C9, as the code has it. [create_user] with its default role and
    approval stores an account that is pending and not approved, and every
    request of the authentication router that writes to the table
    (register, forgot_password, reset_password, approve_user, reject_user,
    create_educator, update_educator, delete_educator) keeps the invariant
    "role pending implies not approved"; so it holds after every history of
    such requests from the empty table. *)
Theorem pending_unapproved_invariant (str_lower : pystr → pystr)
    (argon2_hash : pystr → pystr → pystr) :
  (∀ w db email' username' password first_name' last_name' u db',
     create_user argon2_hash w db email' username' password first_name'
       last_name' "pending" false = (ret u, db') →
     u ∈ db' ∧ role u = codepoints "pending" ∧ is_approved u = false)
  ∧ (∀ w r db,
       pending_unapproved db →
       pending_unapproved (serve str_lower argon2_hash w r db))
  ∧ (∀ history db,
       pending_unapproved db →
       pending_unapproved (serve_all str_lower argon2_hash history db))
  ∧ (∀ history,
       pending_unapproved (serve_all str_lower argon2_hash history [])).
Proof.
  assert (∀ w r db,
            pending_unapproved db →
            pending_unapproved (serve str_lower argon2_hash w r db)) as Hstep.
  { intros w r db Hinv. destruct r; simpl.
    - by apply create_user_keeps.
    - by apply register_keeps.
    - by apply forgot_password_keeps.
    - by apply reset_password_keeps.
    - by apply approve_user_keeps.
    - by apply reject_user_keeps.
    - by apply create_educator_keeps.
    - by apply update_educator_keeps.
    - by apply delete_educator_keeps. }
  assert (∀ history db,
            pending_unapproved db →
            pending_unapproved (serve_all str_lower argon2_hash history db))
    as Hall.
  { induction history as [|[w r] history IH]; intros db Hinv; [exact Hinv |].
    simpl. apply IH. by apply Hstep. }
  split; [| split; [exact Hstep | split; [exact Hall |]]].
  - intros w db email' username' password first_name' last_name' u db'.
    unfold create_user.
    destruct (commit w _) as [e | db1] eqn:Hc; [discriminate |].
    apply commit_inr in Hc as ->. intros [= <- <-].
    split; [| split; reflexivity].
    unfold db_insert. apply elem_of_app. right. by constructor.
  - intros history. apply Hall. intros u Hu. inversion Hu.
Qed.

(** C9 as the specification words it fails on the code: PUT /users/1 with
    the role "pending" leaves the approved account [alice] pending and
    approved. *)
Lemma update_user_breaks_pending_unapproved :
  ¬ (∀ (w : World) (db : store) (user_id : Z) (user : UserUpdate.t),
       pending_unapproved db →
       pending_unapproved (update_user w db user_id user).2).
Proof.
  intros Hclaim.
  pose proof (Hclaim sample_world sample_db 1%Z demote_alice
                sample_db_pending_unapproved) as Hinv.
  assert (is_approved (set_role "pending" alice) = false) as Hbad.
  { apply Hinv; [| reflexivity]. vm_compute. by constructor. }
  vm_compute in Hbad. discriminate Hbad.
Qed.

(** The history [history_create_then_approve], from the empty table,
    ends with one account, approved and a teacher. *)
Example create_then_approve :
  (λ u, (id u, role u, is_approved u, approved_by_id u))
    <$> serve_all ascii_lower sample_hash history_create_then_approve []
  = [(1%Z, codepoints "teacher", true, JNull)].
Proof. vm_compute. reflexivity. Qed.

(** [register] hands [create_user] the keywords [desired_name] and
    [phone], which it does not declare: the call raises [TypeError] and no
    row is written. *)
Example register_raises_TypeError :
  register ascii_lower sample_hash sample_world sample_db register_dave
  = (raise (TypeError "create_user() got an unexpected keyword argument"),
     sample_db).
Proof. vm_compute. reflexivity. Qed.

(** * Further properties of the code *)

(** ** Roles and tokens *)

Lemma Role_value_inj (r r' : Role) :
  codepoints (Role_value r) = codepoints (Role_value r') → r = r'.
Proof.
  destruct r, r'; intros H; first [reflexivity | vm_compute in H; discriminate H].
Qed.

(** X1. [Role(s)] and [.value] are inverse to each other: [Role(s)] is the
    role [r] exactly when [s] is the value of [r], two roles never share a
    value (so "superuser" and "super_admin" are different roles), and any
    other string raises [ValueError]. *)
Theorem Role_of_round_trip (s : pystr) (r : Role) :
  (Role_of s = ret r ↔ s = codepoints (Role_value r))
  ∧ (∀ r', codepoints (Role_value r) = codepoints (Role_value r') → r = r')
  ∧ ((∀ r', s ≠ codepoints (Role_value r')) →
     ∃ m, Role_of s = raise (ValueError m)).
Proof.
  split; [| split].
  - split; [apply Role_of_ret | intros ->; apply Role_of_value].
  - intros r'. apply Role_value_inj.
  - intros Hno. eexists. by apply Role_of_unknown.
Qed.

Section TokenLifetime.

Variable SECRET_KEY : string.

Lemma refresh_claims_lookup now0 p :
  create_refresh_token SECRET_KEY now0 p
  = Signed SECRET_KEY
      (<["iat" := JInt now0]>
         (<["exp" := JInt (now0 + 604800)]>
            (<["type" := JStr "refresh"]>
               (<["email" := JStr (tp_email p)]>
                  (<["user_id" := JInt (tp_user_id p)]> ∅))))).
Proof. reflexivity. Qed.


Lemma get_current_user_ret_or_401 (now : Z) (credentials : token) :
  (∃ c, get_current_user SECRET_KEY now credentials = ret c)
  ∨ (∃ d, get_current_user SECRET_KEY now credentials
          = raise (HTTPException HTTP_401_UNAUTHORIZED d)).
Proof.
  unfold get_current_user, verify_token, jwt_decode.
  destruct credentials as [k claims | raw]; simpl; [| right; eauto].
  case_bool_decide; simpl; [| right; eauto].
  destruct (claims !! "exp") as [[| exp | s] |]; simpl;
    try (right; by eauto);
    try destruct (exp <=? now)%Z; simpl;
    try (right; by eauto);
    case_bool_decide; simpl; eauto.
Qed.


End TokenLifetime.

Section TokenKinds.

Variable SECRET_KEY : string.


Lemma role_checker_admits (allowed_roles : list Role)
    (claims c : gmap string jval) :
  role_checker allowed_roles claims = ret c →
  c = claims
  ∧ (dict_get claims "role" = JStr (Role_value SUPERUSER)
     ∨ ∃ r, r ∈ allowed_roles ∧ dict_get claims "role" = JStr (Role_value r)).
Proof.
  unfold role_checker. case_bool_decide as Hsu.
  - intros [= <-]. auto.
  - case_bool_decide as Hin; [discriminate |]. intros [= <-].
    split; [done |]. right.
    apply list_elem_of_fmap in Hin as (v & Hv & Hin).
    apply list_elem_of_fmap in Hin as (r & -> & Hin). eauto.
Qed.

(** X5. POST /auth/admin/approve-user changes the table only for a bearer
    token that [get_current_user] accepts and whose role claim is "admin",
    "super_admin" or "superuser": with any other credentials the store is
    left exactly as it was. *)
Theorem approve_user_endpoint_needs_admin (w : World) (db : store)
    (credentials : token) (request : ApproveUserRequest.t) :
  (approve_user_endpoint SECRET_KEY w db credentials request).2 ≠ db →
  ∃ claims,
    get_current_user SECRET_KEY (now w) credentials = ret claims
    ∧ (dict_get claims "role" = JStr "admin"
       ∨ dict_get claims "role" = JStr "super_admin"
       ∨ dict_get claims "role" = JStr "superuser").
Proof.
  unfold approve_user_endpoint, require_role.
  destruct (get_current_user SECRET_KEY (now w) credentials) as [e | claims];
    [intros H; by destruct H |].
  rewrite M_bind_ret.
  destruct (role_checker _ claims) as [e | c] eqn:Hrc;
    [intros H; by destruct H |].
  apply role_checker_admits in Hrc as [-> Hrole]. intros _.
  exists claims. split; [reflexivity |].
  destruct Hrole as [Hsu | (r & Hr & Hrole)]; [auto |].
  apply list_elem_of_In in Hr. simpl in Hr.
  destruct Hr as [<- | [<- | []]]; auto.
Qed.

End TokenKinds.

(** The approval of [bob] with the token of the administrator [carol]
    changes [sample_db]. *)
Lemma approve_user_endpoint_needs_admin_witness :
  ∃ claims,
    get_current_user "k" 1000 (create_access_token "k" 900 carol_payload)
    = ret claims
    ∧ (dict_get claims "role" = JStr "admin"
       ∨ dict_get claims "role" = JStr "super_admin"
       ∨ dict_get claims "role" = JStr "superuser").
Proof.
  apply (approve_user_endpoint_needs_admin "k" sample_world sample_db
           (create_access_token "k" 900 carol_payload) approve_bob).
  intros H. vm_compute in H. discriminate H.
Defined.

(** ** Rejection and the administrator's lists *)

Lemma db_merge_row (u r : User) (db : store) :
  r ∈ db_merge u db → id r = id u → r = u.
Proof.
  unfold db_merge. intros Hr Hid.
  apply list_elem_of_fmap in Hr as (r0 & -> & _).
  case_bool_decide; [done | congruence].
Qed.

Lemma db_merge_member (u u0 : User) (db : store) :
  u0 ∈ db → id u = id u0 → u ∈ db_merge u db.
Proof.
  intros Hin Hid. unfold db_merge. apply list_elem_of_fmap.
  exists u0. split; [| done]. by rewrite bool_decide_true.
Qed.

Lemma db_merge_other (u r : User) (db : store) :
  r ∈ db → id r ≠ id u → r ∈ db_merge u db.
Proof.
  intros Hin Hid. unfold db_merge. apply list_elem_of_fmap.
  exists r. split; [| done]. by rewrite bool_decide_false.
Qed.

Lemma db_merge_other_inv (u r : User) (db : store) :
  r ∈ db_merge u db → id r ≠ id u → r ∈ db.
Proof.
  unfold db_merge. intros Hr Hid.
  apply list_elem_of_fmap in Hr as (r0 & -> & Hr0).
  case_bool_decide; [done | exact Hr0].
Qed.

Section RejectionFacts.

Variables (w : World) (db : store) (request : RejectUserRequest.t).
Variable current_user : gmap string jval.

Let by_id : User → bool :=
  λ u, bool_decide (id u = RejectUserRequest.user_id request).

Let rejected (user : User) : User :=
  set_is_active false
    (set_rejection_reason (Some (RejectUserRequest.rejection_reason request))
       (set_rejected_by_id (dict_get current_user "sub")
          (set_rejected_at (Some (now w)) (set_is_rejected true user)))).

Lemma reject_user_inv (response : RejectUserResponse.t) (db' : store) :
  reject_user w db request current_user = (ret response, db') →
  ∃ user, first_where by_id db = Some user ∧ db' = db_merge (rejected user) db.
Proof.
  unfold reject_user, query_first.
  destruct (query_up w); [| discriminate]. rewrite M_bind_ret.
  fold by_id. destruct (first_where by_id db) as [user|]; [| discriminate].
  fold (rejected user).
  destruct (commit w _) as [e | db1] eqn:Hc; [destruct e; discriminate |].
  apply commit_inr in Hc as ->. rewrite M_bind_ret. intros [= _ <-]. eauto.
Qed.

Lemma reject_user_run (user : User) :
  query_up w = true → commit_up w = true → store_ok db →
  first_where by_id db = Some user →
  reject_user w db request current_user
  = (ret {| RejectUserResponse.message :=
              codepoints "User " ++ email user
              ++ codepoints " has been rejected";
            RejectUserResponse.user_id := id user;
            RejectUserResponse.is_rejected := true |},
     db_merge (rejected user) db).
Proof.
  intros Hq Hc Hok Hf. pose proof (find_some_id _ _ _ Hf) as Hid.
  assert (store_ok (db_merge (rejected user) db)) as Hok'.
  { apply (store_ok_merge _ user);
      [done | | by destruct user | by destruct user | left; by destruct user].
    replace (id (rejected user)) with (id user) by (by destruct user).
    rewrite Hid. exact Hf. }
  unfold reject_user, query_first. rewrite Hq, M_bind_ret.
  fold by_id. rewrite Hf. fold (rejected user).
  rewrite (commit_ok w _ Hc Hok'), M_bind_ret. by destruct user.
Qed.

End RejectionFacts.

(** X6. With the database answering and the store well formed,
    [reject_user] answers 404 for an id no row has and leaves the store as
    it was; on an existing account it succeeds and leaves the row rejected
    (is_rejected true, rejected_at the current time, rejected_by_id the
    "sub" claim, the reason of the request) and inactive. It does not touch
    role, is_approved, approved_at or the password: an approved account
    that is rejected is still approved. *)
Theorem reject_user_effect (w : World) (db : store)
    (request : RejectUserRequest.t) (current_user : gmap string jval) :
  query_up w = true → commit_up w = true → store_ok db →
  let by_id := λ u, bool_decide (id u = RejectUserRequest.user_id request) in
  (first_where by_id db = None →
     ∃ d, reject_user w db request current_user
          = (raise (HTTPException HTTP_404_NOT_FOUND d), db))
  ∧ (∀ user, first_where by_id db = Some user →
       ∃ response user',
         reject_user w db request current_user
         = (ret response, db_merge user' db)
         ∧ first_where by_id (db_merge user' db) = Some user'
         ∧ RejectUserResponse.user_id response
           = RejectUserRequest.user_id request
         ∧ RejectUserResponse.is_rejected response = true
         ∧ is_rejected user' = true
         ∧ rejected_at user' = Some (now w)
         ∧ rejected_by_id user' = dict_get current_user "sub"
         ∧ rejection_reason user'
           = Some (RejectUserRequest.rejection_reason request)
         ∧ is_active user' = false
         ∧ is_approved user' = is_approved user
         ∧ role user' = role user
         ∧ approved_at user' = approved_at user
         ∧ hashed_password user' = hashed_password user).
Proof.
  intros Hq Hc Hok by_id. split.
  - intros Hf. eexists. unfold reject_user, query_first.
    rewrite Hq, M_bind_ret. fold by_id. rewrite Hf. reflexivity.
  - intros user Hf. pose proof (find_some_id _ _ _ Hf) as Hid.
    eexists _, _. split;
      [apply (reject_user_run w db request current_user user Hq Hc Hok Hf) |].
    split; [apply (find_db_merge _ _ user); [by destruct user | exact Hf] |].
    destruct user; simpl in *. repeat split; congruence.
Qed.

(** Reject the approved teacher [alice]. *)
Lemma reject_user_effect_witness :
  ∃ response user',
    reject_user sample_world sample_db
      {| RejectUserRequest.user_id := 1;
         RejectUserRequest.rejection_reason := "left the school" |}
      (access_claims "k" 900 carol_payload)
    = (ret response, db_merge user' sample_db)
    ∧ is_rejected user' = true
    ∧ is_active user' = false
    ∧ is_approved user' = true
    ∧ role user' = codepoints "teacher".
Proof.
  destruct (reject_user_effect sample_world sample_db
              {| RejectUserRequest.user_id := 1;
                 RejectUserRequest.rejection_reason := "left the school" |}
              (access_claims "k" 900 carol_payload)
              eq_refl eq_refl sample_db_ok) as [_ H].
  destruct (H alice eq_refl)
    as (response & user' & Hrun & _ & _ & _ & Hrej & _ & _ & _ & Hact
        & Happ & Hrole & _).
  exists response, user'. repeat split; assumption.
Defined.

Lemma approve_user_inv_row (w : World) (db db' : store)
    (request : ApproveUserRequest.t) (current_user : gmap string jval)
    (response : ApproveUserResponse.t) :
  approve_user w db request current_user = (ret response, db') →
  ∃ user r user',
    first_where (λ u, bool_decide (id u = ApproveUserRequest.user_id request))
      db = Some user
    ∧ ApproveUserRequest.role request = codepoints (Role_value r)
    ∧ r ≠ PENDING
    ∧ db' = db_merge user' db
    ∧ id user' = ApproveUserRequest.user_id request
    ∧ is_approved user' = true
    ∧ role user' = codepoints (Role_value r)
    ∧ is_rejected user' = false.
Proof.
  unfold approve_user, query_first.
  destruct (query_up w); [| discriminate]. rewrite M_bind_ret.
  destruct (first_where _ db) as [user|] eqn:Hf; [| discriminate].
  destruct (Role_of (ApproveUserRequest.role request)) as [e | r] eqn:Hr;
    [destruct e; discriminate |].
  rewrite M_bind_ret. case_bool_decide as Hne; [discriminate |].
  unfold ret at 1. cbv beta iota.
  match goal with |- context [commit w (db_merge ?u db)] => set (user' := u) end.
  destruct (commit w (db_merge user' db)) as [e | db1] eqn:Hc;
    [destruct e; discriminate |].
  apply commit_inr in Hc as ->. rewrite M_bind_ret. intros [= _ <-].
  apply Role_of_ret in Hr. apply find_some_id in Hf.
  exists user, r, user'. repeat split; try done; by destruct user.
Qed.

Lemma get_pending_users_run (w : World) (db : store)
    (current_user : gmap string jval) :
  query_up w = true →
  ∃ pending,
    get_pending_users w db current_user = ret pending
    ∧ PendingUsers.count pending = length (PendingUsers.users pending)
    ∧ ∀ entry, entry ∈ PendingUsers.users pending ↔
        ∃ u, u ∈ db ∧ entry = pending_user u
             ∧ role u = codepoints (Role_value PENDING)
             ∧ is_approved u = false ∧ is_rejected u = false.
Proof.
  intros Hq. unfold get_pending_users, query_all. rewrite Hq.
  eexists. split; [reflexivity |]. simpl. split; [by rewrite length_fmap |].
  intros entry. rewrite list_elem_of_fmap. split.
  - intros (u & -> & Hu). apply list_elem_of_In, List.filter_In in Hu as [Hu Hp].
    apply andb_true_iff in Hp as [Hp Hrej].
    apply andb_true_iff in Hp as [Hrole Happ].
    apply bool_decide_eq_true in Hrole, Happ, Hrej.
    exists u. rewrite list_elem_of_In. done.
  - intros (u & Hu & -> & Hrole & Happ & Hrej). exists u. split; [done |].
    apply list_elem_of_In, List.filter_In. split; [by apply list_elem_of_In |].
    by rewrite !bool_decide_true.
Qed.

Lemma get_educators_run (w : World) (db : store)
    (current_user : gmap string jval) :
  query_up w = true →
  ∃ listed,
    get_educators w db current_user = ret listed
    ∧ Educators.count listed = length (Educators.educators listed)
    ∧ ∀ entry, entry ∈ Educators.educators listed ↔
        ∃ u, u ∈ db ∧ entry = educator_info u
             ∧ role u ∈ [codepoints (Role_value TEACHER);
                         codepoints (Role_value PARAEDUCATOR)]
             ∧ is_approved u = true.
Proof.
  intros Hq. unfold get_educators, query_all. rewrite Hq.
  eexists. split; [reflexivity |]. simpl. split; [by rewrite length_fmap |].
  intros entry. rewrite list_elem_of_fmap. split.
  - intros (u & -> & Hu). apply list_elem_of_In, List.filter_In in Hu as [Hu Hp].
    apply andb_true_iff in Hp as [Hrole Happ].
    apply bool_decide_eq_true in Hrole, Happ.
    exists u. split; [by apply list_elem_of_In |].
    split; [reflexivity |]. split; [exact Hrole | exact Happ].
  - intros (u & Hu & -> & Hrole & Happ). exists u. split; [done |].
    apply list_elem_of_In, List.filter_In. split; [by apply list_elem_of_In |].
    apply andb_true_iff. split; by apply bool_decide_eq_true.
Qed.

(** X7. Once [approve_user] has succeeded for an account, the list of
    pending users no longer has an entry with its id, and the list of
    educators has one exactly when the role it was given is "teacher" or
    "paraeducator". *)
Theorem approved_account_leaves_pending_list (w w' : World) (db db' : store)
    (request : ApproveUserRequest.t) (current_user admin : gmap string jval)
    (response : ApproveUserResponse.t) :
  approve_user w db request current_user = (ret response, db') →
  query_up w' = true →
  ∃ pending listed,
    get_pending_users w' db' admin = ret pending
    ∧ (∀ entry, entry ∈ PendingUsers.users pending →
                PendingUser.id entry ≠ ApproveUserRequest.user_id request)
    ∧ get_educators w' db' admin = ret listed
    ∧ ((∃ entry, entry ∈ Educators.educators listed
                 ∧ EducatorInfo.id entry = ApproveUserRequest.user_id request)
       ↔ ApproveUserRequest.role request
           ∈ [codepoints "teacher"; codepoints "paraeducator"]).
Proof.
  intros Hrun Hq.
  apply approve_user_inv_row in Hrun
    as (user & r & user' & Hf & Hrole & Hne & -> & Hid & Happ & Hrole' & Hrej).
  destruct (get_pending_users_run w' (db_merge user' db) admin Hq)
    as (pending & Hp & _ & Hpin).
  destruct (get_educators_run w' (db_merge user' db) admin Hq)
    as (listed & He & _ & Hein).
  exists pending, listed. split; [exact Hp |]. split; [| split; [exact He |]].
  - intros entry Hentry Hsame.
    apply Hpin in Hentry as (u & Hu & -> & _ & Hunapproved & _).
    simpl in Hsame. rewrite <- Hid in Hsame.
    rewrite (db_merge_row user' u db Hu Hsame) in Hunapproved. congruence.
  - split.
    + intros (entry & Hentry & Hsame).
      apply Hein in Hentry as (u & Hu & -> & Hur & _).
      simpl in Hsame. rewrite <- Hid in Hsame.
      rewrite (db_merge_row user' u db Hu Hsame) in Hur.
      rewrite Hrole, <- Hrole'. exact Hur.
    + intros Hteach. exists (educator_info user'). split; [| exact Hid].
      apply Hein. exists user'. split; [| split; [done |]].
      * apply (db_merge_member _ user); [by eapply first_where_member |].
        apply find_some_id in Hf. congruence.
      * split; [| exact Happ]. rewrite Hrole', <- Hrole. exact Hteach.
Qed.

Lemma approved_account_leaves_pending_list_witness :
  ∃ pending listed,
    get_pending_users sample_world_later
      (approve_user sample_world sample_db approve_bob
         (access_claims "k" 900 carol_payload)).2
      (access_claims "k" 8000 carol_payload) = ret pending
    ∧ (∀ entry, entry ∈ PendingUsers.users pending →
                PendingUser.id entry ≠ 2%Z)
    ∧ get_educators sample_world_later
        (approve_user sample_world sample_db approve_bob
           (access_claims "k" 900 carol_payload)).2
        (access_claims "k" 8000 carol_payload) = ret listed
    ∧ ∃ entry, entry ∈ Educators.educators listed
               ∧ EducatorInfo.id entry = 2%Z.
Proof.
  destruct (approve_user sample_world sample_db approve_bob
              (access_claims "k" 900 carol_payload))
    as [[e | response] db'] eqn:Hrun.
  - exfalso. vm_compute in Hrun. discriminate Hrun.
  - destruct (approved_account_leaves_pending_list sample_world
                sample_world_later sample_db db' approve_bob
                (access_claims "k" 900 carol_payload)
                (access_claims "k" 8000 carol_payload) response
                Hrun eq_refl)
      as (pending & listed & Hp & Hnot & He & Hiff).
    exists pending, listed. repeat split; try assumption.
    apply Hiff. by constructor.
Defined.

(** X8. Once [reject_user] has succeeded for an account, the list of
    pending users no longer has an entry with its id. The list of educators
    is not affected: it has an entry with that id exactly when the account
    was an approved teacher or paraeducator before the rejection. *)
Theorem rejected_account_leaves_pending_list (w w' : World) (db db' : store)
    (request : RejectUserRequest.t) (current_user admin : gmap string jval)
    (response : RejectUserResponse.t) :
  reject_user w db request current_user = (ret response, db') →
  query_up w' = true →
  ∃ pending listed user,
    first_where (λ u, bool_decide (id u = RejectUserRequest.user_id request))
      db = Some user
    ∧ get_pending_users w' db' admin = ret pending
    ∧ (∀ entry, entry ∈ PendingUsers.users pending →
                PendingUser.id entry ≠ RejectUserRequest.user_id request)
    ∧ get_educators w' db' admin = ret listed
    ∧ ((∃ entry, entry ∈ Educators.educators listed
                 ∧ EducatorInfo.id entry = RejectUserRequest.user_id request)
       ↔ role user ∈ [codepoints "teacher"; codepoints "paraeducator"]
         ∧ is_approved user = true).
Proof.
  intros Hrun Hq.
  apply reject_user_inv in Hrun as (user & Hf & ->).
  match goal with
  | |- context [db_merge ?u db] => set (user' := u)
  end.
  assert (id user' = RejectUserRequest.user_id request) as Hid.
  { apply find_some_id in Hf. subst user'. by destruct user. }
  assert (is_rejected user' = true) as Hrej by (by destruct user).
  assert (role user' = role user) as Hrole by (by destruct user).
  assert (is_approved user' = is_approved user) as Happ by (by destruct user).
  destruct (get_pending_users_run w' (db_merge user' db) admin Hq)
    as (pending & Hp & _ & Hpin).
  destruct (get_educators_run w' (db_merge user' db) admin Hq)
    as (listed & He & _ & Hein).
  exists pending, listed, user. split; [exact Hf |]. split; [exact Hp |].
  split; [| split; [exact He |]].
  - intros entry Hentry Hsame.
    apply Hpin in Hentry as (u & Hu & -> & _ & _ & Hnotrej).
    simpl in Hsame. rewrite <- Hid in Hsame.
    rewrite (db_merge_row user' u db Hu Hsame) in Hnotrej. congruence.
  - split.
    + intros (entry & Hentry & Hsame).
      apply Hein in Hentry as (u & Hu & -> & Hur & Hua).
      simpl in Hsame. rewrite <- Hid in Hsame.
      rewrite (db_merge_row user' u db Hu Hsame) in Hur, Hua.
      rewrite <- Hrole, <- Happ. done.
    + intros [Hteach Hwas]. exists (educator_info user'). split; [| exact Hid].
      apply Hein. exists user'. split; [| split; [done |]].
      * apply (db_merge_member _ user); [by eapply first_where_member |].
        apply find_some_id in Hf. congruence.
      * rewrite Hrole, Happ. done.
Qed.

Lemma rejected_account_leaves_pending_list_witness :
  ∃ pending listed,
    get_pending_users sample_world_later
      (reject_user sample_world sample_db
         {| RejectUserRequest.user_id := 1;
            RejectUserRequest.rejection_reason := "left the school" |}
         (access_claims "k" 900 carol_payload)).2
      (access_claims "k" 8000 carol_payload) = ret pending
    ∧ get_educators sample_world_later
        (reject_user sample_world sample_db
           {| RejectUserRequest.user_id := 1;
              RejectUserRequest.rejection_reason := "left the school" |}
           (access_claims "k" 900 carol_payload)).2
        (access_claims "k" 8000 carol_payload) = ret listed
    ∧ ∃ entry, entry ∈ Educators.educators listed
               ∧ EducatorInfo.id entry = 1%Z.
Proof.
  destruct (reject_user sample_world sample_db
              {| RejectUserRequest.user_id := 1;
                 RejectUserRequest.rejection_reason := "left the school" |}
              (access_claims "k" 900 carol_payload))
    as [[e | response] db'] eqn:Hrun.
  - exfalso. vm_compute in Hrun. discriminate Hrun.
  - destruct (rejected_account_leaves_pending_list sample_world
                sample_world_later sample_db db' _
                (access_claims "k" 900 carol_payload)
                (access_claims "k" 8000 carol_payload) response
                Hrun eq_refl)
      as (pending & listed & user & Hf & Hp & _ & He & Hiff).
    exists pending, listed. split; [exact Hp |]. split; [exact He |].
    apply Hiff. injection Hf as <-.
    split; [by constructor | reflexivity].
Defined.

(** ** The life of a reset ticket *)

Lemma commit_inr_unique (w : World) (db db' : store) :
  commit w db = inr db' → unique_ok db = true.
Proof.
  unfold commit, raise, ret.
  destruct (commit_up w), (unique_ok db); simpl; congruence.
Qed.

Lemma same_ticket_same_row (db : store) (x y : User) (t : pystr) :
  NoDup (omap password_reset_token db) → x ∈ db → y ∈ db →
  password_reset_token x = Some t → password_reset_token y = Some t → x = y.
Proof.
  induction db as [|r db IH]; simpl; intros Hnd Hx Hy Htx Hty.
  - inversion Hx.
  - assert (∀ z, z ∈ db → password_reset_token z = Some t →
                 password_reset_token r = Some t → False) as Hclash.
    { intros z Hz Htz Htr. rewrite Htr in Hnd.
      apply NoDup_cons in Hnd as [Hnotin _]. apply Hnotin.
      apply list_elem_of_omap. eauto. }
    assert (NoDup (omap password_reset_token db)) as Hnd'.
    { destruct (password_reset_token r);
        [by apply NoDup_cons in Hnd as [_ ?] | done]. }
    apply elem_of_cons in Hx as [-> | Hx];
      apply elem_of_cons in Hy as [-> | Hy]; [done | | | by apply IH].
    + by destruct (Hclash y Hy Hty Htx).
    + by destruct (Hclash x Hx Htx Hty).
Qed.

Lemma unique_ticket_holder (db : store) (u : User) (t : pystr) :
  NoDup (omap password_reset_token db) → u ∈ db →
  password_reset_token u = Some t →
  first_where (λ r, bool_decide (password_reset_token r = Some t)) db
  = Some u.
Proof.
  intros Hnd Hu Ht.
  destruct (first_where _ db) as [r|] eqn:Hf.
  - f_equal. apply (same_ticket_same_row db r u t Hnd); [| done | | done].
    + by eapply first_where_member.
    + apply List.find_some in Hf as [_ H]. by apply bool_decide_eq_true in H.
  - unfold first_where in Hf. apply list_elem_of_In in Hu.
    pose proof (List.find_none _ _ Hf u Hu) as H. simpl in H.
    by rewrite bool_decide_true in H.
Qed.

Lemma unique_email_holder (db : store) (u : User) :
  NoDup (email <$> db) → u ∈ db →
  first_where (λ r, bool_decide (email r = email u)) db = Some u.
Proof.
  induction db as [|r db IH]; simpl; intros Hnd Hu; [inversion Hu |].
  apply NoDup_cons in Hnd as [Hr Hnd]. unfold first_where. simpl.
  case_bool_decide as He.
  - apply elem_of_cons in Hu as [-> | Hu]; [done |].
    destruct Hr. rewrite He. apply list_elem_of_fmap. eauto.
  - apply elem_of_cons in Hu as [-> | Hu]; [done |]. by apply IH.
Qed.

(** Merging a row with a ticket no row holds keeps the tickets distinct. *)
Lemma db_merge_fresh_ticket (u u0 : User) (t : pystr) (db : store) :
  NoDup (id <$> db) →
  first_where (λ r, bool_decide (id r = id u)) db = Some u0 →
  password_reset_token u = Some t →
  t ∉ omap password_reset_token db →
  NoDup (omap password_reset_token db) →
  NoDup (omap password_reset_token (db_merge u db)).
Proof.
  unfold first_where. induction db as [|r db IH]; simpl; [done |].
  intros Hnd Hfind Ht Hfresh Htok. apply NoDup_cons in Hnd as [Hr Hnd].
  assert ((t ∉ omap password_reset_token db)
          ∧ NoDup (omap password_reset_token db)) as [Hfresh' Htok'].
  { destruct (password_reset_token r).
    - apply not_elem_of_cons in Hfresh as [_ ?].
      by apply NoDup_cons in Htok as [_ ?].
    - done. }
  case_bool_decide as Hid; simpl in *.
  - rewrite db_merge_absent by (by rewrite <- Hid).
    rewrite Ht. by apply NoDup_cons.
  - specialize (IH Hnd Hfind Ht Hfresh' Htok').
    destruct (password_reset_token r) as [x|] eqn:Hx; [| done].
    apply not_elem_of_cons in Hfresh as [Hxt _].
    apply NoDup_cons in Htok as [Hxnew _].
    apply NoDup_cons. split; [| done].
    intros Hin. apply list_elem_of_omap in Hin as (y & Hy & Hyt).
    unfold db_merge in Hy. apply list_elem_of_fmap in Hy as (z & -> & Hz).
    case_bool_decide.
    + congruence.
    + apply Hxnew. apply list_elem_of_omap. eauto.
Qed.

Section TicketFacts.

Variables (w : World) (db : store) (request : ForgotPasswordRequest.t).

Let found : option User :=
  first_where
    (λ u, bool_decide (email u = ForgotPasswordRequest.email request)) db.

Let generic : ForgotPasswordResponse.t :=
  {| ForgotPasswordResponse.message := GENERIC_RESET_MESSAGE;
     ForgotPasswordResponse.email := ForgotPasswordRequest.email request |}.

Let ticketed (hours : Z) (user : User) : User :=
  set_password_reset_requested_at (Some (now w))
    (set_password_reset_expires (Some (now w + 3600 * hours)%Z)
       (set_password_reset_token (Some (token_urlsafe w)) user)).

Let mail_for (hours : Z) (user : User) : Notification :=
  {| to_email := email user;
     user_name := py_str (py_or (desired_name user) (first_name user));
     reset_token := token_urlsafe w;
     expires_in_hours := hours |}.

(** The only way a notification is handed over. *)
Lemma forgot_password_inv (r : M ForgotPasswordResponse.t) (db1 : store)
    (mail : Notification) (mails : list Notification) :
  forgot_password w db request = (r, db1, mail :: mails) →
  ∃ user hours,
    found = Some user
    ∧ getenv_int (PASSWORD_RESET_TOKEN_EXPIRY_HOURS w) 1 = ret hours
    ∧ commit w (db_merge (ticketed hours user) db) = ret db1
    ∧ db1 = db_merge (ticketed hours user) db
    ∧ mail = mail_for hours user
    ∧ mails = [].
Proof.
  unfold forgot_password, get_user_by_email, query_first.
  destruct (query_up w); [| discriminate].
  unfold ret at 1. cbv beta iota. fold found.
  destruct found as [user|]; [| discriminate].
  destruct (getenv_int _ 1) as [e | hours] eqn:Hh; [discriminate |].
  fold (ticketed hours user).
  destruct (commit w _) as [e | db'] eqn:Hc; [discriminate |].
  pose proof (commit_inr _ _ _ Hc) as ->.
  destruct (send_email w); [discriminate |].
  intros [= _ <- <- <-]. exists user, hours.
  repeat split; try done. by destruct user.
Qed.

Lemma forgot_password_run (user : User) (hours : Z) :
  query_up w = true → commit_up w = true → store_ok db →
  found = Some user →
  getenv_int (PASSWORD_RESET_TOKEN_EXPIRY_HOURS w) 1 = ret hours →
  token_urlsafe w ∉ omap password_reset_token db →
  store_ok (db_merge (ticketed hours user) db)
  ∧ forgot_password w db request
    = (ret generic, db_merge (ticketed hours user) db,
       match send_email w with
       | inl _ => []
       | inr _ => [mail_for hours user]
       end).
Proof.
  intros Hq Hc [Hnd Hu] Hf Hh Hfresh.
  pose proof (first_where_by_id_of_holder _ _ _ Hnd Hf) as Hbyid.
  assert (id (ticketed hours user) = id user) as Hid by (by destruct user).
  assert (store_ok (db_merge (ticketed hours user) db)) as Hok'.
  { split; [by rewrite db_merge_ids |].
    unfold unique_ok in *.
    apply andb_true_iff in Hu as [Hu Htok].
    apply andb_true_iff in Hu as [Hem Hun].
    rewrite (db_merge_column email _ user), (db_merge_column username _ user);
      [| done | by rewrite Hid | by destruct user
       | done | by rewrite Hid | by destruct user].
    rewrite Hem, Hun. simpl. apply bool_decide_eq_true.
    apply bool_decide_eq_true in Htok.
    apply (db_merge_fresh_ticket _ user (token_urlsafe w));
      [done | by rewrite Hid | by destruct user | done | done]. }
  split; [exact Hok' |].
  unfold forgot_password, get_user_by_email, query_first. rewrite Hq.
  unfold ret at 1. cbv beta iota. fold found. rewrite Hf, Hh.
  unfold ret at 1. cbv beta iota. fold (ticketed hours user).
  rewrite (commit_ok w _ Hc Hok'). unfold ret at 1. cbv beta iota.
  destruct (send_email w); [reflexivity |].
  unfold mail_for. by destruct user.
Qed.

End TicketFacts.

(** X9. What [forgot_password] does to the table. For an email no account
    has, nothing is written and nothing is sent. For a registered email,
    with the database answering, a well-formed store and a ticket no row
    holds yet, the row of the account gets the ticket drawn, an expiry of
    the configured number of hours (one when the variable is not set) after
    the current time and the current time as requested_at, with its
    password, role and approval untouched; the email service is handed the
    recipient, the display name (the desired name, else the first name),
    the ticket and the hours. The ticket stays stored when the email
    service fails. *)
Theorem forgot_password_effect (w : World) (db : store)
    (request : ForgotPasswordRequest.t) :
  query_up w = true →
  let found :=
    first_where
      (λ u, bool_decide (email u = ForgotPasswordRequest.email request)) db in
  (found = None →
     (forgot_password w db request).1.2 = db
     ∧ (forgot_password w db request).2 = [])
  ∧ (PASSWORD_RESET_TOKEN_EXPIRY_HOURS w = Unset →
     getenv_int (PASSWORD_RESET_TOKEN_EXPIRY_HOURS w) 1 = ret 1%Z)
  ∧ (∀ user hours,
       found = Some user →
       getenv_int (PASSWORD_RESET_TOKEN_EXPIRY_HOURS w) 1 = ret hours →
       commit_up w = true → store_ok db →
       token_urlsafe w ∉ omap password_reset_token db →
       ∃ user',
         (forgot_password w db request).1.2 = db_merge user' db
         ∧ first_where (λ r, bool_decide (id r = id user)) (db_merge user' db)
           = Some user'
         ∧ password_reset_token user' = Some (token_urlsafe w)
         ∧ password_reset_expires user' = Some (now w + 3600 * hours)%Z
         ∧ password_reset_requested_at user' = Some (now w)
         ∧ hashed_password user' = hashed_password user
         ∧ role user' = role user
         ∧ is_approved user' = is_approved user
         ∧ (forgot_password w db request).2
           = match send_email w with
             | inl _ => []
             | inr _ =>
                 [{| to_email := email user;
                     user_name :=
                       py_str (py_or (desired_name user) (first_name user));
                     reset_token := token_urlsafe w;
                     expires_in_hours := hours |}]
             end).
Proof.
  intros Hq found. split; [| split].
  - intros Hf. unfold forgot_password, get_user_by_email, query_first.
    rewrite Hq. unfold ret at 1. cbv beta iota. fold found. rewrite Hf. done.
  - intros ->. reflexivity.
  - intros user hours Hf Hh Hc Hok Hfresh.
    destruct (forgot_password_run w db request user hours
                Hq Hc Hok Hf Hh Hfresh) as [Hok' Hrun].
    eexists. rewrite Hrun. cbn [fst snd].
    split; [reflexivity |]. split.
    + apply (find_db_merge _ _ user); [by destruct user |].
      apply (first_where_by_id_of_holder _ _ _ (proj1 Hok) Hf).
    + by destruct user.
Qed.

(** A reset is requested for [carol], who holds no ticket. *)
Lemma forgot_password_effect_witness :
  ∃ user',
    (forgot_password sample_world sample_db
       {| ForgotPasswordRequest.email := "carol@x.com" |}).1.2
    = db_merge user' sample_db
    ∧ password_reset_token user' = Some (codepoints "ticket-2")
    ∧ password_reset_expires user' = Some 4600%Z
    ∧ (forgot_password sample_world sample_db
         {| ForgotPasswordRequest.email := "carol@x.com" |}).2
      = [{| to_email := "carol@x.com"; user_name := "Carol";
            reset_token := "ticket-2"; expires_in_hours := 1 |}].
Proof.
  destruct (forgot_password_effect sample_world sample_db
              {| ForgotPasswordRequest.email := "carol@x.com" |} eq_refl)
    as (_ & _ & H).
  destruct (H carol 1%Z eq_refl eq_refl eq_refl sample_db_ok)
    as (user' & Hdb & _ & Htok & Hexp & _ & _ & _ & _ & Hmail).
  { vm_compute. intros Hin.
    apply list_elem_of_In in Hin. simpl in Hin.
    destruct Hin as [Hin | []]. discriminate Hin. }
  exists user'. repeat split; assumption.
Defined.

Lemma unique_ok_inv (db : store) :
  unique_ok db = true →
  NoDup (email <$> db) ∧ NoDup (username <$> db)
  ∧ NoDup (omap password_reset_token db).
Proof.
  unfold unique_ok. intros H.
  apply andb_true_iff in H as [H Htok]. apply andb_true_iff in H as [Hem Hun].
  apply bool_decide_eq_true in Hem, Hun, Htok. done.
Qed.

(** After a merge that takes the ticket [t] away from its holder, no row
    holds [t]. *)
Lemma no_holder_after_merge (db : store) (u u0 : User) (t : pystr) :
  NoDup (omap password_reset_token db) → u0 ∈ db →
  password_reset_token u0 = Some t → id u = id u0 →
  password_reset_token u ≠ Some t →
  first_where (λ r, bool_decide (password_reset_token r = Some t))
    (db_merge u db) = None.
Proof.
  intros Hnd Hu0 Ht0 Hid Ht. apply first_where_none. intros r Hr.
  apply bool_decide_eq_false. intros Hrt.
  destruct (decide (id r = id u)) as [Hsame | Hdiff].
  - rewrite (db_merge_row u r db Hr Hsame) in Hrt. done.
  - apply db_merge_other_inv in Hr; [| done].
    assert (r = u0) as -> by (by apply (same_ticket_same_row db r u0 t)).
    congruence.
Qed.

Section TicketLife.

Variable str_lower : pystr → pystr.
Variable argon2_hash : pystr → pystr → pystr.
Variable argon2_verify : pystr → pystr → bool.

(** X10. A ticket that was mailed can be redeemed, and the new password
    then opens the account. If [forgot_password] on a well-formed store
    handed a notification to the email service, then [reset_password] with
    the ticket of that notification and a password that meets the policy,
    made no later than the mailed number of hours after the request,
    succeeds; afterwards [authenticate_user] with the recipient's email and
    the new password returns the account, whose ticket is cleared. *)
Theorem mailed_ticket_resets_password (w w2 w3 : World) (db db1 : store)
    (request : ForgotPasswordRequest.t) (r : M ForgotPasswordResponse.t)
    (mail : Notification) (new_password : pystr) :
  store_ok db →
  forgot_password w db request = (r, db1, [mail]) →
  is_valid (validate_password str_lower new_password []) = true →
  query_up w2 = true → commit_up w2 = true →
  (now w2 ≤ now w + 3600 * expires_in_hours mail)%Z →
  query_up w3 = true →
  argon2_verify new_password (argon2_hash (salt w2) new_password) = true →
  ∃ response db2 user2,
    reset_password str_lower argon2_hash w2 db1
      {| ResetPasswordRequest.token := reset_token mail;
         ResetPasswordRequest.new_password := new_password |}
    = (ret response, db2)
    ∧ ResetPasswordResponse.email response = to_email mail
    ∧ authenticate_user argon2_verify w3 db2 (to_email mail) new_password
      = ret (Some user2)
    ∧ email user2 = ForgotPasswordRequest.email request
    ∧ password_reset_token user2 = None
    ∧ password_reset_expires user2 = None
    ∧ hashed_password user2 = argon2_hash (salt w2) new_password.
Proof.
  intros [Hnd Hu] Hforgot Hp Hq2 Hc2 Hle Hq3 Hverify.
  apply forgot_password_inv in Hforgot
    as (user & hours & Hf & _ & Hc & -> & -> & _).
  match type of Hc with commit w (db_merge ?u db) = _ => set (user1 := u) in * end.
  assert (id user1 = id user) as Hid1 by (by destruct user).
  pose proof (first_where_member _ _ _ Hf) as Hin.
  assert (email user = ForgotPasswordRequest.email request) as Hemail.
  { apply List.find_some in Hf as [_ H]. by apply bool_decide_eq_true in H. }
  assert (store_ok (db_merge user1 db)) as Hok1.
  { split; [by rewrite db_merge_ids | by eapply commit_inr_unique]. }
  destruct (unique_ok_inv _ (proj2 Hok1)) as (_ & _ & Htok1).
  assert (user1 ∈ db_merge user1 db) as Hin1
    by (by apply (db_merge_member _ user)).
  pose proof (unique_ticket_holder _ user1 (token_urlsafe w) Htok1 Hin1
                ltac:(by destruct user)) as Hholder.
  set (reset_request :=
         {| ResetPasswordRequest.token := token_urlsafe w;
            ResetPasswordRequest.new_password := new_password |}).
  pose proof (reset_password_redeem str_lower argon2_hash w2
                (db_merge user1 db) reset_request user1
                (now w + 3600 * hours)%Z Hp Hq2 Hholder
                ltac:(by destruct user) Hle) as Hrun.
  cbv zeta in Hrun.
  match type of Hrun with
  | context [commit w2 (db_merge ?u _)] => set (user2 := u) in *
  end.
  assert (store_ok (db_merge user2 (db_merge user1 db))) as Hok2.
  { apply (store_ok_merge _ user1);
      [done | | by destruct user | by destruct user | right; by destruct user].
    replace (id user2) with (id user1) by (by destruct user).
    by apply (first_where_by_id_of_holder _ _ _ (proj1 Hok1) Hholder). }
  rewrite (commit_ok w2 _ Hc2 Hok2) in Hrun.
  exists {| ResetPasswordResponse.message := RESET_DONE_MESSAGE;
            ResetPasswordResponse.email := email user1 |},
    (db_merge user2 (db_merge user1 db)), user2.
  split; [exact Hrun |]. split; [by destruct user |].
  split; [| by destruct user].
  destruct (unique_ok_inv _ (proj2 Hok2)) as (Hem2 & _ & _).
  assert (user2 ∈ db_merge user2 (db_merge user1 db)) as Hin2.
  { apply (db_merge_member _ user1); [done | by destruct user]. }
  pose proof (unique_email_holder _ user2 Hem2 Hin2) as Hby_email.
  unfold authenticate_user, get_user_by_email, query_first.
  rewrite Hq3, M_bind_ret.
  replace (to_email _) with (email user2) by (by destruct user).
  rewrite Hby_email. unfold verify_password.
  replace (hashed_password user2)
    with (argon2_hash (salt w2) new_password) by (by destruct user).
  by rewrite Hverify.
Qed.

(** X11. A ticket is good for one reset. After a successful
    [reset_password] on a well-formed store, the same request made again,
    at any time, is refused with 400 "Invalid or expired password reset
    link" and changes nothing. *)
Theorem reset_password_consumes_ticket (w w' : World) (db db' : store)
    (request : ResetPasswordRequest.t) (response : ResetPasswordResponse.t) :
  store_ok db →
  reset_password str_lower argon2_hash w db request = (ret response, db') →
  query_up w' = true →
  reset_password str_lower argon2_hash w' db' request
  = (raise (HTTPException HTTP_400_BAD_REQUEST (Msg RESET_NOT_FOUND_MESSAGE)),
     db').
Proof.
  intros [Hnd Hu] Hrun Hq'.
  destruct (unique_ok_inv _ Hu) as (_ & _ & Htok).
  assert (is_valid (validate_password str_lower
            (ResetPasswordRequest.new_password request) []) = true) as Hp.
  { unfold reset_password in Hrun.
    destruct (is_valid _); [reflexivity | discriminate Hrun]. }
  assert (query_up w = true) as Hq.
  { unfold reset_password, query_first in Hrun. rewrite Hp in Hrun.
    destruct (query_up w); [reflexivity | discriminate Hrun]. }
  destruct (reset_password_cases str_lower w db request Hp Hq)
    as [Hh | [(user & Hh & Hr) | (user & expires & Hh & He & Hle)]].
  - rewrite (reset_password_not_found _ _ _ _ _ Hp Hq Hh) in Hrun.
    discriminate Hrun.
  - rewrite (reset_password_run_out _ _ _ _ _ user Hp Hq Hh Hr) in Hrun.
    discriminate Hrun.
  - rewrite (reset_password_redeem str_lower argon2_hash w db request
               user expires Hp Hq Hh He Hle) in Hrun.
    destruct (commit w _) as [e | db1] eqn:Hc; [discriminate Hrun |].
    apply commit_inr in Hc as ->. injection Hrun as _ <-.
    apply reset_password_not_found; [exact Hp | exact Hq' |].
    apply (no_holder_after_merge db _ user); [exact Htok | | | | ].
    + by eapply first_where_member.
    + apply List.find_some in Hh as [_ H]. by apply bool_decide_eq_true in H.
    + by destruct user.
    + by destruct user.
Qed.

(** X12. A newer ticket replaces the older one. If [forgot_password] on a
    well-formed store handed out a notification for an account that held
    another ticket, then [reset_password] with the older ticket is refused
    with 400 "Invalid or expired password reset link", even before that
    ticket expires. *)
Theorem forgot_password_replaces_ticket (w w2 : World) (db db1 : store)
    (request : ForgotPasswordRequest.t) (r : M ForgotPasswordResponse.t)
    (mail : Notification) (user : User) (older new_password : pystr) :
  store_ok db →
  forgot_password w db request = (r, db1, [mail]) →
  first_where
    (λ u, bool_decide (email u = ForgotPasswordRequest.email request)) db
  = Some user →
  password_reset_token user = Some older →
  older ≠ reset_token mail →
  is_valid (validate_password str_lower new_password []) = true →
  query_up w2 = true →
  reset_password str_lower argon2_hash w2 db1
    {| ResetPasswordRequest.token := older;
       ResetPasswordRequest.new_password := new_password |}
  = (raise (HTTPException HTTP_400_BAD_REQUEST (Msg RESET_NOT_FOUND_MESSAGE)),
     db1).
Proof.
  intros [Hnd Hu] Hforgot Hf Holder Hne Hp Hq2.
  destruct (unique_ok_inv _ Hu) as (_ & _ & Htok).
  apply forgot_password_inv in Hforgot
    as (user0 & hours & Hf0 & _ & _ & -> & -> & _).
  rewrite Hf in Hf0. injection Hf0 as <-.
  apply reset_password_not_found; [exact Hp | exact Hq2 |].
  apply (no_holder_after_merge db _ user); [exact Htok | | exact Holder | | ].
  - by eapply first_where_member.
  - by destruct user.
  - simpl in Hne. destruct user; simpl in *. congruence.
Qed.

End TicketLife.

(** [carol] asks for a reset at 1000, redeems the ticket at 1900 and
    authenticates with the new password. *)
Lemma mailed_ticket_resets_password_witness :
  ∃ response db2 user2,
    reset_password ascii_lower sample_hash sample_world_soon
      (forgot_password sample_world sample_db forgot_carol).1.2
      {| ResetPasswordRequest.token := "ticket-2";
         ResetPasswordRequest.new_password := "N3w$ecretPass!!" |}
    = (ret response, db2)
    ∧ authenticate_user sample_verify sample_world_later db2 "carol@x.com"
        "N3w$ecretPass!!" = ret (Some user2)
    ∧ password_reset_token user2 = None.
Proof.
  destruct (mailed_ticket_resets_password ascii_lower sample_hash
              sample_verify sample_world sample_world_soon sample_world_later
              sample_db (forgot_password sample_world sample_db forgot_carol).1.2
              forgot_carol
              (forgot_password sample_world sample_db forgot_carol).1.1
              {| to_email := "carol@x.com"; user_name := "Carol";
                 reset_token := "ticket-2"; expires_in_hours := 1 |}
              "N3w$ecretPass!!" sample_db_ok)
    as (response & db2 & user2 & Hrun & _ & Hauth & _ & Htok & _).
  - vm_compute. reflexivity.
  - reflexivity.
  - reflexivity.
  - reflexivity.
  - vm_compute. discriminate.
  - reflexivity.
  - vm_compute. reflexivity.
  - exists response, db2, user2. repeat split; assumption.
Defined.

(** [alice] redeems her ticket at 1000; the same request at 1900 is
    refused. *)
Lemma reset_password_consumes_ticket_witness :
  reset_password ascii_lower sample_hash sample_world_soon
    (reset_password ascii_lower sample_hash sample_world sample_db
       reset_alice).2 reset_alice
  = (raise (HTTPException HTTP_400_BAD_REQUEST (Msg RESET_NOT_FOUND_MESSAGE)),
     (reset_password ascii_lower sample_hash sample_world sample_db
        reset_alice).2).
Proof.
  destruct (reset_password ascii_lower sample_hash sample_world sample_db
              reset_alice) as [[e | response] db'] eqn:Hrun.
  - exfalso. vm_compute in Hrun. discriminate Hrun.
  - apply (reset_password_consumes_ticket ascii_lower sample_hash
             sample_world sample_world_soon sample_db db' reset_alice
             response sample_db_ok Hrun eq_refl).
Defined.

(** [alice], who holds "ticket-1", asks for another reset at 1000: she is
    mailed "ticket-2", and "ticket-1" is refused from then on. *)
Lemma forgot_password_replaces_ticket_witness :
  reset_password ascii_lower sample_hash sample_world
    (forgot_password sample_world sample_db forgot_alice).1.2 reset_alice
  = (raise (HTTPException HTTP_400_BAD_REQUEST (Msg RESET_NOT_FOUND_MESSAGE)),
     (forgot_password sample_world sample_db forgot_alice).1.2).
Proof.
  apply (forgot_password_replaces_ticket ascii_lower sample_hash
           sample_world sample_world sample_db
           (forgot_password sample_world sample_db forgot_alice).1.2
           forgot_alice
           (forgot_password sample_world sample_db forgot_alice).1.1
           {| to_email := "alice@x.com"; user_name := "Alice";
              reset_token := "ticket-2"; expires_in_hours := 1 |}
           alice "ticket-1" "N3w$ecretPass!!" sample_db_ok).
  - vm_compute. reflexivity.
  - reflexivity.
  - reflexivity.
  - vm_compute. discriminate.
  - reflexivity.
  - reflexivity.
Defined.

(** ** Login and what its token opens *)

Section LoginTokens.

Variable SECRET_KEY : string.
Variable argon2_verify : pystr → pystr → bool.

Let payload_of (user : User) (r : Role) : TokenPayload :=
  {| tp_user_id := id user; tp_email := email user; tp_role := r;
     tp_first_name := first_name user; tp_last_name := last_name user;
     tp_desired_name := desired_name user |}.

Lemma login_run (w : World) (db : store) (credentials : LoginRequest.t)
    (e : pystr) (user : User) (r : Role) :
  query_up w = true →
  py_or (LoginRequest.email credentials) (LoginRequest.username credentials)
  = Some e →
  truthy_pystr e = true →
  first_where (λ u, bool_decide (email u = e)) db = Some user →
  argon2_verify (LoginRequest.password credentials) (hashed_password user)
  = true →
  role user = codepoints (Role_value r) →
  login SECRET_KEY argon2_verify w db credentials
  = ret {| LoginResponse.access_token :=
             create_access_token SECRET_KEY (now w) (payload_of user r);
           LoginResponse.token_type := "bearer";
           LoginResponse.user := _build_user_info user |}.
Proof.
  intros Hq Hor He Hf Hv Hrole. unfold login. rewrite Hor. simpl. rewrite He.
  simpl. unfold authenticate_user, get_user_by_email, query_first.
  rewrite Hq, M_bind_ret, Hf. unfold verify_password. rewrite Hv. simpl.
  unfold token_payload_of. rewrite Hrole, Role_of_value. reflexivity.
Qed.



(** X13. [login] checks the email and the password and nothing else. For
    the email of an account, a password that verifies against its hash
    and a stored role that is the value of a [Role], it answers with the
    account's data and an access token that [get_current_user] accepts at
    once and that carries the account's id (as "user_id"), email and role;
    is_approved, is_rejected and is_active play no part. *)
Theorem login_issues_access_token (w : World) (db : store)
    (e password : pystr) (any_username : option pystr) (user : User)
    (r : Role) :
  query_up w = true →
  truthy_pystr e = true →
  first_where (λ u, bool_decide (email u = e)) db = Some user →
  argon2_verify password (hashed_password user) = true →
  role user = codepoints (Role_value r) →
  ∃ response claims,
    login SECRET_KEY argon2_verify w db
      {| LoginRequest.email := Some e;
         LoginRequest.username := any_username;
         LoginRequest.password := password |} = ret response
    ∧ LoginResponse.user response = _build_user_info user
    ∧ LoginResponse.token_type response = codepoints "bearer"
    ∧ get_current_user SECRET_KEY (now w) (LoginResponse.access_token response)
      = ret claims
    ∧ claims !! "user_id" = Some (JInt (id user))
    ∧ claims !! "email" = Some (JStr (email user))
    ∧ claims !! "role" = Some (JStr (role user)).
Proof.
  intros Hq He Hf Hv Hrole.
  eexists _, (access_claims SECRET_KEY (now w) (payload_of user r)).
  split.
  { apply (login_run w db _ e user r); try done. simpl. by rewrite He. }
  split; [reflexivity |]. split; [reflexivity |]. split.
  { simpl. apply get_current_user_access. lia. }
  destruct (access_claims_lookup SECRET_KEY (now w) (payload_of user r))
    as (_ & _ & Hr & Huid & _).
  split; [exact Huid |]. split; [| by rewrite Hrole].
  unfold access_claims, create_access_token, jwt_encode, model_dump. simpl.
  by simplify_map_eq.
Qed.

(** X14. A stored role that is not the value of a [Role] (PUT /users/{id}
    stores any non-empty string) locks the account out: [login] with the
    right email and password answers 500 "Failed to generate authentication
    token". *)
Theorem login_unknown_role_fails (w : World) (db : store)
    (e password : pystr) (any_username : option pystr) (user : User) :
  query_up w = true →
  truthy_pystr e = true →
  first_where (λ u, bool_decide (email u = e)) db = Some user →
  argon2_verify password (hashed_password user) = true →
  (∀ r, role user ≠ codepoints (Role_value r)) →
  login SECRET_KEY argon2_verify w db
    {| LoginRequest.email := Some e;
       LoginRequest.username := any_username;
       LoginRequest.password := password |}
  = raise (HTTPException HTTP_500_INTERNAL_SERVER_ERROR
             (Msg "Failed to generate authentication token")).
Proof.
  intros Hq He Hf Hv Hrole. unfold login. simpl. rewrite He. simpl.
  unfold authenticate_user, get_user_by_email, query_first.
  rewrite Hq, M_bind_ret, Hf. unfold verify_password. rewrite Hv. simpl.
  unfold token_payload_of. rewrite (Role_of_unknown _ Hrole), ?He.
  reflexivity.
Qed.


End LoginTokens.

(** [bob], pending, rejected and inactive, logs in. *)
Lemma login_issues_access_token_witness :
  ∃ response claims,
    login "k" sample_verify sample_world sample_db login_bob = ret response
    ∧ get_current_user "k" 1000 (LoginResponse.access_token response)
      = ret claims
    ∧ claims !! "role" = Some (JStr "pending")
    ∧ is_approved bob = false ∧ is_rejected bob = true
    ∧ is_active bob = false.
Proof.
  destruct (login_issues_access_token "k" sample_verify sample_world
              sample_db "bob@x.com" "An0ther$ecretPass" None bob PENDING
              eq_refl eq_refl eq_refl eq_refl eq_refl)
    as (response & claims & Hlogin & _ & _ & Hg & _ & _ & Hrole).
  exists response, claims. repeat split; assumption.
Defined.

(** [alice] is made a "counselor" through PUT /users/1 and then logs in
    with her email and password. *)
Lemma login_unknown_role_fails_witness :
  login "k" sample_verify sample_world
    (update_user sample_world sample_db 1 alice_as_counselor).2
    login_alice_by_email
  = raise (HTTPException HTTP_500_INTERNAL_SERVER_ERROR
             (Msg "Failed to generate authentication token")).
Proof.
  apply (login_unknown_role_fails "k" sample_verify sample_world
           (update_user sample_world sample_db 1 alice_as_counselor).2
           "alice@x.com" "Sup3r$ecretPass!" None
           (set_role "counselor" alice)).
  - reflexivity.
  - reflexivity.
  - vm_compute. reflexivity.
  - vm_compute. reflexivity.
  - intros r. destruct r; vm_compute; discriminate.
Defined.


(** ** Creating accounts *)

Lemma next_id_above (db : store) (r : User) :
  r ∈ db → (id r < next_id db)%Z.
Proof.
  unfold next_id. induction db as [|x db IH]; intros Hr.
  - inversion Hr.
  - rewrite fmap_cons. cbn [foldr].
    pose proof (Z.le_max_l (id x) (foldr Z.max 0%Z (id <$> db))).
    pose proof (Z.le_max_r (id x) (foldr Z.max 0%Z (id <$> db))).
    apply elem_of_cons in Hr as [-> | Hr]; [lia |].
    specialize (IH Hr). lia.
Qed.

Lemma next_id_fresh (db : store) : next_id db ∉ id <$> db.
Proof.
  intros Hin. apply list_elem_of_fmap in Hin as (r & Hid & Hr).
  apply next_id_above in Hr. lia.
Qed.

Lemma unique_username_holder (db : store) (u : User) :
  NoDup (username <$> db) → u ∈ db →
  first_where (λ r, bool_decide (username r = username u)) db = Some u.
Proof.
  induction db as [|r db IH]; simpl; intros Hnd Hu; [inversion Hu |].
  apply NoDup_cons in Hnd as [Hr Hnd]. unfold first_where. simpl.
  case_bool_decide as He.
  - apply elem_of_cons in Hu as [-> | Hu]; [done |].
    destruct Hr. rewrite He. apply list_elem_of_fmap. eauto.
  - apply elem_of_cons in Hu as [-> | Hu]; [done |]. by apply IH.
Qed.

Section CreateUserFacts.

Variable argon2_hash : pystr → pystr → pystr.
Variables (w : World) (db : store).
Variables (email' username' password : pystr).
Variables (first_name' last_name' : option pystr).
Variables (role' : pystr) (is_approved' : bool).

Let created : User :=
  {| id := next_id db; email := email'; username := username';
     first_name := first_name'; last_name := last_name';
     desired_name := None; phone := None;
     hashed_password := argon2_hash (salt w) password; is_active := true;
     password_reset_token := None; password_reset_expires := None;
     password_reset_requested_at := None;
     role := role'; is_approved := is_approved';
     approved_at := None; approved_by_id := JNull;
     approval_notes := None;
     is_rejected := false; rejected_at := None; rejected_by_id := JNull;
     rejection_reason := None; registered_date := None;
     timezone := None |}.

Lemma create_user_unique :
  unique_ok (db ++ [created])
  = unique_ok db
    && bool_decide (email' ∉ email <$> db)
    && bool_decide (username' ∉ username <$> db).
Proof.
  unfold unique_ok. rewrite !fmap_app, omap_app. simpl.
  rewrite app_nil_r.
  destruct (bool_decide (NoDup (omap password_reset_token db)));
    [| by rewrite !andb_false_r].
  rewrite !andb_true_r.
  assert (∀ (l : list pystr) x,
            bool_decide (NoDup (l ++ [x]))
            = bool_decide (NoDup l) && bool_decide (x ∉ l)) as Hsnoc.
  { intros l x. rewrite <- bool_decide_and. apply bool_decide_ext.
    rewrite NoDup_app. split.
    - intros (Hl & Hx & _). split; [done |]. intros Hin.
      apply (Hx x Hin). by constructor.
    - intros [Hl Hx]. split; [done |]. split.
      + intros y Hy Hyx. apply list_elem_of_singleton in Hyx as ->. done.
      + apply NoDup_singleton. }
  rewrite !Hsnoc.
  destruct (bool_decide (NoDup (email <$> db))),
    (bool_decide (NoDup (username <$> db))),
    (bool_decide (email' ∉ email <$> db)),
    (bool_decide (username' ∉ username <$> db)); reflexivity.
Qed.

Lemma create_user_run :
  create_user argon2_hash w db email' username' password first_name'
    last_name' role' is_approved'
  = match commit w (db ++ [created]) with
    | inl e => (raise e, db)
    | inr db' => (ret created, db')
    end.
Proof. reflexivity. Qed.

End CreateUserFacts.

(** X16. [create_user] of db.py and the lookups. On a well-formed store,
    with the commit going through: when neither the email nor the username
    is taken, the account is appended with a new id, the hash of the
    password, is_active true and no ticket, the store stays well formed,
    and [get_user_by_email] and [get_user_by_username] then find exactly
    that account; when the email or the username is taken, the call raises
    [IntegrityError] and the store is left as it was. *)
Theorem create_user_then_lookup (argon2_hash : pystr → pystr → pystr)
    (w : World) (db : store) (email' username' password : pystr)
    (first_name' last_name' : option pystr) (role' : pystr)
    (is_approved' : bool) :
  commit_up w = true → store_ok db →
  let result :=
    create_user argon2_hash w db email' username' password first_name'
      last_name' role' is_approved' in
  ((∀ u, u ∈ db → email u ≠ email' ∧ username u ≠ username') →
     ∃ u,
       result = (ret u, db ++ [u])
       ∧ store_ok (db ++ [u])
       ∧ (id u ∉ id <$> db)
       ∧ email u = email' ∧ username u = username'
       ∧ hashed_password u = argon2_hash (salt w) password
       ∧ role u = role' ∧ is_approved u = is_approved'
       ∧ is_active u = true ∧ password_reset_token u = None
       ∧ ∀ w', query_up w' = true →
           get_user_by_email w' (db ++ [u]) email' = ret (Some u)
           ∧ get_user_by_username w' (db ++ [u]) username' = ret (Some u))
  ∧ ((∃ u, u ∈ db ∧ (email u = email' ∨ username u = username')) →
     result = (raise IntegrityError, db)).
Proof.
  intros Hc [Hnd Hu] result. subst result. rewrite create_user_run.
  match goal with
  | |- context [commit w (db ++ [?c])] => set (created := c)
  end.
  pose proof (create_user_unique argon2_hash w db email' username' password
                first_name' last_name' role' is_approved') as Huniq.
  cbv zeta in Huniq. fold created in Huniq.
  split.
  - intros Hfree.
    assert (email' ∉ email <$> db) as He.
    { intros Hin. apply list_elem_of_fmap in Hin as (u & Heq & Hin).
      by destruct (Hfree u Hin) as [H _]. }
    assert (username' ∉ username <$> db) as Hn.
    { intros Hin. apply list_elem_of_fmap in Hin as (u & Heq & Hin).
      by destruct (Hfree u Hin) as [_ H]. }
    assert (store_ok (db ++ [created])) as Hok'.
    { split.
      - rewrite fmap_app. apply NoDup_app. split; [done |]. split.
        + intros x Hx Hx'. apply list_elem_of_singleton in Hx'. subst x.
          by apply (next_id_fresh db).
        + apply NoDup_singleton.
      - rewrite Huniq, Hu. by rewrite !bool_decide_true. }
    exists created. rewrite (commit_ok w _ Hc Hok').
    split; [reflexivity |]. split; [exact Hok' |].
    split; [apply next_id_fresh |].
    repeat (split; [reflexivity |]).
    intros w' Hq'. unfold get_user_by_email, get_user_by_username, query_first.
    rewrite Hq'.
    destruct (unique_ok_inv _ (proj2 Hok')) as (Hem & Hun & _).
    assert (created ∈ db ++ [created]) as Hin
      by (apply elem_of_app; right; by constructor).
    split; f_equal.
    + apply (unique_email_holder _ created Hem Hin).
    + apply (unique_username_holder _ created Hun Hin).
  - intros (u & Hin & Htaken). unfold commit. rewrite Hc. simpl.
    rewrite Huniq, Hu. simpl.
    destruct Htaken as [<- | <-].
    + rewrite (bool_decide_false (email u ∉ _)); [reflexivity |].
      intros Hnot. apply Hnot. apply list_elem_of_fmap. eauto.
    + rewrite (bool_decide_false (username u ∉ _));
        [by rewrite andb_false_r |].
      intros Hnot. apply Hnot. apply list_elem_of_fmap. eauto.
Qed.

(** A fourth account is added to [sample_db]; a second one with the email
    of [alice] is refused. *)
Lemma create_user_then_lookup_witness :
  (∃ u,
     create_user sample_hash sample_world sample_db "dave@x.com" "dave"
       "Sup3r$ecretPass!" None None "pending" false
     = (ret u, sample_db ++ [u])
     ∧ id u = 4%Z
     ∧ get_user_by_email sample_world_later (sample_db ++ [u]) "dave@x.com"
       = ret (Some u))
  ∧ create_user sample_hash sample_world sample_db "alice@x.com" "alice2"
      "Sup3r$ecretPass!" None None "pending" false
    = (raise IntegrityError, sample_db).
Proof.
  split.
  - destruct (create_user_then_lookup sample_hash sample_world sample_db
                "dave@x.com" "dave" "Sup3r$ecretPass!" None None "pending"
                false eq_refl sample_db_ok) as [Hnew _].
    destruct Hnew as (u & Hrun & _ & _ & _ & _ & _ & _ & _ & _ & _ & Hlook).
    { intros u Hu. apply list_elem_of_In in Hu. simpl in Hu.
      destruct Hu as [<- | [<- | [<- | []]]]; split; vm_compute; discriminate. }
    exists u. split; [exact Hrun |]. split.
    + vm_compute in Hrun. injection Hrun as <-. reflexivity.
    + apply (Hlook sample_world_later eq_refl).
  - destruct (create_user_then_lookup sample_hash sample_world sample_db
                "alice@x.com" "alice2" "Sup3r$ecretPass!" None None "pending"
                false eq_refl sample_db_ok) as [_ Htaken].
    apply Htaken. exists alice. split; [by constructor | by left].
Defined.

Lemma register_keywords_refused :
  forallb (λ k, bool_decide (k ∈ create_user_parameters))
    ["db"; "email"; "username"; "password"; "first_name"; "last_name";
     "desired_name"; "phone"] = false.
Proof. vm_compute. reflexivity. Qed.

Lemma create_educator_keywords_refused :
  forallb (λ k, bool_decide (k ∈ create_user_parameters))
    ["db"; "email"; "password"; "first_name"; "last_name"; "username";
     "desired_name"; "phone"] = false.
Proof. vm_compute. reflexivity. Qed.

Section NoAccountCreated.

Variable str_lower : pystr → pystr.
Variable argon2_hash : pystr → pystr → pystr.
Variables (w : World) (db : store).

(** X17. As the code stands, [register] never creates an account: every
    call ends in an exception and leaves the table as it was. A
    registration that passes the password policy and finds email and
    username free reaches the call of [create_user], which is made with
    the keywords [desired_name] and [phone] that [create_user] does not
    declare, and ends in [TypeError] (a 500 for the client). *)
Theorem register_never_creates (user_data : RegisterRequest.t) :
  (register str_lower argon2_hash w db user_data).2 = db
  ∧ (∀ response,
       (register str_lower argon2_hash w db user_data).1 ≠ ret response)
  ∧ (query_up w = true →
     is_valid (validate_password str_lower
                 (RegisterRequest.password user_data)
                 (before_at (RegisterRequest.email user_data))) = true →
     (∀ u, u ∈ db → email u ≠ RegisterRequest.email user_data
                    ∧ username u ≠ RegisterRequest.username user_data) →
     (register str_lower argon2_hash w db user_data).1
     = raise (TypeError "create_user() got an unexpected keyword argument")
     ∧ status_of (register str_lower argon2_hash w db user_data).1 = 500%Z).
Proof.
  split; [| split].
  - unfold register.
    destruct (negb _); [reflexivity |].
    destruct (user_exists w db _ None) as [e | []]; [reflexivity .. |].
    destruct (get_user_by_username w db _) as [e | [u|]];
      [by destruct (is_SQLAlchemyError e) | reflexivity |].
    unfold call_create_user. rewrite register_keywords_refused. reflexivity.
  - intros response. unfold register.
    destruct (negb _); [discriminate |].
    destruct (user_exists w db _ None) as [e | []]; [discriminate .. |].
    destruct (get_user_by_username w db _) as [e | [u|]];
      [by destruct (is_SQLAlchemyError e) | discriminate |].
    unfold call_create_user. rewrite register_keywords_refused. discriminate.
  - intros Hq Hp Hfree.
    assert (∀ p : User → bool, (∀ u, u ∈ db → p u = false) →
              query_first w p db = ret None) as Hnone.
    { intros p Hpn. unfold query_first. rewrite Hq.
      by rewrite (first_where_none p db Hpn). }
    assert ((register str_lower argon2_hash w db user_data).1
            = raise (TypeError
                       "create_user() got an unexpected keyword argument"))
      as Hrun.
    { unfold register. rewrite Hp. simpl negb. cbv iota.
      assert (user_exists w db (Some (RegisterRequest.email user_data)) None
              = ret false) as ->.
      { unfold user_exists. simpl.
        destruct (truthy_pystr (RegisterRequest.email user_data));
          simpl; [| reflexivity].
        rewrite Hnone; [reflexivity |].
        intros u Hu. apply bool_decide_eq_false. intros [= He].
        by destruct (Hfree u Hu) as [H _]. }
      unfold ret at 1. cbv iota.
      unfold get_user_by_username. rewrite Hnone.
      - unfold ret at 1. cbv iota.
        unfold call_create_user. rewrite register_keywords_refused.
        reflexivity.
      - intros u Hu. apply bool_decide_eq_false.
        by destruct (Hfree u Hu) as [_ H]. }
    rewrite Hrun. split; reflexivity.
Qed.

(** X18. As the code stands, [create_educator] never creates an account
    either: every call ends in an exception and leaves the table as it
    was, and a request with a valid role, a free email and a free username
    ends in the [TypeError] of the same call of [create_user]. *)
Theorem create_educator_never_creates (request : CreateEducatorRequest.t)
    (current_user : gmap string jval) :
  (create_educator argon2_hash w db request current_user).2 = db
  ∧ (∀ info,
       (create_educator argon2_hash w db request current_user).1 ≠ ret info)
  ∧ (query_up w = true →
     CreateEducatorRequest.role request ∈ valid_educator_roles →
     (∀ u, u ∈ db → email u ≠ CreateEducatorRequest.email request
                    ∧ username u ≠ CreateEducatorRequest.username request) →
     (create_educator argon2_hash w db request current_user).1
     = raise (TypeError "create_user() got an unexpected keyword argument")).
Proof.
  split; [| split].
  - unfold create_educator. case_bool_decide; [reflexivity |].
    destruct (get_user_by_email w db _ ≫= _) as [e | []]; [reflexivity |].
    unfold call_create_user. rewrite create_educator_keywords_refused.
    reflexivity.
  - intros info. unfold create_educator. case_bool_decide; [discriminate |].
    destruct (get_user_by_email w db _ ≫= _) as [e | []]; [discriminate |].
    unfold call_create_user. rewrite create_educator_keywords_refused.
    discriminate.
  - intros Hq Hrole Hfree.
    assert (∀ p : User → bool, (∀ u, u ∈ db → p u = false) →
              query_first w p db = ret None) as Hnone.
    { intros p Hpn. unfold query_first. rewrite Hq.
      by rewrite (first_where_none p db Hpn). }
    unfold create_educator.
    rewrite bool_decide_false by (intros H; exact (H Hrole)).
    assert (get_user_by_email w db (CreateEducatorRequest.email request)
            = ret None) as Hemail.
    { apply Hnone. intros u Hu. apply bool_decide_eq_false.
      by destruct (Hfree u Hu) as [H1 H2]. }
    assert (get_user_by_username w db (CreateEducatorRequest.username request)
            = ret None) as Husername.
    { apply Hnone. intros u Hu. apply bool_decide_eq_false.
      by destruct (Hfree u Hu) as [H1 H2]. }
    rewrite Hemail, M_bind_ret. cbv beta.
    rewrite bool_decide_false by (intros H; exact (H eq_refl)).
    rewrite Husername, M_bind_ret. cbv beta.
    rewrite bool_decide_false by (intros H; exact (H eq_refl)).
    unfold call_create_user. rewrite create_educator_keywords_refused.
    by destruct (truthy_pystr (CreateEducatorRequest.username request)).
Qed.

End NoAccountCreated.

(** ** Educators *)



Lemma filter_keeps_NoDup_fmap {A} (f : User → A) (p : User → bool)
    (l : list User) :
  NoDup (f <$> l) → NoDup (f <$> List.filter p l).
Proof.
  induction l as [|r l IH]; simpl; [done |].
  intros Hnd. apply NoDup_cons in Hnd as [Hr Hnd].
  destruct (p r); simpl; [| by apply IH].
  apply NoDup_cons. split; [| by apply IH].
  intros Hin. apply Hr. apply list_elem_of_fmap in Hin as (x & -> & Hx).
  apply list_elem_of_In, List.filter_In in Hx as [Hx _].
  apply list_elem_of_fmap. exists x. by rewrite list_elem_of_In.
Qed.

Lemma filter_keeps_NoDup_omap {A} (f : User → option A) (p : User → bool)
    (l : list User) :
  NoDup (omap f l) → NoDup (omap f (List.filter p l)).
Proof.
  induction l as [|r l IH]; simpl; [done |].
  intros Hnd.
  assert (NoDup (omap f l)) as Hnd'.
  { destruct (f r); [by apply NoDup_cons in Hnd as [_ ?] | done]. }
  destruct (p r); simpl; [| by apply IH].
  destruct (f r) as [a|] eqn:Ha; [| by apply IH].
  apply NoDup_cons in Hnd as [Hr _]. apply NoDup_cons. split; [| by apply IH].
  intros Hin. apply Hr. apply list_elem_of_omap in Hin as (x & Hx & Hfx).
  apply list_elem_of_In, List.filter_In in Hx as [Hx _].
  apply list_elem_of_omap. exists x. by rewrite list_elem_of_In.
Qed.

Lemma store_ok_delete (u : User) (db : store) :
  store_ok db → store_ok (db_delete u db).
Proof.
  intros [Hnd Hu]. destruct (unique_ok_inv _ Hu) as (Hem & Hun & Htok).
  unfold db_delete. split; [by apply filter_keeps_NoDup_fmap |].
  unfold unique_ok.
  rewrite !bool_decide_true;
    [reflexivity | by apply filter_keeps_NoDup_omap
     | by apply filter_keeps_NoDup_fmap | by apply filter_keeps_NoDup_fmap].
Qed.

(** X20. With the database answering and the store well formed,
    [delete_educator] answers 404 for an id no row has; for any other id,
    whatever the role of the account, it answers with the account's email
    and removes exactly the row with that id: every other row stays, and a
    lookup by that id then finds nothing. *)
Theorem delete_educator_effect (w : World) (db : store) (educator_id : Z)
    (current_user : gmap string jval) :
  query_up w = true → commit_up w = true → store_ok db →
  let by_id := λ u, bool_decide (id u = educator_id) in
  (first_where by_id db = None →
     ∃ d, delete_educator w db educator_id current_user
          = (raise (HTTPException HTTP_404_NOT_FOUND d), db))
  ∧ (∀ educator, first_where by_id db = Some educator →
       ∃ db',
         delete_educator w db educator_id current_user
         = (ret (email educator), db')
         ∧ store_ok db'
         ∧ (∀ r, r ∈ db' ↔ r ∈ db ∧ id r ≠ educator_id)
         ∧ first_where by_id db' = None).
Proof.
  intros Hq Hc Hok by_id. split.
  - intros Hf. eexists. unfold delete_educator, query_first.
    rewrite Hq, M_bind_ret. fold by_id. rewrite Hf. reflexivity.
  - intros educator Hf. pose proof (find_some_id _ _ _ Hf) as Hid.
    exists (db_delete educator db).
    assert (∀ r, r ∈ db_delete educator db ↔ r ∈ db ∧ id r ≠ educator_id)
      as Hrows.
    { intros r. unfold db_delete.
      rewrite list_elem_of_In, List.filter_In, <- list_elem_of_In.
      rewrite negb_true_iff, bool_decide_eq_false, Hid. done. }
    split; [| split; [by apply store_ok_delete | split; [exact Hrows |]]].
    + unfold delete_educator, query_first. rewrite Hq, M_bind_ret.
      fold by_id. rewrite Hf.
      rewrite (commit_ok w _ Hc (store_ok_delete educator db Hok)).
      reflexivity.
    + apply first_where_none. intros r Hr. apply Hrows in Hr as [_ Hne].
      by apply bool_decide_eq_false.
Qed.

(** The administrator [carol] is deleted. *)
Lemma delete_educator_effect_witness :
  ∃ db',
    delete_educator sample_world sample_db 3
      (access_claims "k" 900 carol_payload)
    = (ret (codepoints "carol@x.com"), db')
    ∧ first_where (λ u, bool_decide (id u = 3%Z)) db' = None
    ∧ alice ∈ db' ∧ bob ∈ db'.
Proof.
  destruct (delete_educator_effect sample_world sample_db 3
              (access_claims "k" 900 carol_payload)
              eq_refl eq_refl sample_db_ok) as [_ H].
  destruct (H carol eq_refl) as (db' & Hrun & _ & Hrows & Hgone).
  exists db'. split; [exact Hrun |]. split; [exact Hgone |].
  split; apply Hrows; (split; [| vm_compute; discriminate]).
  - by constructor.
  - constructor. by constructor.
Defined.

(** ** PUT /users/{user_id} *)

(** X21. What [update_user], which asks for no credentials, can change.
    Whatever it answers, the store it leaves is the old one, or the old one
    with the row of that id replaced by a row whose role is the request's
    when that is a non-empty string (any string at all) and whose
    hashed_password, approval, rejection, active flag and reset ticket are
    what they were. *)
Theorem update_user_frame (w : World) (db : store) (user_id : Z)
    (user : UserUpdate.t) :
  (update_user w db user_id user).2 = db
  ∨ ∃ u u',
      first_where (λ r, bool_decide (id r = user_id)) db = Some u
      ∧ (update_user w db user_id user).2 = db_merge u' db
      ∧ id u' = user_id
      ∧ role u'
        = (if falsy_opt (UserUpdate.role user) then role u
           else or_empty (UserUpdate.role user))
      ∧ username u' = username u
      ∧ hashed_password u' = hashed_password u
      ∧ is_approved u' = is_approved u
      ∧ is_rejected u' = is_rejected u
      ∧ is_active u' = is_active u
      ∧ password_reset_token u' = password_reset_token u.
Proof.
  unfold update_user, query_first.
  destruct (query_up w); [| by left]. cbn.
  destruct (first_where _ db) as [u|] eqn:Hf; [| by left].
  match goal with |- context [commit w (db_merge ?r db)] => set (u' := r) end.
  destruct (commit w _) as [e | db1] eqn:Hc; [by destruct e; left |].
  apply commit_inr in Hc as ->. right. exists u, u'.
  split; [reflexivity |].
  split; [by destruct (_build_user_response u') as [[] |] |].
  apply find_some_id in Hf. subst u'.
  destruct user as [em fn ln ro dn ph tz]. unfold set_if_truthy. cbn.
  by destruct (falsy_opt em), (falsy_opt fn), (falsy_opt ln), (falsy_opt ro),
       dn, ph, tz, u.
Qed.

(** X22. [update_user] writes before it builds its answer. For a row that
    has no first name (as [create_user] stores one when none is given) and a
    request that brings neither a first name nor an email, it answers 400,
    and the change, the new role included, is committed all the same. *)
Theorem update_user_commits_before_answering (w : World) (db : store)
    (user_id : Z) (user : UserUpdate.t) (u : User) :
  query_up w = true → commit_up w = true → store_ok db →
  first_where (λ r, bool_decide (id r = user_id)) db = Some u →
  first_name u = None →
  falsy_opt (UserUpdate.first_name user) = true →
  falsy_opt (UserUpdate.email user) = true →
  ∃ d u',
    update_user w db user_id user
    = (raise (HTTPException HTTP_400_BAD_REQUEST d), db_merge u' db)
    ∧ id u' = user_id
    ∧ role u'
      = (if falsy_opt (UserUpdate.role user) then role u
         else or_empty (UserUpdate.role user)).
Proof.
  intros Hq Hc Hok Hf Hfirst Hfn Hem.
  unfold update_user, query_first. rewrite Hq. cbn. rewrite Hf.
  match goal with |- context [commit w (db_merge ?r db)] => set (u' := r) end.
  pose proof (find_some_id _ _ _ Hf) as Hid.
  assert (id u' = user_id ∧ email u' = email u ∧ username u' = username u
          ∧ password_reset_token u' = password_reset_token u
          ∧ first_name u' = None
          ∧ role u' = (if falsy_opt (UserUpdate.role user) then role u
                       else or_empty (UserUpdate.role user)))
    as (Hid' & Hemail & Huser & Htok & Hfirst' & Hrole).
  { subst u'. destruct user as [em fn ln ro dn ph tz].
    unfold set_if_truthy. cbn in Hfn, Hem |- *. rewrite Hfn, Hem.
    by destruct (falsy_opt ln), (falsy_opt ro), dn, ph, tz, u. }
  assert (store_ok (db_merge u' db)) as Hok'.
  { apply store_ok_merge with u; try done.
    - by rewrite Hid'.
    - by left. }
  rewrite (commit_ok w _ Hc Hok').
  unfold _build_user_response. rewrite Hfirst'.
  eexists _, u'. split; [reflexivity |]. by split.
Qed.

Lemma update_user_commits_before_answering_witness :
  ∃ d u',
    update_user sample_world sample_db_with_dave 4 dave_as_teacher
    = (raise (HTTPException HTTP_400_BAD_REQUEST d),
       db_merge u' sample_db_with_dave)
    ∧ id u' = 4%Z
    ∧ role u' = codepoints "teacher".
Proof.
  assert (store_ok sample_db_with_dave) as Hok.
  { split; [compute_done | reflexivity]. }
  exact (update_user_commits_before_answering sample_world
           sample_db_with_dave 4 dave_as_teacher dave
           eq_refl eq_refl Hok eq_refl eq_refl eq_refl eq_refl).
Defined.

(** ** POST /users/{user_id}/change-password *)

Section ChangePasswordFacts.

Variable SECRET_KEY : string.
Variable argon2_hash : pystr → pystr → pystr.
Variable argon2_verify : pystr → pystr → bool.
Variable py_int : pystr → option Z.

(** Claims that [get_current_user] lets through are the claims the token
    was signed with. *)
Lemma get_current_user_signed (now : Z) (k : string)
    (claims c : gmap string jval) :
  get_current_user SECRET_KEY now (Signed k claims) = ret c → c = claims.
Proof.
  unfold get_current_user, verify_token, jwt_decode.
  case_bool_decide; simpl; [| discriminate].
  destruct (claims !! "exp") as [[| exp | s] |]; simpl; try discriminate;
    try (destruct (exp <=? now)%Z; simpl; try discriminate);
    case_bool_decide; simpl; unfold raise, ret; congruence.
Qed.

(** Without a "sub" claim the handler answers 401. *)
Lemma change_password_no_subject (w : World) (db : store) (user_id : Z)
    (request : ChangePasswordRequest.t) (current_user : gmap string jval) :
  current_user !! "sub" = None →
  ∃ d, change_password argon2_hash argon2_verify py_int w db user_id request
         current_user
       = (raise (HTTPException HTTP_401_UNAUTHORIZED d), db).
Proof.
  intros Hsub. unfold change_password, dict_get. rewrite Hsub. simpl.
  case_bool_decide; eauto.
Qed.

(** X23. No token the service issues opens [change_password]. For a token
    made by [create_access_token] or by [create_refresh_token], whenever it
    is presented and whatever the path id and the two passwords, the
    endpoint answers 401 and leaves the table as it was: the handler reads
    the caller's id under "sub", and the tokens carry it under "user_id". *)
Theorem change_password_refuses_issued_tokens (w : World) (db : store)
    (now0 : Z) (p : TokenPayload) (user_id : Z)
    (request : ChangePasswordRequest.t) :
  (∃ d, change_password_endpoint SECRET_KEY argon2_hash argon2_verify py_int
          w db (create_access_token SECRET_KEY now0 p) user_id request
        = (raise (HTTPException HTTP_401_UNAUTHORIZED d), db))
  ∧ (∃ d, change_password_endpoint SECRET_KEY argon2_hash argon2_verify
            py_int w db (create_refresh_token SECRET_KEY now0 p) user_id
            request
          = (raise (HTTPException HTTP_401_UNAUTHORIZED d), db)).
Proof.
  split; unfold change_password_endpoint.
  - destruct (get_current_user_ret_or_401 SECRET_KEY (now w)
                (create_access_token SECRET_KEY now0 p)) as [[c Hc] | [d Hd]].
    + rewrite Hc. rewrite create_access_token_signed in Hc.
      apply get_current_user_signed in Hc as ->.
      apply change_password_no_subject.
      by destruct (access_claims_lookup SECRET_KEY now0 p) as (_ & _ & _ & _ & ?).
    + rewrite Hd. eauto.
  - destruct (get_current_user_ret_or_401 SECRET_KEY (now w)
                (create_refresh_token SECRET_KEY now0 p)) as [[c Hc] | [d Hd]].
    + rewrite Hc. rewrite refresh_claims_lookup in Hc.
      apply get_current_user_signed in Hc as ->.
      apply change_password_no_subject. by simplify_map_eq.
    + rewrite Hd. eauto.
Qed.

(** X24. When [change_password] succeeds. With the database answering and
    the store well formed, the handler answers with success exactly when
    the "sub" claim reads as the path id, a row has that id, the current
    password verifies against its hash, the new password passes
    [validate] and does not verify against the old hash. The store is then
    the old one with that row's hashed_password replaced by the hash of the
    new password, and nothing else changed. *)
Theorem change_password_succeeds_iff (w : World) (db db' : store)
    (user_id : Z) (request : ChangePasswordRequest.t)
    (current_user : gmap string jval) (response : ChangePasswordResponse.t) :
  query_up w = true → commit_up w = true → store_ok db →
  change_password argon2_hash argon2_verify py_int w db user_id request
    current_user = (ret response, db')
  ↔ ∃ user,
      int_of_claim py_int (dict_get current_user "sub") = ret user_id
      ∧ first_where (λ u, bool_decide (id u = user_id)) db = Some user
      ∧ verify_password argon2_verify
          (ChangePasswordRequest.current_password request)
          (hashed_password user) = true
      ∧ (validate (ChangePasswordRequest.new_password request)).1 = true
      ∧ verify_password argon2_verify
          (ChangePasswordRequest.new_password request)
          (hashed_password user) = false
      ∧ db' = db_merge
                (set_hashed_password
                   (hash_password argon2_hash w
                      (ChangePasswordRequest.new_password request)) user) db
      ∧ response
        = {| ChangePasswordResponse.message := "Password changed successfully";
             ChangePasswordResponse.success := true |}.
Proof.
  intros Hq Hc Hok. unfold change_password, query_first. rewrite Hq.
  set (v := validate _). clearbody v. split.
  - case_bool_decide as Hempty; [discriminate |].
    case_bool_decide as Hnull; [discriminate |].
    destruct (int_of_claim py_int (dict_get current_user "sub"))
      as [e | auth_user_id] eqn:Hint; [destruct e; discriminate |].
    case_bool_decide as Hown; [discriminate |]. subst auth_user_id.
    cbn.
    destruct (first_where _ db) as [user|] eqn:Hf; [| discriminate].
    destruct (verify_password argon2_verify
                (ChangePasswordRequest.current_password request) _) eqn:Hcur;
      [| discriminate].
    destruct v as [is_valid errors].
    destruct is_valid; [| discriminate].
    destruct (verify_password argon2_verify
                (ChangePasswordRequest.new_password request) _) eqn:Hnew;
      [discriminate |].
    cbn.
    destruct (commit w _) as [e | db1] eqn:Hcommit; [discriminate |].
    apply commit_inr in Hcommit as ->. intros [= <- <-].
    exists user. by repeat split.
  - intros (user & Hint & Hf & Hcur & Hval & Hnew & -> & ->).
    rewrite bool_decide_false.
    2: { intros ->. unfold dict_get in Hint. by rewrite lookup_empty in Hint. }
    rewrite bool_decide_false.
    2: { intros Hnull. by rewrite Hnull in Hint. }
    rewrite Hint. cbn [ret].
    rewrite bool_decide_false by (intros H; exact (H eq_refl)).
    rewrite Hf, Hcur.
    destruct v as [is_valid errors]. simpl in Hval. subst is_valid.
    rewrite Hnew. cbn [negb].
    rewrite commit_ok; [reflexivity | exact Hc |].
    apply (store_ok_merge _ user);
      [done | | by destruct user | by destruct user | left; by destruct user].
    replace (id _) with user_id; [exact Hf |].
    rewrite <- (find_some_id _ _ _ Hf). by destruct user.
Qed.

End ChangePasswordFacts.

Lemma change_password_succeeds_iff_witness :
  ∃ response db',
    change_password sample_hash sample_verify (λ _, None) sample_world
      sample_db 1 change_alice alice_subject = (ret response, db')
    ∧ first_where (λ u, bool_decide (id u = 1%Z)) db'
      = Some (set_hashed_password
                (sample_hash "s2" "N3w$ecretPass!!") alice).
Proof.
  eexists _, _. split.
  - apply (change_password_succeeds_iff sample_hash sample_verify (λ _, None)
             sample_world sample_db _ 1 change_alice alice_subject _
             eq_refl eq_refl sample_db_ok).
    exists alice. repeat split; vm_compute; reflexivity.
  - vm_compute. reflexivity.
Defined.

(** ** POST /auth/check-email *)

Lemma first_where_some_iff (p : User → bool) (db : store) :
  first_where p db ≠ None ↔ ∃ u, u ∈ db ∧ p u = true.
Proof.
  unfold first_where. split.
  - destruct (List.find p db) as [u|] eqn:Hf; [intros _ | done].
    apply List.find_some in Hf as [Hin Hp]. exists u.
    by rewrite list_elem_of_In.
  - intros (u & Hin & Hp) Hnone. apply list_elem_of_In in Hin.
    pose proof (List.find_none _ _ Hnone u Hin) as Hp'. congruence.
Qed.

(** X25. With the database answering, [check_email] on a non-empty address
    answers true exactly when some row holds that address, compared as it
    is written (no lower-casing); it asks for no credentials. *)
Theorem check_email_tells_registration (w : World) (db : store)
    (email' : pystr) :
  query_up w = true → email' ≠ [] →
  ∃ b, check_email w db email' = ret b
       ∧ (b = true ↔ ∃ u, u ∈ db ∧ email u = email').
Proof.
  intros Hq Hne. unfold check_email, user_exists, query_first.
  destruct email' as [|c email']; [done |]. simpl.
  rewrite Hq, M_bind_ret. eexists. split; [reflexivity |].
  rewrite bool_decide_eq_true, first_where_some_iff.
  split; intros (u & Hin & Hu); exists u; (split; [exact Hin |]).
  - apply bool_decide_eq_true in Hu. congruence.
  - apply bool_decide_eq_true. congruence.
Qed.

Lemma check_email_tells_registration_witness :
  ∃ b, check_email sample_world sample_db (codepoints "alice@x.com") = ret b
       ∧ (b = true
          ↔ ∃ u, u ∈ sample_db ∧ email u = codepoints "alice@x.com").
Proof.
  apply (check_email_tells_registration sample_world sample_db
           (codepoints "alice@x.com")); [reflexivity | vm_compute; discriminate].
Defined.

(** ** The password rules the handlers apply *)

Lemma existsb_elem_of (p : N → bool) (s : pystr) :
  existsb p s = true ↔ ∃ c, c ∈ s ∧ p c = true.
Proof.
  rewrite existsb_exists. split; intros (c & Hc & Hp); exists c;
    (split; [by apply list_elem_of_In | exact Hp]).
Qed.

(** X26. [validate], the check that [reset_password] and [change_password]
    apply to a new password, accepts exactly the passwords of at least 12
    code points that hold an A-Z, an a-z, a decimal digit and a character
    of the special set; the rule on the username is not part of it. Its
    list of messages is empty exactly when it accepts. *)
Theorem validate_accepts_iff (password : pystr) :
  ((validate password).1 = true
   ↔ long_enough password ∧ some_uppercase password
     ∧ some_lowercase password ∧ some_digit password
     ∧ some_special password)
  ∧ ((validate password).1 = true ↔ (validate password).2 = []).
Proof.
  assert (has_uppercase password = true ↔ some_uppercase password) as Hup.
  { unfold has_uppercase, some_uppercase. rewrite existsb_elem_of.
    split; intros (c & Hc & H); exists c; (split; [exact Hc |]).
    - apply andb_true_iff in H as [H1 H2].
      apply N.leb_le in H1, H2. lia.
    - apply andb_true_iff. split; apply N.leb_le; lia. }
  assert (has_lowercase password = true ↔ some_lowercase password) as Hlo.
  { unfold has_lowercase, some_lowercase. rewrite existsb_elem_of.
    split; intros (c & Hc & H); exists c; (split; [exact Hc |]).
    - apply andb_true_iff in H as [H1 H2].
      apply N.leb_le in H1, H2. lia.
    - apply andb_true_iff. split; apply N.leb_le; lia. }
  assert (has_digit password = true ↔ some_digit password) as Hdi.
  { unfold has_digit, some_digit. by rewrite existsb_elem_of. }
  assert (has_special password = true ↔ some_special password) as Hsp.
  { unfold has_special, some_special. rewrite existsb_elem_of.
    split; intros (c & Hc & H); exists c; (split; [exact Hc |]).
    - by apply bool_decide_eq_true in H.
    - by apply bool_decide_eq_true. }
  assert ((length password <? MIN_LENGTH)%nat = false ↔ long_enough password)
    as Hlen.
  { unfold long_enough, MIN_LENGTH. rewrite Nat.ltb_ge. done. }
  rewrite <- Hup, <- Hlo, <- Hdi, <- Hsp, <- Hlen.
  unfold validate. simpl.
  destruct (length password <? MIN_LENGTH)%nat, (has_uppercase password),
    (has_lowercase password), (has_digit password), (has_special password);
    simpl; split; split; try done; try tauto; intros; exfalso; intuition congruence.
Qed.
